(** * Configuration validator and quality gate of oh-my-claude

    A shallow embedding of [lib/quality-gate.js], [lib/config-validator.js],
    [lib/errors.js] and [lib/config-schema.js], followed by the properties
    that the specification states about them.

    Conventions of the embedding:
    - a JavaScript string is a [string]; a property that is only ever read
      for its truthiness ([pass], [skip], [enabled], [autoFix]) is a [bool];
      a property that may be absent is an [option];
    - a lookup [table[key]] in an object literal goes through
      [Object.prototype], see [Js.table_get];
    - the file system is a finite map from paths to nodes;
    - a function that can raise returns a [Js.completion]. *)

From Stdlib Require Import Ascii.
From stdpp Require Import base strings list gmap pretty.

#[local] Open Scope string_scope.
#[local] Open Scope list_scope.
#[local] Set Warnings "-register-all".

(** ** JavaScript values *)

Module Js.

(** The tagged value type of a configuration document.  Numbers are
    integers: the code only ever tests a number for being zero. *)
Inductive json : Type :=
  | JNull
  | JBool (b : bool)
  | JNum (n : Z)
  | JStr (s : string)
  | JArr (items : list json)
  | JObj (fields : list (string * json)).

(** [!!v] *)
Definition truthy (v : json) : bool :=
  match v with
  | JNull => false
  | JBool b => b
  | JNum n => negb (n =? 0)%Z
  | JStr s => negb (String.eqb s EmptyString)
  | JArr _ | JObj _ => true
  end.

(** [typeof v === 'object'], which holds of [null] and of arrays too. *)
Definition typeof_object (v : json) : bool :=
  match v with
  | JNull | JArr _ | JObj _ => true
  | JBool _ | JNum _ | JStr _ => false
  end.

Fixpoint obj_get (fields : list (string * json)) (k : string) : option json :=
  match fields with
  | [] => None
  | (k', v) :: rest => if String.eqb k' k then Some v else obj_get rest k
  end.

(** [obj[k] = v]: overwrite in place, or add the property at the end. *)
Fixpoint obj_set (k : string) (v : json) (fields : list (string * json))
  : list (string * json) :=
  match fields with
  | [] => [(k, v)]
  | (k', v') :: rest =>
      if String.eqb k' k then (k, v) :: rest else (k', v') :: obj_set k v rest
  end.

(** [v.k] for a data property [k]; an array or a primitive has no such
    property, so the read is [undefined]. *)
Definition prop (v : json) (k : string) : option json :=
  match v with
  | JObj fields => obj_get fields k
  | _ => None
  end.

(** [a || b] on strings that may be absent. *)
Definition or_else (a : option string) (b : option string) : option string :=
  match a with
  | Some s => if String.eqb s EmptyString then b else Some s
  | None => b
  end.

(** The text of [${x}] in a template literal. *)
Definition show (x : option string) : string :=
  match x with
  | Some s => s
  | None => "undefined"
  end.

(** The names every object literal inherits from [Object.prototype]. *)
Definition object_prototype_keys : list string :=
  [ "constructor"; "__defineGetter__"; "__defineSetter__"; "hasOwnProperty";
    "__lookupGetter__"; "__lookupSetter__"; "isPrototypeOf";
    "propertyIsEnumerable"; "toString"; "valueOf"; "__proto__";
    "toLocaleString" ].

Definition mem (k : string) (l : list string) : bool :=
  existsb (String.eqb k) l.

(** The outcome of [table[key]] for an object literal [table]: one of its
    own values, a member of [Object.prototype] (a function, or the
    prototype object itself), or [undefined]. *)
Inductive slot (A : Type) : Type :=
  | Own (a : A)
  | Inherited
  | Undefined.
Arguments Own {A} a.
Arguments Inherited {A}.
Arguments Undefined {A}.

Fixpoint assoc {A : Type} (table : list (string * A)) (k : string) : option A :=
  match table with
  | [] => None
  | (k', a) :: rest => if String.eqb k' k then Some a else assoc rest k
  end.

Definition table_get {A : Type} (table : list (string * A)) (k : string) : slot A :=
  match assoc table k with
  | Some a => Own a
  | None => if mem k object_prototype_keys then Inherited else Undefined
  end.

(** An operand of [>=] as the comparison takes it: a number, a text (what
    a function or an object converts to), or a value whose numeric
    conversion is [NaN]. *)
Inductive num : Type :=
  | Num (n : nat)
  | Text (s : string)
  | NaN.

(** [a >= b]: two numbers by size, two texts by their code units; a text
    against a number converts to [NaN], and nothing is [>=] or [<=]
    [NaN]. *)
Definition num_ge (a b : num) : bool :=
  match a, b with
  | Num x, Num y => Nat.leb y x
  | Text s, Text t => String.leb t s
  | _, _ => false
  end.

(** The text that the member [key] of [Object.prototype] converts to when
    it is compared: [Object.prototype] itself for [__proto__], the
    function [Object] for [constructor], the function of that name for
    every other key, printed as Node prints a native function. *)
Definition member_text (key : string) : string :=
  if String.eqb key "__proto__" then "[object Object]"
  else if String.eqb key "constructor" then "function Object() { [native code] }"
  else "function " +:+ key +:+ "() { [native code] }".

(** Normal return or a raised exception. *)
Inductive completion (A E : Type) : Type :=
  | Returned (a : A)
  | Raised (e : E).
Arguments Returned {A E} a.
Arguments Raised {A E} e.

End Js.

(** ** The file system *)

Module Fs.

Inductive node : Type :=
  | RegularFile (content : string)
  | Directory.

Abbreviation t := (gmap string node).

Definition existsSync (fs : t) (p : string) : bool :=
  match fs !! p with
  | Some _ => true
  | None => false
  end.

(** [fs.readFileSync(p, 'utf-8')]; [None] when the call raises. *)
Definition readFileSync (fs : t) (p : string) : option string :=
  match fs !! p with
  | Some (RegularFile content) => Some content
  | _ => None
  end.

Definition writeFileSync (fs : t) (p : string) (content : string) : t :=
  <[p := RegularFile content]> fs.

End Fs.

(** ** Rules and rule results *)

(** What a rule's [check] hands back. *)
Module CheckReturn.
Record t : Type := {
  message : option string;
  pass : bool;
  skip : bool;
  fix_ : option string;
  autoFix : bool;
  details : option Js.json
}.
End CheckReturn.

(** What [await rule.check(filePath, config)] comes to: an object, or
    an exception.  The [catch] clause of the gate reads [e.message]: of
    an [Error], and of every value thrown other than [null] and
    [undefined], the read succeeds, and [message] is the text the
    template literal makes of it; of [null] and [undefined] (a promise
    rejected without a reason, say) the read itself raises.  A check that
    returns no object, or a rule without a [check], raises a [TypeError]
    inside the [try] and is an exception with a message as well. *)
Inductive CheckOutcome : Type :=
  | Returns (result : CheckReturn.t)
  | Throws (message : string)
  | ThrowsNullish.

(** A rule object.  A rule handed to [check] without a [severity] has
    [undefined] there, which the gate only uses as the key of a table and
    as the operand of a [switch]: it is the string [undefined] here. *)
Module Rule.
Record t : Type := {
  id : string;
  name : string;
  severity : string;
  enabled : bool;
  config : option (gmap string Js.json);
  category : option string;
  fix_ : option string;
  check : Fs.t -> string -> gmap string Js.json -> CheckOutcome
}.

Definition with_enabled (b : bool) (r : t) : t :=
  {| id := id r; name := name r; severity := severity r; enabled := b;
     config := config r; category := category r; fix_ := fix_ r;
     check := check r |}.

Definition with_severity (s : string) (r : t) : t :=
  {| id := id r; name := name r; severity := s; enabled := enabled r;
     config := config r; category := category r; fix_ := fix_ r;
     check := check r |}.

Definition with_config (c : gmap string Js.json) (r : t) : t :=
  {| id := id r; name := name r; severity := severity r; enabled := enabled r;
     config := Some c; category := category r; fix_ := fix_ r;
     check := check r |}.
End Rule.

Module RuleResult.
Record t : Type := {
  file : string;
  rule : string;
  ruleName : string;
  severity : string;
  message : option string;
  pass : bool;
  skip : bool;
  fix_ : option string;
  autoFix : bool;
  details : option Js.json
}.
End RuleResult.

Module GateSummary.
Record t : Type := {
  total : nat;
  critical : nat;
  error : nat;
  warn : nat;
  info : nat;
  filesChecked : nat;
  rulesRun : nat;
  fixed : option nat
}.
End GateSummary.

Module CheckResult.
Record t : Type := {
  passed : bool;
  results : list RuleResult.t;
  summary : GateSummary.t
}.
End CheckResult.

(** ** The rule registry *)

Module RuleRegistry.

(** Modelled from the spec: the registry class of [lib/quality-rules], of
    which only the tests and the callers are at hand.  The spec calls it
    "an in-memory catalog keyed by rule id" and "a mutable catalog of
    named quality rules".  The catalog is the list of its rule objects in
    registration order; a reference to a rule object is its position in
    that list, so that a write through one reference is seen through
    every other one. *)
Abbreviation t := (list Rule.t).
Abbreviation ref := nat.

(** Modelled from the spec: the position of the first rule of the
    catalog that satisfies [p], the lookup behind [get]. *)
Fixpoint find_index (p : Rule.t -> bool) (reg : t) : option ref :=
  match reg with
  | [] => None
  | r :: rest => if p r then Some 0 else S <$> find_index p rest
  end.

(** Modelled from the spec: "[get(id)] -> rule object or a null/empty
    sentinel (never throws for unknown id)". *)
Definition get (reg : t) (id : string) : option ref :=
  find_index (fun r => String.eqb (Rule.id r) id) reg.

(** Modelled from the spec: the second argument of [register],
    "[{name?, severity?, enabled?, config?, category?, check}]". *)
Module Entry.
Record t : Type := {
  name : option string;
  severity : option string;
  enabled : option bool;
  config : option (gmap string Js.json);
  category : option string;
  fix_ : option string;
  check : Fs.t -> string -> gmap string Js.json -> CheckOutcome
}.
End Entry.

(** Modelled from the spec: "unspecified [name] defaults to [id];
    unspecified [severity] defaults to ["warn"]; unspecified [enabled]
    defaults to [true] (explicit [false] is honored); [config] defaults to
    [{}]". *)
Definition make (id : string) (entry : Entry.t) : Rule.t :=
  {| Rule.id := id;
     Rule.name := default id (Entry.name entry);
     Rule.severity := default "warn" (Entry.severity entry);
     Rule.enabled := default true (Entry.enabled entry);
     Rule.config := Some (default ∅ (Entry.config entry));
     Rule.category := Entry.category entry;
     Rule.fix_ := Entry.fix_ entry;
     Rule.check := Entry.check entry |}.

(** Modelled from the spec: "re-registering an id overwrites in place". *)
Definition register (reg : t) (id : string) (entry : Entry.t) : t :=
  match get reg id with
  | Some r => <[r := make id entry]> reg
  | None => reg ++ [make id entry]
  end.

(** Modelled from the spec: the argument of [getAll], "combinable
    filters on [enabled], [severity], [category]". *)
Module Filter.
Record t : Type := {
  enabled : option bool;
  severity : option string;
  category : option string
}.
End Filter.

(** Modelled from the spec: a rule passes a filter when it agrees with
    every field the filter gives. *)
Definition matches (f : Filter.t) (r : Rule.t) : bool :=
  match Filter.enabled f with
  | Some b => Bool.eqb (Rule.enabled r) b
  | None => true
  end
  && match Filter.severity f with
     | Some s => String.eqb (Rule.severity r) s
     | None => true
     end
  && match Filter.category f with
     | Some c =>
         match Rule.category r with
         | Some c' => String.eqb c' c
         | None => false
         end
     | None => true
     end.

(** Modelled from the spec: the references, counted from [i], to the
    rules of the catalog that satisfy [p], in registration order. *)
Fixpoint indices_from (i : nat) (p : Rule.t -> bool) (reg : t) : list ref :=
  match reg with
  | [] => []
  | r :: rest =>
      if p r then i :: indices_from (S i) p rest else indices_from (S i) p rest
  end.

(** Modelled from the spec: "[getAll(filter?)] supports combinable
    filters on [enabled], [severity], [category]; omitting [filter]
    returns everything, including disabled rules." *)
Definition getAll (reg : t) (filter : option Filter.t) : list ref :=
  match filter with
  | Some f => indices_from 0 (matches f) reg
  | None => indices_from 0 (fun _ => true) reg
  end.

End RuleRegistry.

(** ** lib/errors.js: the exception classes *)

Module SMCError.

(** The second argument of the constructor. *)
Module Options.
Record t : Type := {
  code : option string;
  severity : option string;
  details : option (gmap string Js.json);
  hints : option (list string);
  docUrl : option string
}.

Definition none : t :=
  {| code := None; severity := None; details := None; hints := None;
     docUrl := None |}.
End Options.

Record t : Type := {
  name : string;
  message : string;
  code : string;
  severity : string;
  details : gmap string Js.json;
  hints : list string;
  docUrl : option string
}.

(** [new C(message, options)] for the class [C] named [name], as the
    constructor of [SMCError] fills the object. *)
Definition new (name message : string) (options : Options.t) : t :=
  {| name := name;
     message := message;
     code := Js.show (Js.or_else (Options.code options) (Some "ERR_UNKNOWN"));
     severity := Js.show (Js.or_else (Options.severity options) (Some "error"));
     details := default ∅ (Options.details options);
     hints := default [] (Options.hints options);
     docUrl := Options.docUrl options |}.

(** [const levels = { info: 0, warn: 1, error: 2, critical: 3 }] *)
Definition levels : list (string * nat) :=
  [ ("info", 0); ("warn", 1); ("error", 2); ("critical", 3) ].

(** [levels[severity]] as an operand of [>=]: one of the four numbers, a
    member of [Object.prototype], or [undefined], which converts to
    [NaN]. *)
Definition level (severity : string) : Js.num :=
  match Js.table_get levels severity with
  | Js.Own n => Js.Num n
  | Js.Inherited => Js.Text (Js.member_text severity)
  | Js.Undefined => Js.NaN
  end.

(** [return levels[this.severity] >= levels[minSeverity]] *)
Definition hasSeverity (self : t) (minSeverity : string) : bool :=
  Js.num_ge (level (severity self)) (level minSeverity).

(** [{ code, severity, ...options }]: the defaults of a subclass, under
    the options the caller gave. *)
Definition under (code severity : string) (options : Options.t) : Options.t :=
  {| Options.code :=
       match Options.code options with Some c => Some c | None => Some code end;
     Options.severity :=
       match Options.severity options with
       | Some s => Some s
       | None => Some severity
       end;
     Options.details := Options.details options;
     Options.hints := Options.hints options;
     Options.docUrl := Options.docUrl options |}.

End SMCError.

Module QualityGateError.

Record Details : Type := {
  passed : bool;
  total : nat;
  critical : nat;
  error : nat;
  warn : nat
}.

(** A [QualityGateError]: the fields of the base class, [details]
    replaced by the counts, and the results. *)
Record t : Type := {
  name : string;
  message : string;
  code : string;
  severity : string;
  hints : list string;
  docUrl : option string;
  results : option CheckResult.t;
  details : Details
}.

(** [new QualityGateError(message, results, options)]; [results] absent
    is the default [{}]. *)
Definition new (message : string) (results : option CheckResult.t)
    (options : SMCError.Options.t) : t :=
  let base :=
    SMCError.new "QualityGateError" message
      (SMCError.under "ERR_QUALITY_GATE" "error" options) in
  {| name := SMCError.name base;
     message := SMCError.message base;
     code := SMCError.code base;
     severity := SMCError.severity base;
     hints := SMCError.hints base;
     docUrl := SMCError.docUrl base;
     results := results;
     details :=
       match results with
       | Some r =>
           {| passed := CheckResult.passed r;
              total := GateSummary.total (CheckResult.summary r);
              critical := GateSummary.critical (CheckResult.summary r);
              error := GateSummary.error (CheckResult.summary r);
              warn := GateSummary.warn (CheckResult.summary r) |}
       | None =>
           {| passed := false; total := 0; critical := 0; error := 0; warn := 0 |}
       end |}.

End QualityGateError.

(** ** lib/quality-gate.js *)

Module Override.
(** One entry of the [rules] array of the gate configuration. *)
Record t : Type := {
  id : string;
  enabled : option bool;
  severity : option string;
  config : option (gmap string Js.json)
}.
End Override.

Module GateConfig.
(** The gate configuration; [gates] and [reporting] are not read by the
    gate itself. *)
Record t : Type := {
  enabled : option bool;
  severity : option string;
  rules : option (list Override.t)
}.
End GateConfig.

Module CheckOptions.
Record t : Type := {
  files : option (list string);
  severity : option string;
  rules : option (list Rule.t);
  fix_ : bool
}.
End CheckOptions.

Module QualityGate.

(** A reporter, by the lines it prints for a finished result. *)
Definition Reporter : Type := CheckResult.t -> list string.

Record t : Type := {
  projectDir : string;
  config : GateConfig.t;
  reporters : list Reporter
}.

(** What the host environment supplies: the files on disk, and the list
    [_getProjectFiles] collects from a project directory. *)
Record Host : Type := {
  fs : Fs.t;
  scan : string -> list string
}.

Definition _getProjectFiles (self : t) (host : Host) : list string :=
  scan host (projectDir self).

(** [const levels = { info: 0, warn: 1, error: 2, critical: 3 }] *)
Definition levels : list (string * nat) :=
  [ ("info", 0); ("warn", 1); ("error", 2); ("critical", 3) ].

(** [return levels[severity] || 1]: a member of [Object.prototype] is
    truthy and is returned as it is. *)
Definition _severityLevel (severity : string) : Js.num :=
  match Js.table_get levels severity with
  | Js.Own n => if Nat.eqb n 0 then Js.Num 1 else Js.Num n
  | Js.Inherited => Js.Text (Js.member_text severity)
  | Js.Undefined => Js.Num 1
  end.

Definition _hasBlockingIssues (results : list RuleResult.t) (minSeverity : Js.num)
  : bool :=
  existsb (fun r =>
    negb (RuleResult.pass r)
    && negb (RuleResult.skip r)
    && Js.num_ge (_severityLevel (RuleResult.severity r)) minSeverity) results.

(** A call of a rule's [check], as an event: the file and the rule's
    id.  The calls of a run are kept in the order they are made, next to
    what the run returns. *)
Definition Call : Type := string * string.

Definition file_not_found (filePath : string) : RuleResult.t :=
  {| RuleResult.file := filePath;
     RuleResult.rule := "file-exists";
     RuleResult.ruleName := "File Exists";
     RuleResult.severity := "error";
     RuleResult.message := Some "File not found";
     RuleResult.pass := false;
     RuleResult.skip := false;
     RuleResult.fix_ := None;
     RuleResult.autoFix := false;
     RuleResult.details := None |}.

(** What leaves [_checkFile] and [check] when the [catch] clause cannot
    read [e.message]: the [TypeError] of that read. *)
Inductive Rejection : Type :=
  | CannotReadMessage.

(** The [try] and its [catch]: the result pushed for one rule, or the
    exception that the [catch] clause itself raises. *)
Definition run_rule (fs : Fs.t) (filePath : string) (rule : Rule.t)
  : Js.completion RuleResult.t Rejection :=
  match Rule.check rule fs filePath (default ∅ (Rule.config rule)) with
  | Returns result =>
      Js.Returned
        {| RuleResult.file := filePath;
           RuleResult.rule := Rule.id rule;
           RuleResult.ruleName := Rule.name rule;
           RuleResult.severity := Rule.severity rule;
           RuleResult.message := CheckReturn.message result;
           RuleResult.pass := CheckReturn.pass result;
           RuleResult.skip := CheckReturn.skip result;
           RuleResult.fix_ := Js.or_else (CheckReturn.fix_ result) (Rule.fix_ rule);
           RuleResult.autoFix := CheckReturn.autoFix result;
           RuleResult.details := CheckReturn.details result |}
  | Throws message =>
      Js.Returned
        {| RuleResult.file := filePath;
           RuleResult.rule := Rule.id rule;
           RuleResult.ruleName := Rule.name rule;
           RuleResult.severity := "error";
           RuleResult.message := Some ("Rule execution error: " +:+ message);
           RuleResult.pass := false;
           RuleResult.skip := false;
           RuleResult.fix_ := None;
           RuleResult.autoFix := false;
           RuleResult.details := None |}
  | ThrowsNullish => Js.Raised CannotReadMessage
  end.

(** One turn of the loop over [rules]: the results so far, or the
    exception that ended the loop, and the calls so far. *)
Definition _checkFile_step (fs : Fs.t) (filePath : string)
    (acc : Js.completion (list RuleResult.t) Rejection * list Call) (rule : Rule.t)
  : Js.completion (list RuleResult.t) Rejection * list Call :=
  match acc.1 with
  | Js.Raised _ => acc
  | Js.Returned results =>
      if negb (Rule.enabled rule) then acc
      else
        let calls := acc.2 ++ [(filePath, Rule.id rule)] in
        match run_rule fs filePath rule with
        | Js.Returned result => (Js.Returned (results ++ [result]), calls)
        | Js.Raised e => (Js.Raised e, calls)
        end
  end.

Definition _checkFile (fs : Fs.t) (filePath : string) (rules : list Rule.t)
  : Js.completion (list RuleResult.t) Rejection * list Call :=
  if negb (Fs.existsSync fs filePath) then (Js.Returned [file_not_found filePath], [])
  else fold_left (_checkFile_step fs filePath) rules (Js.Returned [], []).

Definition is_blank (c : ascii) : bool :=
  Ascii.eqb c " "%char || Ascii.eqb c "009"%char.

(** The position is one that [$] matches under the [m] flag: the end of
    the text, or just before a line terminator (LF, CR, U+2028, U+2029;
    the last two in their UTF-8 encoding). *)
Definition at_line_end (s : string) : bool :=
  match s with
  | EmptyString => true
  | String c rest =>
      Ascii.eqb c "010"%char || Ascii.eqb c "013"%char
      || match rest with
         | String c1 (String c2 _) =>
             Ascii.eqb c "226"%char && Ascii.eqb c1 "128"%char
             && (Ascii.eqb c2 "168"%char || Ascii.eqb c2 "169"%char)
         | _ => false
         end
  end.

(** [content.replace(/[ \t]+$/gm, '')] *)
Fixpoint strip_trailing_whitespace (content : string) : string :=
  match content with
  | EmptyString => EmptyString
  | String c rest =>
      let rest' := strip_trailing_whitespace rest in
      if is_blank c && at_line_end rest' then rest' else String c rest'
  end.

Definition _applyFixes_step (st : Fs.t * nat) (result : RuleResult.t) : Fs.t * nat :=
  match Fs.readFileSync st.1 (RuleResult.file result) with
  | None => st
  | Some content =>
      let fixed :=
        if String.eqb (RuleResult.rule result) "no-trailing-whitespace"
        then strip_trailing_whitespace content
        else content in
      if String.eqb fixed content then st
      else (Fs.writeFileSync st.1 (RuleResult.file result) fixed, S st.2)
  end.

Definition _applyFixes (fs : Fs.t) (fixableResults : list RuleResult.t) : Fs.t * nat :=
  fold_left _applyFixes_step fixableResults (fs, 0).

(** The body of [for (const override of configured)]. *)
Definition apply_override (reg : RuleRegistry.t) (override : Override.t)
  : RuleRegistry.t :=
  match RuleRegistry.get reg (Override.id override) with
  | None => reg
  | Some rule =>
      let reg1 :=
        match Override.enabled override with
        | Some b => alter (Rule.with_enabled b) rule reg
        | None => reg
        end in
      let reg2 :=
        match Js.or_else (Override.severity override) None with
        | Some s => alter (Rule.with_severity s) rule reg1
        | None => reg1
        end in
      match Override.config override with
      | Some c =>
          alter (fun r => Rule.with_config (c ∪ default ∅ (Rule.config r)) r) rule reg2
      | None => reg2
      end
  end.

(** Returns the active rules and the registry as the overrides left it. *)
Definition _getActiveRules (self : t) (reg : RuleRegistry.t)
  : list Rule.t * RuleRegistry.t :=
  let rules :=
    RuleRegistry.getAll reg
      (Some {| RuleRegistry.Filter.enabled := Some true;
               RuleRegistry.Filter.severity := None;
               RuleRegistry.Filter.category := None |}) in
  let configured := default [] (GateConfig.rules (config self)) in
  let reg' := fold_left apply_override configured reg in
  (List.filter Rule.enabled (omap (fun r => reg' !! r) rules), reg').

Record Counts : Type := {
  criticalCount : nat;
  errorCount : nat;
  warnCount : nat;
  infoCount : nat
}.

(** The [switch (r.severity)] of the counting loop. *)
Definition count (c : Counts) (r : RuleResult.t) : Counts :=
  let s := RuleResult.severity r in
  if String.eqb s "critical" then
    {| criticalCount := S (criticalCount c); errorCount := errorCount c;
       warnCount := warnCount c; infoCount := infoCount c |}
  else if String.eqb s "error" then
    {| criticalCount := criticalCount c; errorCount := S (errorCount c);
       warnCount := warnCount c; infoCount := infoCount c |}
  else if String.eqb s "warn" then
    {| criticalCount := criticalCount c; errorCount := errorCount c;
       warnCount := S (warnCount c); infoCount := infoCount c |}
  else if String.eqb s "info" then
    {| criticalCount := criticalCount c; errorCount := errorCount c;
       warnCount := warnCount c; infoCount := S (infoCount c) |}
  else c.

(** The state of the loop over the files: [left] holds the exception
    that a [_checkFile] raised, once one did. *)
Record Loop : Type := {
  results : list RuleResult.t;
  counts : Counts;
  calls : list Call;
  left : option Rejection
}.

(** The body of [for (const file of filesToCheck)]. *)
Definition check_step (fs : Fs.t) (rulesToRun : list Rule.t) (st : Loop)
    (file : string) : Loop :=
  match left st with
  | Some _ => st
  | None =>
      let fileResults := _checkFile fs file rulesToRun in
      match fileResults.1 with
      | Js.Returned rs =>
          {| results := results st ++ rs;
             counts := fold_left count rs (counts st);
             calls := calls st ++ fileResults.2;
             left := None |}
      | Js.Raised e =>
          {| results := results st;
             counts := counts st;
             calls := calls st ++ fileResults.2;
             left := Some e |}
      end
  end.

(** A finished run: the returned object, and what the run did to its
    surroundings. *)
Record Run : Type := {
  returned : CheckResult.t;
  registry : RuleRegistry.t;
  disk : Fs.t;
  console : list string;
  invoked : list Call
}.

(** A run that a [_checkFile] ended: the exception, and what the run had
    done to its surroundings by then.  Nothing is returned, reported or
    fixed. *)
Record Aborted : Type := {
  reason : Rejection;
  registry_then : RuleRegistry.t;
  invoked_then : list Call
}.

Definition resolve_severity (self : t) (options : CheckOptions.t) : string :=
  match CheckOptions.severity options with
  | Some s => s
  | None => Js.show (Js.or_else (GateConfig.severity (config self)) (Some "warn"))
  end.

Definition resolve_files (self : t) (host : Host) (options : CheckOptions.t)
  : list string :=
  match CheckOptions.files options with
  | Some files => files
  | None => _getProjectFiles self host
  end.

Definition resolve_rules (self : t) (reg : RuleRegistry.t) (options : CheckOptions.t)
  : list Rule.t * RuleRegistry.t :=
  match CheckOptions.rules options with
  | Some rules => (rules, reg)
  | None => _getActiveRules self reg
  end.

(** [check(options)]: the run, or the exception that left it. *)
Definition check (self : t) (reg : RuleRegistry.t) (host : Host)
    (options : CheckOptions.t) : Js.completion Run Aborted :=
  let severity := resolve_severity self options in
  let fix_ := CheckOptions.fix_ options in
  let filesToCheck := resolve_files self host options in
  let rulesToRun := resolve_rules self reg options in
  let st :=
    fold_left (check_step (fs host) rulesToRun.1) filesToCheck
      {| results := [];
         counts := {| criticalCount := 0; errorCount := 0;
                      warnCount := 0; infoCount := 0 |};
         calls := [];
         left := None |} in
  match left st with
  | Some e =>
      Js.Raised {| reason := e; registry_then := rulesToRun.2;
                   invoked_then := calls st |}
  | None =>
      let fixes :=
        if fix_ then
          let applied :=
            _applyFixes (fs host) (List.filter RuleResult.autoFix (results st)) in
          (applied.1, Some applied.2)
        else (fs host, None) in
      let summary :=
        {| GateSummary.total := length (results st);
           GateSummary.critical := criticalCount (counts st);
           GateSummary.error := errorCount (counts st);
           GateSummary.warn := warnCount (counts st);
           GateSummary.info := infoCount (counts st);
           GateSummary.filesChecked := length filesToCheck;
           GateSummary.rulesRun := length rulesToRun.1;
           GateSummary.fixed := fixes.2 |} in
      let minSeverity := _severityLevel severity in
      let passed := negb (_hasBlockingIssues (results st) minSeverity) in
      let checkResult :=
        {| CheckResult.passed := passed;
           CheckResult.results := results st;
           CheckResult.summary := summary |} in
      Js.Returned
        {| returned := checkResult;
           registry := rulesToRun.2;
           disk := fixes.1;
           console := flat_map (fun reporter => reporter checkResult) (reporters self);
           invoked := calls st |}
  end.

(** The configuration [_loadConfig] falls back to. *)
Definition default_config : GateConfig.t :=
  {| GateConfig.enabled := Some true;
     GateConfig.severity := Some "warn";
     GateConfig.rules :=
       Some
         [ {| Override.id := "line-count-limit"; Override.enabled := Some true;
              Override.severity := Some "error"; Override.config := None |};
           {| Override.id := "file-size-limit"; Override.enabled := Some true;
              Override.severity := Some "warn"; Override.config := None |};
           {| Override.id := "no-empty-files"; Override.enabled := Some true;
              Override.severity := Some "warn"; Override.config := None |};
           {| Override.id := "no-trailing-whitespace"; Override.enabled := Some true;
              Override.severity := Some "warn"; Override.config := None |} ] |}.

(** What the runtime supplies to the constructor: the working directory,
    [path.join] of three segments, [JSON.parse] of the text of a gate
    configuration, taken to be the text of an object when it parses
    ([None] when it raises), and the console reporter. *)
Record Runtime : Type := {
  cwd : string;
  join : string -> string -> string -> string;
  parse : string -> option GateConfig.t;
  ConsoleReporter : Reporter
}.

(** The argument of the constructor. *)
Module Options.
Record t : Type := {
  projectDir : option string;
  config : option GateConfig.t;
  reporters : option (list Reporter)
}.
End Options.

Definition _loadConfig (rt : Runtime) (fs : Fs.t) (projectDir : string)
  : GateConfig.t :=
  let configPath := join rt projectDir ".claude" "quality-gate.json" in
  if Fs.existsSync fs configPath then
    match Fs.readFileSync fs configPath with
    | Some text =>
        match parse rt text with
        | Some config => config
        | None => default_config
        end
    | None => default_config
    end
  else default_config.

(** [new QualityGate(options)] *)
Definition new (rt : Runtime) (fs : Fs.t) (options : Options.t) : t :=
  let projectDir := Js.show (Js.or_else (Options.projectDir options) (Some (cwd rt))) in
  {| projectDir := projectDir;
     config :=
       match Options.config options with
       | Some config => config
       | None => _loadConfig rt fs projectDir
       end;
     reporters := default [ConsoleReporter rt] (Options.reporters options) |}.

(** What [checkOrThrow] can raise: its own [QualityGateError], or the
    exception that left [check]. *)
Inductive Failure : Type :=
  | GateFailed (e : QualityGateError.t)
  | Rejected (e : Rejection).

(** [checkOrThrow(options)], the one [options] object read once by the
    constructor and once by [check]: what it returns or raises, and the
    run [check] made. *)
Definition checkOrThrow (rt : Runtime) (reg : RuleRegistry.t) (host : Host)
    (gateOptions : Options.t) (options : CheckOptions.t)
  : Js.completion CheckResult.t Failure * Js.completion Run Aborted :=
  let gate := new rt (fs host) gateOptions in
  let run := check gate reg host options in
  match run with
  | Js.Raised aborted => (Js.Raised (Rejected (reason aborted)), run)
  | Js.Returned finished =>
      let result := returned finished in
      if negb (CheckResult.passed result) then
        (Js.Raised
           (GateFailed
              (QualityGateError.new "Quality gate check failed" (Some result)
                 SMCError.Options.none)),
         run)
      else (Js.Returned result, run)
  end.

End QualityGate.

(** ** lib/errors.js *)

(** The validation keywords of JSON Schema that the three schemas use or
    that the tables of [lib/errors.js] list. *)
Inductive Keyword : Type :=
  | kw_required | kw_type | kw_enum | kw_pattern | kw_format
  | kw_minimum | kw_maximum | kw_minLength | kw_maxLength
  | kw_uniqueItems | kw_oneOf | kw_additionalProperties.

(** What [parseAJVErrors] reads of [error.schema]: each field is the text
    of [error.schema?.<field>], absent when that read is [undefined]. *)
Module SchemaView.
Record t : Type := {
  type_ : option string;
  enum : option (list string);
  pattern : option string;
  minimum : option string;
  maximum : option string;
  minLength : option string;
  maxLength : option string
}.

Definition none : t :=
  {| type_ := None; enum := None; pattern := None; minimum := None;
     maximum := None; minLength := None; maxLength := None |}.
End SchemaView.

(** An error object of the schema backend. *)
Module AjvError.
Record t : Type := {
  keyword : Keyword;
  instancePath : string;
  message : option string;
  missingProperty : option string;
  schema : SchemaView.t;
  data : option Js.json
}.
End AjvError.

(** An entry of the [errors] and [warnings] arrays of a validation result. *)
Module ErrorEntry.
Record t : Type := {
  path : string;
  message : string;
  severity : string;
  expected : option string;
  actual : option Js.json;
  keyword : option Keyword;
  fix_ : option string
}.
End ErrorEntry.

Definition join (sep : string) (items : list string) : string :=
  match items with
  | [] => EmptyString
  | x :: rest => fold_left (fun acc y => acc +:+ sep +:+ y) rest x
  end.

Definition getSeverityFromKeyword (keyword : Keyword) : string :=
  match keyword with
  | kw_required => "critical"
  | kw_type => "error"
  | kw_enum => "error"
  | kw_pattern => "warn"
  | kw_format => "warn"
  | kw_minimum => "warn"
  | kw_maximum => "warn"
  | kw_minLength => "warn"
  | kw_maxLength => "warn"
  | _ => "warn"
  end.

Definition generateFixFromError (error : AjvError.t) : option string :=
  let schema := AjvError.schema error in
  match AjvError.keyword error with
  | kw_required =>
      Some ("Add missing field: " +:+ Js.show (AjvError.missingProperty error))
  | kw_pattern =>
      Some ("Value must match pattern: " +:+ Js.show (SchemaView.pattern schema))
  | kw_enum =>
      Some ("Value must be one of: " +:+ Js.show (join ", " <$> SchemaView.enum schema))
  | kw_type => Some ("Change type to: " +:+ Js.show (SchemaView.type_ schema))
  | kw_minimum => Some ("Value must be >= " +:+ Js.show (SchemaView.minimum schema))
  | kw_maximum => Some ("Value must be <= " +:+ Js.show (SchemaView.maximum schema))
  | kw_minLength => Some ("Length must be >= " +:+ Js.show (SchemaView.minLength schema))
  | kw_maxLength => Some ("Length must be <= " +:+ Js.show (SchemaView.maxLength schema))
  | _ => None
  end.

Definition parseAJVError (error : AjvError.t) : ErrorEntry.t :=
  let path := Js.show (Js.or_else (Some (AjvError.instancePath error)) (Some "root")) in
  let message := Js.show (Js.or_else (AjvError.message error) (Some "Validation failed")) in
  {| ErrorEntry.path := path;
     ErrorEntry.message := message;
     ErrorEntry.severity := getSeverityFromKeyword (AjvError.keyword error);
     ErrorEntry.expected :=
       Js.or_else (SchemaView.type_ (AjvError.schema error))
                  (join "|" <$> SchemaView.enum (AjvError.schema error));
     ErrorEntry.actual := AjvError.data error;
     ErrorEntry.keyword := Some (AjvError.keyword error);
     ErrorEntry.fix_ := generateFixFromError error |}.

Definition parseAJVErrors (ajvErrors : list AjvError.t) : list ErrorEntry.t :=
  map parseAJVError ajvErrors.

Module ConfigError.
Record Details : Type := {
  errorCount : nat;
  fixCount : nat;
  criticalCount : nat
}.

Record t : Type := {
  name : string;
  message : string;
  code : string;
  severity : string;
  hints : list string;
  errors : list ErrorEntry.t;
  fixes : list string;
  details : Details
}.

(** [new ConfigError(message, errors, fixes)] *)
Definition new (message : string) (errors : list ErrorEntry.t) (fixes : list string) : t :=
  {| name := "ConfigError";
     message := message;
     code := "ERR_CONFIG";
     severity := "critical";
     hints := [];
     errors := errors;
     fixes := fixes;
     details :=
       {| errorCount := length errors;
          fixCount := length fixes;
          criticalCount :=
            length (List.filter
                      (fun e => String.eqb (ErrorEntry.severity e) "critical") errors) |} |}.
End ConfigError.

(** ** lib/config-schema.js *)

Module Schema.
(** A pattern of [patternProperties]: its source text and the property
    names it matches. *)
Record Pattern : Type := {
  source : string;
  test : string -> bool
}.

(** The keywords at the top level of a schema.  [properties] keeps the
    declared names and [patternProperties] the patterns; the subschemas
    under them are the backend's business. *)
Record t : Type := {
  id_ : string;
  type_ : string;
  required : list string;
  properties : list string;
  patternProperties : list Pattern;
  additionalProperties : bool
}.
End Schema.

Definition CONFIG_SCHEMA : Schema.t :=
  {| Schema.id_ := "https://sumulige-claude.com/schemas/config.json";
     Schema.type_ := "object";
     Schema.required := ["version"];
     Schema.properties :=
       [ "version"; "model"; "agents"; "skills"; "hooks"; "thinkingLens";
         "qualityGate"; "marketplace" ];
     Schema.patternProperties := [];
     Schema.additionalProperties := true |}.

Definition SETTINGS_SCHEMA : Schema.t :=
  {| Schema.id_ := "https://sumulige-claude.com/schemas/settings.json";
     Schema.type_ := "object";
     Schema.required := [];
     Schema.properties := [];
     Schema.patternProperties :=
       [ {| Schema.source :=
              "^(UserPromptSubmit|PreToolUse|PostToolUse|AgentStop|SessionEnd)$";
            Schema.test := fun key =>
              Js.mem key [ "UserPromptSubmit"; "PreToolUse"; "PostToolUse";
                           "AgentStop"; "SessionEnd" ] |} ];
     Schema.additionalProperties := true |}.

Definition QUALITY_GATE_SCHEMA : Schema.t :=
  {| Schema.id_ := "https://sumulige-claude.com/schemas/quality-gate.json";
     Schema.type_ := "object";
     Schema.required := [];
     Schema.properties := [ "enabled"; "severity"; "rules"; "gates"; "reporting" ];
     Schema.patternProperties := [];
     Schema.additionalProperties := true |}.

Definition getSchema (name : string) : Js.slot Schema.t :=
  Js.table_get
    [ ("config", CONFIG_SCHEMA); ("settings", SETTINGS_SCHEMA);
      ("quality-gate", QUALITY_GATE_SCHEMA) ] name.

(** ** The schema backend *)

Module Ajv.

(** The validator delegates to the third-party package [ajv] when it is
    installed.  The top level of a schema is interpreted here as JSON
    Schema draft-07 defines its keywords, with error objects shaped as
    [ajv] shapes them ([instancePath] is the JSON pointer of the value
    that failed, the empty string for the document itself).  What lies
    below the top level stays with the engine:
    [nested schemaId declared key value] are the errors of [value], found
    under [key], against the subschema declared under [declared] (a
    property name, or the source of a pattern).  An instance built with
    [coerceTypes] or [useDefaults] writes to the document it validates:
    [rewritten schemaId fields] are the properties of the document, as a
    validation against that schema leaves them. *)
Record Engine : Type := {
  nested : string -> string -> string -> Js.json -> list AjvError.t;
  rewritten : string -> list (string * Js.json) -> list (string * Js.json)
}.

(** The document as a validation leaves it, where the validation writes
    to it: an instance built without [coerceTypes] and without
    [useDefaults] ([removeAdditional] is off) writes nothing, and only an
    object can be written to. *)
Definition leaves (engine : Engine) (writes : bool) (schema : Schema.t)
    (data : Js.json) : option Js.json :=
  match data with
  | Js.JObj fields =>
      if writes then Some (Js.JObj (rewritten engine (Schema.id_ schema) fields))
      else None
  | _ => None
  end.

Definition has (fields : list (string * Js.json)) (k : string) : bool :=
  match Js.obj_get fields k with
  | Some _ => true
  | None => false
  end.

Definition required_error (data : Js.json) (missing : string) : AjvError.t :=
  {| AjvError.keyword := kw_required;
     AjvError.instancePath := EmptyString;
     AjvError.message :=
       Some ("must have required property '" +:+ missing +:+ "'");
     AjvError.missingProperty := Some missing;
     AjvError.schema := SchemaView.none;
     AjvError.data := Some data |}.

Definition type_error (schema : Schema.t) (data : Js.json) : AjvError.t :=
  {| AjvError.keyword := kw_type;
     AjvError.instancePath := EmptyString;
     AjvError.message := Some ("must be " +:+ Schema.type_ schema);
     AjvError.missingProperty := None;
     AjvError.schema := SchemaView.none;
     AjvError.data := Some data |}.

Definition additional_error (data : Js.json) : AjvError.t :=
  {| AjvError.keyword := kw_additionalProperties;
     AjvError.instancePath := EmptyString;
     AjvError.message := Some "must NOT have additional properties";
     AjvError.missingProperty := None;
     AjvError.schema := SchemaView.none;
     AjvError.data := Some data |}.

(** A property name is declared by a schema when [properties] lists it or
    a pattern of [patternProperties] matches it. *)
Definition declared (schema : Schema.t) (k : string) : bool :=
  Js.mem k (Schema.properties schema)
  || existsb (fun pat => Schema.test pat k) (Schema.patternProperties schema).

(** The errors of an object.  [data] is what an error at the top level
    holds as its [data]: the document itself, not a copy, so what is read
    there once the validation is over is the document as it was left. *)
Definition object_errors (engine : Engine) (schema : Schema.t)
    (fields : list (string * Js.json)) (data : Js.json) : list AjvError.t :=
  map (required_error data)
      (List.filter (fun k => negb (has fields k)) (Schema.required schema))
  ++ flat_map (fun k =>
       match Js.obj_get fields k with
       | Some v => nested engine (Schema.id_ schema) k k v
       | None => []
       end) (Schema.properties schema)
  ++ flat_map (fun pat =>
       flat_map (fun kv =>
         if Schema.test pat kv.1
         then nested engine (Schema.id_ schema) (Schema.source pat) kv.1 kv.2
         else []) fields) (Schema.patternProperties schema)
  ++ (if Schema.additionalProperties schema then []
      else flat_map (fun kv =>
             if declared schema kv.1 then [] else [additional_error data])
           fields).

(** The compiled validator: the verdict and [validate.errors].  Without
    [allErrors] the run stops at the first error. *)
Definition run (engine : Engine) (allErrors writes : bool) (schema : Schema.t)
    (data : Js.json) : bool * list AjvError.t :=
  let errors :=
    match data with
    | Js.JObj fields =>
        object_errors engine schema fields
          (default data (leaves engine writes schema data))
    | _ => [type_error schema data]
    end in
  let errors := if allErrors then errors else take 1 errors in
  (match errors with [] => true | _ => false end, errors).

End Ajv.

(** ** lib/config-validator.js *)

Module ValidationResult.
Record t : Type := {
  valid : bool;
  errors : list ErrorEntry.t;
  warnings : list ErrorEntry.t;
  fixes : list string
}.
End ValidationResult.

(** What the code can raise: the [ConfigError] of [validateOrThrow], or a
    [TypeError] of the runtime. *)
Inductive Exception : Type :=
  | ConfigErrorRaised (e : ConfigError.t)
  | TypeError.

Module ConfigValidator.

Module Options.
Record t : Type := {
  strict : option bool;
  allErrors : option bool;
  coerceTypes : option bool;
  useDefaults : option bool
}.
End Options.

(** A validator object.  [ajv] is the backend instance, if there is one;
    the three compiled validators are the schemas they were compiled
    from, or [null]. *)
Record t : Type := {
  strict : bool;
  allErrors : bool;
  coerceTypes : bool;
  useDefaults : bool;
  ajv : option Ajv.Engine;
  configValidate : option Schema.t;
  settingsValidate : option Schema.t;
  qualityGateValidate : option Schema.t
}.

(** [x !== false] *)
Definition not_false (x : option bool) : bool :=
  match x with
  | Some false => false
  | _ => true
  end.

(** [this.ajv.compile(schema)] when there is a backend, [null] when
    there is none. *)
Definition compile (Ajv : option Ajv.Engine) (schema : Schema.t) : option Schema.t :=
  match Ajv with
  | Some _ => Some schema
  | None => None
  end.

(** [new ConfigValidator(options)], where [Ajv] is the engine that
    [require('ajv')] gave, if it gave one. *)
Definition new (Ajv : option Ajv.Engine) (options : Options.t) : t :=
  {| strict := not_false (Options.strict options);
     allErrors := not_false (Options.allErrors options);
     coerceTypes := not_false (Options.coerceTypes options);
     useDefaults := default false (Options.useDefaults options);
     ajv := Ajv;
     configValidate := compile Ajv CONFIG_SCHEMA;
     settingsValidate := compile Ajv SETTINGS_SCHEMA;
     qualityGateValidate := compile Ajv QUALITY_GATE_SCHEMA |}.

(** Whether the backend instance was built to write to the documents it
    validates: [coerceTypes: this.coerceTypes, useDefaults:
    this.useDefaults]. *)
Definition writes (self : t) : bool := coerceTypes self || useDefaults self.

(** A truthy value found under a schema name: a compiled schema, or the
    member of [Object.prototype] of that name. *)
Inductive Validator : Type :=
  | Compiled (schema : Schema.t)
  | PrototypeMember (key : string).

(** [return validators[schemaName] || null] *)
Definition _getValidator (self : t) (schemaName : string) : option Validator :=
  let validators :=
    [ ("config", configValidate self);
      ("settings", settingsValidate self);
      ("quality-gate", qualityGateValidate self) ] in
  match Js.table_get validators schemaName with
  | Js.Own (Some schema) => Some (Compiled schema)
  | Js.Own None => None
  | Js.Inherited => Some (PrototypeMember schemaName)
  | Js.Undefined => None
  end.

Definition is_digit (c : ascii) : bool :=
  (48 <=? nat_of_ascii c)%nat && (nat_of_ascii c <=? 57)%nat.

Fixpoint skip_digits (s : string) : string :=
  match s with
  | String c rest => if is_digit c then skip_digits rest else s
  | EmptyString => s
  end.

(** [\d+] at the head of [s]: what follows it. *)
Definition digits (s : string) : option string :=
  match s with
  | String c rest => if is_digit c then Some (skip_digits rest) else None
  | EmptyString => None
  end.

(** [\.] at the head of [s]: what follows it. *)
Definition dot (s : string) : option string :=
  match s with
  | String c rest => if Ascii.eqb c "."%char then Some rest else None
  | EmptyString => None
  end.

(** [/^\d+\.\d+\.\d+/.test(s)] *)
Definition semver_test (s : string) : bool :=
  match (((digits s ≫= dot) ≫= digits) ≫= dot) ≫= digits with
  | Some _ => true
  | None => false
  end.

(** The text [Add "version": "1.0.0" to config]. *)
Definition add_version_fix : string :=
  let q := String "034"%char EmptyString in
  "Add " +:+ q +:+ "version" +:+ q +:+ ": " +:+ q +:+ "1.0.0" +:+ q +:+ " to config".

Definition _basicValidate (config : Js.json) (schemaName : string)
  : ValidationResult.t :=
  if negb (Js.truthy config) || negb (Js.typeof_object config) then
    {| ValidationResult.valid := false;
       ValidationResult.errors :=
         [ {| ErrorEntry.path := "root";
              ErrorEntry.message := "Configuration must be an object";
              ErrorEntry.severity := "critical";
              ErrorEntry.expected := None;
              ErrorEntry.actual := None;
              ErrorEntry.keyword := None;
              ErrorEntry.fix_ := Some "Ensure config is valid JSON object" |} ];
       ValidationResult.warnings := [];
       ValidationResult.fixes := [] |}
  else if String.eqb schemaName "config" then
    match Js.prop config "version" with
    | Some version =>
        if negb (Js.truthy version) then
          {| ValidationResult.valid := false;
             ValidationResult.errors :=
               [ {| ErrorEntry.path := "version";
                    ErrorEntry.message := "Missing required field: version";
                    ErrorEntry.severity := "critical";
                    ErrorEntry.expected := None;
                    ErrorEntry.actual := None;
                    ErrorEntry.keyword := None;
                    ErrorEntry.fix_ := Some add_version_fix |} ];
             ValidationResult.warnings := [];
             ValidationResult.fixes := [] |}
        else
          match version with
          | Js.JStr s =>
              if negb (semver_test s) then
                {| ValidationResult.valid := false;
                   ValidationResult.errors :=
                     [ {| ErrorEntry.path := "version";
                          ErrorEntry.message := "Invalid version format";
                          ErrorEntry.severity := "error";
                          ErrorEntry.expected := Some "X.Y.Z";
                          ErrorEntry.actual := Some version;
                          ErrorEntry.keyword := None;
                          ErrorEntry.fix_ :=
                            Some "Use semantic version format (e.g., 1.0.0)" |} ];
                   ValidationResult.warnings := [];
                   ValidationResult.fixes := [] |}
              else
                {| ValidationResult.valid := true; ValidationResult.errors := [];
                   ValidationResult.warnings := []; ValidationResult.fixes := [] |}
          | _ =>
              {| ValidationResult.valid := true; ValidationResult.errors := [];
                 ValidationResult.warnings := []; ValidationResult.fixes := [] |}
          end
    | None =>
        {| ValidationResult.valid := false;
           ValidationResult.errors :=
             [ {| ErrorEntry.path := "version";
                  ErrorEntry.message := "Missing required field: version";
                  ErrorEntry.severity := "critical";
                  ErrorEntry.expected := None;
                  ErrorEntry.actual := None;
                  ErrorEntry.keyword := None;
                  ErrorEntry.fix_ := Some add_version_fix |} ];
           ValidationResult.warnings := [];
           ValidationResult.fixes := [] |}
    end
  else
    {| ValidationResult.valid := true; ValidationResult.errors := [];
       ValidationResult.warnings := []; ValidationResult.fixes := [] |}.

Definition ok : ValidationResult.t :=
  {| ValidationResult.valid := true; ValidationResult.errors := [];
     ValidationResult.warnings := []; ValidationResult.fixes := [] |}.

Definition unknown_schema (schemaName : string) : ValidationResult.t :=
  {| ValidationResult.valid := false;
     ValidationResult.errors :=
       [ {| ErrorEntry.path := "schema";
            ErrorEntry.message := "Unknown schema: " +:+ schemaName;
            ErrorEntry.severity := "critical";
            ErrorEntry.expected := None;
            ErrorEntry.actual := None;
            ErrorEntry.keyword := None;
            ErrorEntry.fix_ :=
              Some "Use valid schema name: config, settings, quality-gate" |} ];
     ValidationResult.warnings := [];
     ValidationResult.fixes := [] |}.

(** [validate(config)] for the value [_getValidator] found: the verdict
    and [validate.errors].  A member of [Object.prototype] is called with
    no receiver: [Object] and [toString] answer with a truthy value,
    [isPrototypeOf] answers [false] to a primitive, every other call
    raises; none of them has an [errors] property. *)
Definition call (engine : Ajv.Engine) (self : t) (validate : Validator)
    (config : Js.json)
  : Js.completion (bool * option (list AjvError.t)) Exception :=
  match validate with
  | Compiled schema =>
      let verdict := Ajv.run engine (allErrors self) (writes self) schema config in
      Js.Returned (verdict.1, Some verdict.2)
  | PrototypeMember key =>
      if String.eqb key "constructor" || String.eqb key "toString" then
        Js.Returned (true, None)
      else if String.eqb key "isPrototypeOf" then
        match config with
        | Js.JObj _ | Js.JArr _ => Js.Raised TypeError
        | _ => Js.Returned (false, None)
        end
      else Js.Raised TypeError
  end.

(** The body of [for (const error of processedErrors)]. *)
Definition collect (result : ValidationResult.t) (error : ErrorEntry.t)
  : ValidationResult.t :=
  let to_warnings :=
    String.eqb (ErrorEntry.severity error) "warn"
    || String.eqb (ErrorEntry.severity error) "info" in
  {| ValidationResult.valid := ValidationResult.valid result;
     ValidationResult.errors :=
       if to_warnings then ValidationResult.errors result
       else ValidationResult.errors result ++ [error];
     ValidationResult.warnings :=
       if to_warnings then ValidationResult.warnings result ++ [error]
       else ValidationResult.warnings result;
     ValidationResult.fixes :=
       match Js.or_else (ErrorEntry.fix_ error) None with
       | Some fix_ => ValidationResult.fixes result ++ [fix_]
       | None => ValidationResult.fixes result
       end |}.

(** What the call of the value [_getValidator] found writes to the
    document: only a compiled validator writes. *)
Definition call_leaves (engine : Ajv.Engine) (self : t) (validate : Validator)
    (config : Js.json) : option Js.json :=
  match validate with
  | Compiled schema => Ajv.leaves engine (writes self) schema config
  | PrototypeMember _ => None
  end.

(** [validate(config, schemaName)]: what the call returns or raises, and
    the document as the call leaves it, where the call wrote to it. *)
Definition validate (self : t) (config : Js.json) (schemaName : option string)
  : Js.completion ValidationResult.t Exception * option Js.json :=
  let schemaName := default "config" schemaName in
  match ajv self with
  | None => (Js.Returned (_basicValidate config schemaName), None)
  | Some engine =>
      match _getValidator self schemaName with
      | None => (Js.Returned (unknown_schema schemaName), None)
      | Some validate =>
          (match call engine self validate config with
           | Js.Raised e => Js.Raised e
           | Js.Returned (true, _) => Js.Returned ok
           | Js.Returned (false, None) => Js.Raised TypeError
           | Js.Returned (false, Some errors) =>
               Js.Returned
                 (fold_left collect (parseAJVErrors errors)
                    {| ValidationResult.valid := false;
                       ValidationResult.errors := [];
                       ValidationResult.warnings := [];
                       ValidationResult.fixes := [] |})
           end,
           call_leaves engine self validate config)
      end
  end.

(** The objects a caller holds, by address: [validateOrThrow] is handed
    the address of a document and hands an address back. *)
Definition Store : Type := nat -> Js.json.

(** The store once the object at [address] has been written to. *)
Definition write (store : Store) (address : nat) (document : option Js.json)
  : Store :=
  match document with
  | Some d => fun a => if Nat.eqb a address then d else store a
  | None => store
  end.

(** Returns the completion and the store as the call left it. *)
Definition validateOrThrow (self : t) (store : Store) (config : nat)
    (schemaName : option string) : Js.completion nat Exception * Store :=
  let validation := validate self (store config) schemaName in
  let store := write store config validation.2 in
  match validation.1 with
  | Js.Raised e => (Js.Raised e, store)
  | Js.Returned result =>
      if negb (ValidationResult.valid result) then
        (Js.Raised
           (ConfigErrorRaised
              (ConfigError.new "Configuration validation failed"
                 (ValidationResult.errors result)
                 (ValidationResult.fixes result))),
         store)
      else (Js.Returned config, store)
  end.

(** [const defaultValidator = new ConfigValidator()] *)
Definition defaultValidator (Ajv : option Ajv.Engine) : t :=
  new Ajv {| Options.strict := None; Options.allErrors := None;
             Options.coerceTypes := None; Options.useDefaults := None |}.

(** What the runtime supplies to [validateFile]: [path.basename], and
    [JSON.parse], which returns a document or raises a [SyntaxError] with
    a message. *)
Record Runtime : Type := {
  basename : string -> string;
  JSON_parse : string -> Js.completion Js.json string
}.

(** What [validateFile] can raise: the error of a read that failed, or
    what [validate] raised. *)
Inductive Thrown : Type :=
  | ReadError
  | PassedOn (e : Exception).

(** The schema name for a file name. *)
Definition detect (filename : string) : string :=
  if String.eqb filename "config.json" then "config"
  else if String.eqb filename "settings.json"
          || String.eqb filename "settings.local.json" then "settings"
  else if String.eqb filename "quality-gate.json" then "quality-gate"
  else "config".

(** The digits at the head of [s]. *)
Fixpoint take_digits (s : string) : string :=
  match s with
  | String c rest => if is_digit c then String c (take_digits rest) else EmptyString
  | EmptyString => EmptyString
  end.

(** What follows [p] at the head of [s], if [s] begins with [p]. *)
Fixpoint after (p s : string) : option string :=
  match p, s with
  | EmptyString, _ => Some s
  | String a p', String b s' => if Ascii.eqb a b then after p' s' else None
  | String _ _, EmptyString => None
  end.

(** [message.match(/position (\d+)/)]: the digits captured by the
    leftmost match. *)
Fixpoint match_position (message : string) : option string :=
  match message with
  | EmptyString => None
  | String _ rest =>
      match after "position " message with
      | Some tail =>
          match take_digits tail with
          | EmptyString => match_position rest
          | digits => Some digits
          end
      | None => match_position rest
      end
  end.

(** [parseInt(digits)], exact: the digits are taken to name a number
    that a double holds exactly, as a position in a text does. *)
Definition parseInt (digits : string) : nat :=
  fold_left (fun n c => 10 * n + (nat_of_ascii c - 48))
            (String.list_ascii_of_string digits) 0.

(** [s.substring(0, n)] *)
Fixpoint substring0 (n : nat) (s : string) : string :=
  match n, s with
  | S n', String c rest => String c (substring0 n' rest)
  | _, _ => EmptyString
  end.

Definition is_lf (c : ascii) : bool := Ascii.eqb c "010"%char.

(** [s.split('\n')] *)
Fixpoint split_lines (s : string) : list string :=
  match s with
  | EmptyString => [EmptyString]
  | String c rest =>
      match split_lines rest with
      | line :: lines =>
          if is_lf c then EmptyString :: line :: lines
          else String c line :: lines
      | [] => []
      end
  end.

(** The index of the last line feed of [s], or -1. *)
Fixpoint last_lf (s : string) : Z :=
  match s with
  | EmptyString => (-1)%Z
  | String c rest =>
      let k := last_lf rest in
      if (0 <=? k)%Z then (k + 1)%Z
      else if is_lf c then 0%Z else (-1)%Z
  end.

(** [s.lastIndexOf('\n', from)]: the last line feed at an index that is
    at most [from], a negative [from] counting as 0. *)
Definition lastIndexOf_lf (s : string) (from : Z) : Z :=
  last_lf (substring0 (S (Z.to_nat (Z.max from 0))) s).

(** The line and the column that [_suggestJsonFix] computes. *)
Definition locate (content : string) (pos : nat) : nat * Z :=
  let line := length (split_lines (substring0 pos content)) in
  let col := (Z.of_nat pos - lastIndexOf_lf content (Z.of_nat pos - 1))%Z in
  (line, col).

Definition _suggestJsonFix (fs : Fs.t) (message : string) (filePath : string)
  : string :=
  match match_position message with
  | Some digits =>
      let pos := parseInt digits in
      match Fs.readFileSync fs filePath with
      | Some content =>
          let at_ := locate content pos in
          "Check line " +:+ pretty at_.1 +:+ ", column " +:+ pretty at_.2
          +:+ " for syntax errors (missing comma, quote, bracket, etc.)"
      | None => "Check around position " +:+ pretty pos +:+ " for syntax errors"
      end
  | None => "Verify JSON syntax (commas, quotes, brackets are properly closed)"
  end.

Definition file_not_found (configPath : string) : ValidationResult.t :=
  {| ValidationResult.valid := false;
     ValidationResult.errors :=
       [ {| ErrorEntry.path := configPath;
            ErrorEntry.message := "Configuration file not found";
            ErrorEntry.severity := "critical";
            ErrorEntry.expected := None;
            ErrorEntry.actual := None;
            ErrorEntry.keyword := None;
            ErrorEntry.fix_ := Some ("Create config at: " +:+ configPath) |} ];
     ValidationResult.warnings := [];
     ValidationResult.fixes := [] |}.

Definition parse_error (fs : Fs.t) (configPath message : string)
  : ValidationResult.t :=
  {| ValidationResult.valid := false;
     ValidationResult.errors :=
       [ {| ErrorEntry.path := configPath;
            ErrorEntry.message := "JSON parse error: " +:+ message;
            ErrorEntry.severity := "critical";
            ErrorEntry.expected := None;
            ErrorEntry.actual := None;
            ErrorEntry.keyword := None;
            ErrorEntry.fix_ := Some (_suggestJsonFix fs message configPath) |} ];
     ValidationResult.warnings := [];
     ValidationResult.fixes := [] |}.

(** The schema name [validateFile] settles on. *)
Definition schema_for (rt : Runtime) (configPath : string)
    (schemaName : option string) : string :=
  match Js.or_else schemaName None with
  | Some name => name
  | None => detect (basename rt configPath)
  end.

Definition validateFile (rt : Runtime) (self : t) (fs : Fs.t) (configPath : string)
    (schemaName : option string) : Js.completion ValidationResult.t Thrown :=
  let schemaName := schema_for rt configPath schemaName in
  if negb (Fs.existsSync fs configPath) then Js.Returned (file_not_found configPath)
  else
    match Fs.readFileSync fs configPath with
    | None => Js.Raised ReadError
    | Some content =>
        match JSON_parse rt content with
        | Js.Raised message => Js.Returned (parse_error fs configPath message)
        | Js.Returned config =>
            match (validate self config (Some schemaName)).1 with
            | Js.Returned result => Js.Returned result
            | Js.Raised e => Js.Raised (PassedOn e)
            end
        end
    end.

End ConfigValidator.

(** ** Vocabulary of the properties *)

Module Props.

(** The rule's [check] raises on the file. *)
Definition throws (fs : Fs.t) (p : string * Rule.t) : bool :=
  match Rule.check p.2 fs p.1 (default ∅ (Rule.config p.2)) with
  | Throws _ | ThrowsNullish => true
  | Returns _ => false
  end.

(** The rule's [check] throws [null] or [undefined] on the file. *)
Definition nullish (fs : Fs.t) (p : string * Rule.t) : bool :=
  match Rule.check p.2 fs p.1 (default ∅ (Rule.config p.2)) with
  | ThrowsNullish => true
  | Returns _ | Throws _ => false
  end.

(** The result pushed for a pair, where one is pushed. *)
Definition attempt (fs : Fs.t) (p : string * Rule.t) : list RuleResult.t :=
  match QualityGate.run_rule fs p.1 p.2 with
  | Js.Returned r => [r]
  | Js.Raised _ => []
  end.

(** The call of the rule's check on the file, as an event. *)
Definition call (p : string * Rule.t) : QualityGate.Call := (p.1, Rule.id p.2).

(** The pairs of a run: every file on disk with every enabled rule. *)
Definition processed (fs : Fs.t) (files : list string) (rules : list Rule.t)
  : list (string * Rule.t) :=
  flat_map (fun f =>
    if Fs.existsSync fs f then map (pair f) (List.filter Rule.enabled rules) else [])
    files.

Definition missing (fs : Fs.t) (files : list string) : list string :=
  List.filter (fun f => negb (Fs.existsSync fs f)) files.

(** No check of the run throws [null] or [undefined]. *)
Definition tame (fs : Fs.t) (files : list string) (rules : list Rule.t) : bool :=
  forallb (fun p => negb (nullish fs p)) (processed fs files rules).

(** File by file: the result [file-exists] for a file that is not on
    disk, the results pushed for the enabled rules for a file that is. *)
Definition expected (fs : Fs.t) (files : list string) (rules : list Rule.t)
  : list RuleResult.t :=
  flat_map (fun f =>
    if Fs.existsSync fs f
    then flat_map (fun r => attempt fs (f, r)) (List.filter Rule.enabled rules)
    else [QualityGate.file_not_found f]) files.

Definition has_severity (s : string) (r : RuleResult.t) : bool :=
  String.eqb (RuleResult.severity r) s.




(** The ranks the specification gives the severities. *)
Definition spec_rank (severity : string) : option nat :=
  Js.assoc [ ("info", 0); ("warn", 1); ("error", 2); ("critical", 3) ] severity.

(** [validate] returns a result that is valid. *)
Definition accepts (self : ConfigValidator.t) (config : Js.json) (schemaName : string)
  : Prop :=
  exists result,
    (ConfigValidator.validate self config (Some schemaName)).1 = Js.Returned result
    /\ ValidationResult.valid result = true.

Definition critical_entries (errors : list ErrorEntry.t) : list ErrorEntry.t :=
  List.filter (fun e => String.eqb (ErrorEntry.severity e) "critical") errors.

End Props.

(** ** Sample inputs *)

Module Sample.

Definition outcome (pass skip : bool) : CheckReturn.t :=
  {| CheckReturn.message := Some "checked";
     CheckReturn.pass := pass;
     CheckReturn.skip := skip;
     CheckReturn.fix_ := None;
     CheckReturn.autoFix := false;
     CheckReturn.details := None |}.

Definition rule (id severity : string) (enabled : bool)
    (check : Fs.t -> string -> gmap string Js.json -> CheckOutcome) : Rule.t :=
  {| Rule.id := id; Rule.name := id; Rule.severity := severity;
     Rule.enabled := enabled; Rule.config := Some ∅; Rule.category := None;
     Rule.fix_ := None; Rule.check := check |}.

(** A rule that finds fault with every file. *)
Definition failing (id severity : string) : Rule.t :=
  rule id severity true (fun _ _ _ => Returns (outcome false false)).

(** A rule that does not apply to any file. *)
Definition skipping (id severity : string) : Rule.t :=
  rule id severity true (fun _ _ _ => Returns (outcome true true)).


(** A rule whose [check] is rejected without a reason: it throws
    [undefined]. *)
Definition rejecting (id severity : string) : Rule.t :=
  rule id severity true (fun _ _ _ => ThrowsNullish).

Definition disk : Fs.t := {[ "src/a.js" := Fs.RegularFile "const x = 1;" ]}.

(** The file of the auto-fix scenario: [const x = 1;], three spaces, and
    a line feed. *)
Definition untidy : string := "const x = 1;   " +:+ String "010"%char EmptyString.

Definition untidy_disk : Fs.t := {[ "src/b.js" := Fs.RegularFile untidy ]}.

(** A stand-in for the rule [no-trailing-whitespace]: it fails a file
    that trailing blanks can be stripped from, and marks the result for
    the automatic fix. *)
Definition no_trailing_whitespace : Rule.t :=
  rule "no-trailing-whitespace" "warn" true
    (fun fs filePath _ =>
       match Fs.readFileSync fs filePath with
       | Some content =>
           Returns
             {| CheckReturn.message := Some "Trailing whitespace";
                CheckReturn.pass :=
                  String.eqb (QualityGate.strip_trailing_whitespace content) content;
                CheckReturn.skip := false;
                CheckReturn.fix_ := Some "Remove trailing whitespace";
                CheckReturn.autoFix := true;
                CheckReturn.details := None |}
       | None => Throws "ENOENT: no such file or directory"
       end).

Definition host : QualityGate.Host :=
  {| QualityGate.fs := disk; QualityGate.scan := fun _ => ["src/a.js"] |}.

Definition gate : QualityGate.t :=
  {| QualityGate.projectDir := ".";
     QualityGate.config := QualityGate.default_config;
     QualityGate.reporters := [] |}.

Definition options (files : list string) (severity : string) (rules : list Rule.t)
  : CheckOptions.t :=
  {| CheckOptions.files := Some files;
     CheckOptions.severity := Some severity;
     CheckOptions.rules := Some rules;
     CheckOptions.fix_ := false |}.

(** A registry holding the opt-in rule only, as the rule catalogue
    registers it: severity [warn], disabled. *)
Definition opt_in_registry : RuleRegistry.t :=
  RuleRegistry.register [] "function-length"
    {| RuleRegistry.Entry.name := Some "Function Length";
       RuleRegistry.Entry.severity := Some "warn";
       RuleRegistry.Entry.enabled := Some false;
       RuleRegistry.Entry.config := None;
       RuleRegistry.Entry.category := None;
       RuleRegistry.Entry.fix_ := None;
       RuleRegistry.Entry.check := fun _ _ _ => Returns (outcome true false) |}.

(** A gate whose configuration switches the opt-in rule on. *)
Definition opt_in_gate : QualityGate.t :=
  {| QualityGate.projectDir := ".";
     QualityGate.config :=
       {| GateConfig.enabled := Some true;
          GateConfig.severity := Some "warn";
          GateConfig.rules :=
            Some [ {| Override.id := "function-length";
                      Override.enabled := Some true;
                      Override.severity := None;
                      Override.config := None |} ] |};
     QualityGate.reporters := [] |}.

(** A backend that finds nothing wrong below the top level, and writes
    nothing. *)
Definition lenient : Ajv.Engine :=
  {| Ajv.nested := fun _ _ _ _ => [];
     Ajv.rewritten := fun _ fields => fields |}.

Definition default_options : ConfigValidator.Options.t :=
  {| ConfigValidator.Options.strict := None;
     ConfigValidator.Options.allErrors := None;
     ConfigValidator.Options.coerceTypes := None;
     ConfigValidator.Options.useDefaults := None |}.

Definition with_backend : ConfigValidator.t :=
  ConfigValidator.new (Some lenient) default_options.

Definition without_backend : ConfigValidator.t :=
  ConfigValidator.new None default_options.

Definition versioned : list (string * Js.json) :=
  [ ("version", Js.JStr "1.0.7") ].

Definition store : ConfigValidator.Store :=
  fun address =>
    match address with
    | 0 => Js.JObj versioned
    | _ => Js.JObj []
    end.

End Sample.

(** ** The scan of the project directory *)

Module ProjectFiles.

(** An entry of [fs.readdirSync(dir, { withFileTypes: true })]: its name,
    and what [isDirectory()] and [isFile()] say of it. *)
Inductive Kind : Type :=
  | IsFile
  | IsDirectory
  | IsOther.

Record Dirent : Type := {
  name : string;
  kind : Kind
}.

(** What the runtime supplies to the scan: [fs.readdirSync] ([None] when
    it raises), [path.join] of two segments, and [path.extname]. *)
Record Runtime : Type := {
  readdirSync : string -> option (list Dirent);
  join : string -> string -> string;
  extname : string -> string
}.

Definition ignoreDirs : list string :=
  [ "node_modules"; ".git"; "dist"; "build"; ".next";
    "coverage"; ".nyc_output"; ".cache"; "vendor" ].

Definition checkExts : list string :=
  [ ".js"; ".ts"; ".jsx"; ".tsx"; ".cjs"; ".mjs";
    ".json"; ".md"; ".py"; ".go"; ".rs" ].

(** [scanDir(dir, depth)] with [levels] levels left before [depth]
    exceeds 10: the paths it pushes to [files], in order. *)
Fixpoint scan_levels (rt : Runtime) (levels : nat) (dir : string) : list string :=
  match levels with
  | 0 => []
  | S levels' =>
      match readdirSync rt dir with
      | None => []
      | Some entries =>
          flat_map (fun entry =>
            let fullPath := join rt dir (name entry) in
            match kind entry with
            | IsDirectory =>
                if Js.mem (name entry) ignoreDirs then []
                else scan_levels rt levels' fullPath
            | IsFile =>
                if Js.mem (extname rt (name entry)) checkExts then [fullPath]
                else []
            | IsOther => []
            end) entries
      end
  end.

(** [scanDir(dir, depth)]: nothing when [depth > 10]. *)
Definition scanDir (rt : Runtime) (dir : string) (depth : nat) : list string :=
  scan_levels rt (11 - depth) dir.

(** The host whose [_getProjectFiles] is the scan: [scanDir(this.projectDir)]. *)
Definition host (rt : Runtime) (fs : Fs.t) : QualityGate.Host :=
  {| QualityGate.fs := fs; QualityGate.scan := fun dir => scanDir rt dir 0 |}.

End ProjectFiles.

(** ** Further vocabulary *)

Module Terms.

(** The same options with another threshold. *)
Definition with_threshold (severity : string) (o : CheckOptions.t) : CheckOptions.t :=
  {| CheckOptions.files := CheckOptions.files o;
     CheckOptions.severity := Some severity;
     CheckOptions.rules := CheckOptions.rules o;
     CheckOptions.fix_ := CheckOptions.fix_ o |}.

(** The same options with [fix] set or not. *)
Definition with_fix (fix_ : bool) (o : CheckOptions.t) : CheckOptions.t :=
  {| CheckOptions.files := CheckOptions.files o;
     CheckOptions.severity := CheckOptions.severity o;
     CheckOptions.rules := CheckOptions.rules o;
     CheckOptions.fix_ := fix_ |}.


(** The result was made by the rule, for a file on disk. *)
Definition made_by (fs : Fs.t) (rule : Rule.t) (r : RuleResult.t) : Prop :=
  Rule.enabled rule = true
  /\ Fs.existsSync fs (RuleResult.file r) = true
  /\ RuleResult.rule r = Rule.id rule
  /\ RuleResult.ruleName r = Rule.name rule.

(** The result whose fix strips trailing blanks. *)
Definition strips (r : RuleResult.t) : bool :=
  String.eqb (RuleResult.rule r) "no-trailing-whitespace".

(** The text without its spaces and tabs. *)
Fixpoint without_blanks (s : string) : string :=
  match s with
  | EmptyString => EmptyString
  | String c rest =>
      if QualityGate.is_blank c then without_blanks rest
      else String c (without_blanks rest)
  end.

(** The files that the results marked for the fix name hold, where they
    are regular files, texts that the fix leaves alone. *)
Definition settled (fs : Fs.t) (rs : list RuleResult.t) : Prop :=
  forall r content,
    In r rs -> strips r = true ->
    fs !! RuleResult.file r = Some (Fs.RegularFile content) ->
    QualityGate.strip_trailing_whitespace content = content.




(** A stand-in runtime for [validateFile]: paths that have no directory
    part, and a parser that knows the empty object and rejects every
    other text at its first character. *)
Definition flat_runtime : ConfigValidator.Runtime :=
  {| ConfigValidator.basename := fun p => p;
     ConfigValidator.JSON_parse := fun text =>
       if String.eqb text "{}" then Js.Returned (Js.JObj [])
       else Js.Raised "Unexpected token in JSON at position 0" |}.

(** The regular file [file] lies in the directory reached from [dir]
    through the directories [dirs], one inside the other, and [path] is
    its path: the segments joined one by one. *)
Inductive found (rt : ProjectFiles.Runtime)
  : string -> list string -> string -> string -> Prop :=
  | found_here (dir : string) (entries : list ProjectFiles.Dirent) (file : string) :
      ProjectFiles.readdirSync rt dir = Some entries ->
      In {| ProjectFiles.name := file; ProjectFiles.kind := ProjectFiles.IsFile |}
         entries ->
      found rt dir [] file (ProjectFiles.join rt dir file)
  | found_below (dir : string) (entries : list ProjectFiles.Dirent) (d : string)
      (dirs : list string) (file path : string) :
      ProjectFiles.readdirSync rt dir = Some entries ->
      In {| ProjectFiles.name := d; ProjectFiles.kind := ProjectFiles.IsDirectory |}
         entries ->
      found rt (ProjectFiles.join rt dir d) dirs file path ->
      found rt dir (d :: dirs) file path.

(** A stand-in runtime for the scan: a project that holds [a.js],
    [notes.txt] and the directories [src], with [b.ts] in it, and
    [node_modules], with [c.js] in it; paths joined with a slash; the
    extension taken from a table of these names. *)
Definition small_project : ProjectFiles.Runtime :=
  {| ProjectFiles.readdirSync := fun dir =>
       if String.eqb dir "." then
         Some [ {| ProjectFiles.name := "a.js"; ProjectFiles.kind := ProjectFiles.IsFile |};
                {| ProjectFiles.name := "notes.txt";
                   ProjectFiles.kind := ProjectFiles.IsFile |};
                {| ProjectFiles.name := "src";
                   ProjectFiles.kind := ProjectFiles.IsDirectory |};
                {| ProjectFiles.name := "node_modules";
                   ProjectFiles.kind := ProjectFiles.IsDirectory |} ]
       else if String.eqb dir "./src" then
         Some [ {| ProjectFiles.name := "b.ts"; ProjectFiles.kind := ProjectFiles.IsFile |} ]
       else if String.eqb dir "./node_modules" then
         Some [ {| ProjectFiles.name := "c.js"; ProjectFiles.kind := ProjectFiles.IsFile |} ]
       else None;
     ProjectFiles.join := fun dir name => dir +:+ "/" +:+ name;
     ProjectFiles.extname := fun name =>
       default EmptyString
         (Js.assoc [ ("a.js", ".js"); ("b.ts", ".ts"); ("c.js", ".js");
                     ("notes.txt", ".txt") ] name) |}.

(** The lines of the first [pos] characters of a text. *)
Definition lines_before (pos : nat) (content : string) : list string :=
  ConfigValidator.split_lines (ConfigValidator.substring0 pos content).

End Terms.

(** What an override does to the rule it names: the fields it sets. *)
Module Patch.
Record t : Type := {
  enabled : option bool;
  severity : option string;
  config : option (gmap string Js.json)
}.

Definition empty : t :=
  {| enabled := None; severity := None; config := None |}.

Definition of_override (o : Override.t) : t :=
  {| enabled := Override.enabled o;
     severity := Js.or_else (Override.severity o) None;
     config := Override.config o |}.

Definition apply (p : t) (r : Rule.t) : Rule.t :=
  let r1 := match enabled p with Some b => Rule.with_enabled b r | None => r end in
  let r2 := match severity p with Some s => Rule.with_severity s r1 | None => r1 end in
  match config p with
  | Some c => Rule.with_config (c ∪ default ∅ (Rule.config r2)) r2
  | None => r2
  end.

(** First [p1], then [p2]. *)
Definition compose (p2 p1 : t) : t :=
  {| enabled := match enabled p2 with Some b => Some b | None => enabled p1 end;
     severity := match severity p2 with Some s => Some s | None => severity p1 end;
     config :=
       match config p2, config p1 with
       | Some c2, Some c1 => Some (c2 ∪ c1)
       | Some c2, None => Some c2
       | None, c1 => c1
       end |}.

(** What a list of overrides, applied in order, does to the rule at the
    position [i] of the catalog [reg]. *)
Fixpoint total (reg : RuleRegistry.t) (os : list Override.t) (i : nat) : t :=
  match os with
  | [] => empty
  | o :: rest =>
      compose (total reg rest i)
        (if bool_decide (RuleRegistry.get reg (Override.id o) = Some i)
         then of_override o else empty)
  end.
End Patch.

(** * Properties *)

(** ** Strings and tables *)

Lemma eqb_true (a b : string) : String.eqb a b = true <-> a = b.
Proof. apply String.eqb_eq. Qed.

Lemma eqb_false (a b : string) : String.eqb a b = false <-> a <> b.
Proof. apply String.eqb_neq. Qed.

Lemma obj_get_set_other (fields : list (string * Js.json)) (k k' : string) (v : Js.json) :
  k <> k' -> Js.obj_get (Js.obj_set k v fields) k' = Js.obj_get fields k'.
Proof.
  intros Hne. induction fields as [|[k0 v0] rest IH]; simpl.
  - apply eqb_false in Hne. by rewrite Hne.
  - destruct (String.eqb_spec k0 k) as [->|Hk]; simpl.
    + apply eqb_false in Hne. by rewrite Hne.
    + by rewrite IH.
Qed.

Lemma obj_get_set_same (fields : list (string * Js.json)) (k : string) (v : Js.json) :
  Js.obj_get (Js.obj_set k v fields) k = Some v.
Proof.
  induction fields as [|[k0 v0] rest IH]; simpl.
  - by rewrite String.eqb_refl.
  - destruct (String.eqb_spec k0 k) as [->|Hk]; simpl.
    + by rewrite String.eqb_refl.
    + apply eqb_false in Hk. by rewrite Hk.
Qed.

Lemma mem_In (k : string) (l : list string) : Js.mem k l = true <-> In k l.
Proof.
  unfold Js.mem. rewrite existsb_exists. split.
  - intros (x & Hx & Heq). apply eqb_true in Heq. by subst.
  - intros Hin. exists k. split; [done | apply String.eqb_refl].
Qed.

(** ** The loops of the gate *)

Lemma forallb_map {A B : Type} (f : A -> B) (p : B -> bool) (l : list A) :
  forallb p (map f l) = forallb (fun x => p (f x)) l.
Proof. induction l as [|x l IH]; [done|]. simpl. by rewrite IH. Qed.

Section Loops.

Import QualityGate.

Variable fs : Fs.t.

(** What the [try] and its [catch] come to, by what the check does. *)
Lemma run_rule_cases (f : string) (r : Rule.t) :
  if Props.nullish fs (f, r)
  then run_rule fs f r = Js.Raised CannotReadMessage /\ Props.attempt fs (f, r) = []
  else exists result,
         run_rule fs f r = Js.Returned result /\ Props.attempt fs (f, r) = [result].
Proof.
  unfold Props.nullish, Props.attempt, run_rule. simpl.
  destruct (Rule.check r fs f (default ∅ (Rule.config r))); eauto.
Qed.

Lemma _checkFile_step_disabled (f : string) (r : Rule.t)
    (acc : Js.completion (list RuleResult.t) Rejection * list Call) :
  Rule.enabled r = false -> _checkFile_step fs f acc r = acc.
Proof.
  intros Hen. unfold _checkFile_step. rewrite Hen. simpl. by destruct acc.1.
Qed.

Lemma _checkFile_step_enabled (f : string) (r : Rule.t)
    (rs : list RuleResult.t) (cs : list Call) :
  Rule.enabled r = true ->
  _checkFile_step fs f (Js.Returned rs, cs) r
  = match run_rule fs f r with
    | Js.Returned result => (Js.Returned (rs ++ [result]), cs ++ [(f, Rule.id r)])
    | Js.Raised e => (Js.Raised e, cs ++ [(f, Rule.id r)])
    end.
Proof. intros Hen. unfold _checkFile_step. simpl. by rewrite Hen. Qed.

(** Once the loop over the rules is left, nothing more is done. *)
Lemma _checkFile_step_left (f : string) (rules : list Rule.t) (e : Rejection)
    (cs : list Call) :
  fold_left (_checkFile_step fs f) rules (Js.Raised e, cs) = (Js.Raised e, cs).
Proof. induction rules as [|r rules IH]; [done|]. exact IH. Qed.

Lemma _checkFile_step_fold (f : string) (rules : list Rule.t)
    (rs : list RuleResult.t) (cs : list Call) :
  if forallb (fun r => negb (Props.nullish fs (f, r))) (List.filter Rule.enabled rules)
  then fold_left (_checkFile_step fs f) rules (Js.Returned rs, cs)
       = (Js.Returned
            (rs ++ flat_map (fun r => Props.attempt fs (f, r))
                     (List.filter Rule.enabled rules)),
          cs ++ map (fun r => (f, Rule.id r)) (List.filter Rule.enabled rules))
  else (fold_left (_checkFile_step fs f) rules (Js.Returned rs, cs)).1
       = Js.Raised CannotReadMessage.
Proof.
  revert rs cs. induction rules as [|r rules IH]; intros rs cs.
  { simpl. by rewrite !app_nil_r. }
  cbn [fold_left List.filter]. destruct (Rule.enabled r) eqn:Hen.
  - rewrite (_checkFile_step_enabled f r rs cs Hen).
    cbn [forallb map flat_map].
    pose proof (run_rule_cases f r) as Hr.
    destruct (Props.nullish fs (f, r)).
    + destruct Hr as [-> _]. by rewrite _checkFile_step_left.
    + destruct Hr as (result & -> & ->). cbn [negb andb].
      specialize (IH (rs ++ [result]) (cs ++ [(f, Rule.id r)])).
      destruct (forallb _ (List.filter Rule.enabled rules)); [|exact IH].
      rewrite IH. by rewrite <- !app_assoc.
  - rewrite (_checkFile_step_disabled f r _ Hen). apply IH.
Qed.

Lemma _checkFile_on_disk (filePath : string) (rules : list Rule.t) :
  Fs.existsSync fs filePath = true ->
  if forallb (fun r => negb (Props.nullish fs (filePath, r)))
       (List.filter Rule.enabled rules)
  then _checkFile fs filePath rules
       = (Js.Returned
            (flat_map (fun r => Props.attempt fs (filePath, r))
               (List.filter Rule.enabled rules)),
          map (fun r => (filePath, Rule.id r)) (List.filter Rule.enabled rules))
  else (_checkFile fs filePath rules).1 = Js.Raised CannotReadMessage.
Proof.
  intros Hex. unfold _checkFile. rewrite Hex. simpl.
  apply (_checkFile_step_fold filePath rules [] []).
Qed.

Lemma _checkFile_missing (filePath : string) (rules : list Rule.t) :
  Fs.existsSync fs filePath = false ->
  _checkFile fs filePath rules = (Js.Returned [file_not_found filePath], []).
Proof. intros Hex. unfold _checkFile. by rewrite Hex. Qed.

(** Once the loop over the files is left, nothing more is done. *)
Lemma check_step_left (rules : list Rule.t) (files : list string) (st : Loop)
    (e : Rejection) :
  left st = Some e -> fold_left (check_step fs rules) files st = st.
Proof.
  intros Hleft. induction files as [|f files IH]; [done|].
  cbn [fold_left]. unfold check_step at 2. by rewrite Hleft.
Qed.

Lemma tame_cons (f : string) (files : list string) (rules : list Rule.t) :
  Props.tame fs (f :: files) rules
  = (if Fs.existsSync fs f
     then forallb (fun r => negb (Props.nullish fs (f, r)))
            (List.filter Rule.enabled rules)
     else true)
    && Props.tame fs files rules.
Proof.
  unfold Props.tame, Props.processed. simpl. rewrite forallb_app.
  destruct (Fs.existsSync fs f); [by rewrite forallb_map|done].
Qed.

Lemma check_step_on (rules : list Rule.t) (f : string) (rs : list RuleResult.t)
    (c : Counts) (cs : list Call) :
  check_step fs rules {| results := rs; counts := c; calls := cs; left := None |} f
  = match (_checkFile fs f rules).1 with
    | Js.Returned rs' =>
        {| results := rs ++ rs'; counts := fold_left count rs' c;
           calls := cs ++ (_checkFile fs f rules).2; left := None |}
    | Js.Raised e =>
        {| results := rs; counts := c;
           calls := cs ++ (_checkFile fs f rules).2; left := Some e |}
    end.
Proof. done. Qed.

Lemma check_step_fold (rules : list Rule.t) (files : list string) (st : Loop) :
  left st = None ->
  if Props.tame fs files rules
  then fold_left (check_step fs rules) files st
       = {| results := results st ++ Props.expected fs files rules;
            counts := fold_left count (Props.expected fs files rules) (counts st);
            calls := calls st ++ map Props.call (Props.processed fs files rules);
            left := None |}
  else left (fold_left (check_step fs rules) files st) = Some CannotReadMessage.
Proof.
  revert st. induction files as [|f files IH]; intros [rs c cs l] Hl;
    simpl in Hl; subst l.
  { simpl. by rewrite !app_nil_r. }
  rewrite tame_cons. cbn [fold_left]. rewrite check_step_on.
  unfold Props.expected, Props.processed. cbn [flat_map].
  fold (Props.expected fs files rules). fold (Props.processed fs files rules).
  destruct (Fs.existsSync fs f) eqn:Hex.
  - pose proof (_checkFile_on_disk f rules Hex) as Hfile.
    destruct (forallb _ (List.filter Rule.enabled rules)).
    + rewrite Hfile. cbn [fst snd andb].
      match goal with
      | |- context [fold_left (check_step fs rules) files ?st1] =>
          specialize (IH st1 eq_refl)
      end.
      destruct (Props.tame fs files rules); cbn [andb]; [|exact IH].
      rewrite IH. cbn [results counts calls].
      rewrite fold_left_app, map_app, map_map, <- !app_assoc. done.
    + cbn [andb]. destruct (_checkFile fs f rules) as [[rs'|e] cs'];
        simpl in Hfile; [discriminate|]. injection Hfile as ->.
      cbn [fst snd]. by rewrite (check_step_left _ _ _ CannotReadMessage).
  - rewrite (_checkFile_missing f rules Hex). cbn [fst snd andb].
    match goal with
    | |- context [fold_left (check_step fs rules) files ?st1] =>
        specialize (IH st1 eq_refl)
    end.
    destruct (Props.tame fs files rules); cbn [andb]; [|exact IH].
    rewrite IH. cbn [results counts calls map app fold_left].
    by rewrite <- !app_assoc.
Qed.




(** Every result lands in the bucket of its severity. *)
Lemma count_buckets (rs : list RuleResult.t) (c : Counts) :
  criticalCount (fold_left count rs c)
    = criticalCount c + length (List.filter (Props.has_severity "critical") rs)
  /\ errorCount (fold_left count rs c)
    = errorCount c + length (List.filter (Props.has_severity "error") rs)
  /\ warnCount (fold_left count rs c)
    = warnCount c + length (List.filter (Props.has_severity "warn") rs)
  /\ infoCount (fold_left count rs c)
    = infoCount c + length (List.filter (Props.has_severity "info") rs).
Proof.
  revert c. induction rs as [|r rs IH]; intros c; simpl.
  - repeat split; lia.
  - destruct (IH (count c r)) as (Hc & He & Hw & Hi).
    rewrite Hc, He, Hw, Hi. clear IH Hc He Hw Hi.
    unfold count, Props.has_severity.
    destruct (String.eqb_spec (RuleResult.severity r) "critical") as [->|?];
      [simpl; repeat split; lia|].
    destruct (String.eqb_spec (RuleResult.severity r) "error") as [->|?];
      [simpl; repeat split; lia|].
    destruct (String.eqb_spec (RuleResult.severity r) "warn") as [->|?];
      [simpl; repeat split; lia|].
    destruct (String.eqb_spec (RuleResult.severity r) "info");
      simpl; repeat split; lia.
Qed.

End Loops.

(** ** What a run of the gate returns *)

Section Runs.

Import QualityGate.

Variables (self : QualityGate.t) (reg : RuleRegistry.t) (host : Host)
          (options : CheckOptions.t).

(** A run is left exactly when a check of it throws [null] or
    [undefined]; a run that is not left returns. *)
Lemma check_cases :
  if Props.tame (fs host) (resolve_files self host options)
       (resolve_rules self reg options).1
  then exists run, check self reg host options = Js.Returned run
  else exists aborted,
         check self reg host options = Js.Raised aborted
         /\ reason aborted = CannotReadMessage
         /\ registry_then aborted = (resolve_rules self reg options).2.
Proof.
  unfold check. cbv zeta.
  pose proof (check_step_fold (fs host) (resolve_rules self reg options).1
                (resolve_files self host options)
                {| results := [];
                   counts := {| criticalCount := 0; errorCount := 0;
                                warnCount := 0; infoCount := 0 |};
                   calls := []; left := None |} eq_refl) as Hfold.
  destruct (Props.tame (fs host) _ _).
  - rewrite Hfold. cbn [left]. eauto.
  - rewrite Hfold. eauto.
Qed.



Variable run : Run.

Hypothesis Hrun : check self reg host options = Js.Returned run.

(** What a run that returns is made of. *)
Lemma check_returned :
  let files := resolve_files self host options in
  let rules := (resolve_rules self reg options).1 in
  let rs := Props.expected (fs host) files rules in
  Props.tame (fs host) files rules = true
  /\ CheckResult.results (returned run) = rs
  /\ invoked run = map Props.call (Props.processed (fs host) files rules)
  /\ CheckResult.passed (returned run)
     = negb (_hasBlockingIssues rs (_severityLevel (resolve_severity self options)))
  /\ CheckResult.summary (returned run)
     = {| GateSummary.total := length rs;
          GateSummary.critical := length (List.filter (Props.has_severity "critical") rs);
          GateSummary.error := length (List.filter (Props.has_severity "error") rs);
          GateSummary.warn := length (List.filter (Props.has_severity "warn") rs);
          GateSummary.info := length (List.filter (Props.has_severity "info") rs);
          GateSummary.filesChecked := length files;
          GateSummary.rulesRun := length rules;
          GateSummary.fixed := GateSummary.fixed (CheckResult.summary (returned run)) |}
  /\ registry run = (resolve_rules self reg options).2.
Proof.
  intros files rules rs. revert Hrun. unfold check. cbv zeta.
  pose proof (check_step_fold (fs host) (resolve_rules self reg options).1
                (resolve_files self host options)
                {| results := [];
                   counts := {| criticalCount := 0; errorCount := 0;
                                warnCount := 0; infoCount := 0 |};
                   calls := []; left := None |} eq_refl) as Hfold.
  fold files rules in Hfold |- *. fold rs in Hfold.
  destruct (Props.tame (fs host) files rules); rewrite Hfold; [|discriminate].
  cbn [left results counts calls app]. intros [= <-].
  cbn [returned invoked registry CheckResult.results CheckResult.passed
       CheckResult.summary GateSummary.fixed].
  destruct (count_buckets rs
              {| criticalCount := 0; errorCount := 0; warnCount := 0; infoCount := 0 |})
    as (Hc & He & Hw & Hi).
  rewrite Hc, He, Hw, Hi. done.
Qed.

Lemma check_tame :
  Props.tame (fs host) (resolve_files self host options)
    (resolve_rules self reg options).1 = true.
Proof. apply check_returned. Qed.

Lemma check_results :
  CheckResult.results (returned run)
  = Props.expected (fs host) (resolve_files self host options)
      (resolve_rules self reg options).1.
Proof. apply check_returned. Qed.


Lemma check_passed :
  CheckResult.passed (returned run)
  = negb (_hasBlockingIssues (CheckResult.results (returned run))
            (_severityLevel (resolve_severity self options))).
Proof. rewrite check_results. apply check_returned. Qed.

(** The four counts of the summary are the numbers of results of each
    severity, whatever the results say otherwise. *)
Lemma check_summary_counts :
  let summary := CheckResult.summary (returned run) in
  let rs := CheckResult.results (returned run) in
  GateSummary.critical summary = length (List.filter (Props.has_severity "critical") rs)
  /\ GateSummary.error summary = length (List.filter (Props.has_severity "error") rs)
  /\ GateSummary.warn summary = length (List.filter (Props.has_severity "warn") rs)
  /\ GateSummary.info summary = length (List.filter (Props.has_severity "info") rs).
Proof.
  cbv zeta. rewrite check_results.
  destruct check_returned as (_ & _ & _ & _ & -> & _). done.
Qed.

Lemma check_sizes :
  let summary := CheckResult.summary (returned run) in
  GateSummary.total summary = length (CheckResult.results (returned run))
  /\ GateSummary.filesChecked summary = length (resolve_files self host options)
  /\ GateSummary.rulesRun summary = length (resolve_rules self reg options).1.
Proof.
  cbv zeta. rewrite check_results.
  destruct check_returned as (_ & _ & _ & _ & -> & _). done.
Qed.

End Runs.

(** ** Lists *)

Lemma filter_length_split {A : Type} (p q : A -> bool) (l : list A) :
  length (List.filter p l)
  = length (List.filter p (List.filter q l))
    + length (List.filter p (List.filter (fun x => negb (q x)) l)).
Proof.
  induction l as [|x l IH]; [done|]. simpl.
  destruct (q x), (p x) eqn:Hp; simpl; rewrite ?Hp; simpl; lia.
Qed.

Lemma blocking_ignores_skipped (rs : list RuleResult.t) (minSeverity : Js.num) :
  QualityGate._hasBlockingIssues (List.filter (fun r => negb (RuleResult.skip r)) rs) minSeverity
  = QualityGate._hasBlockingIssues rs minSeverity.
Proof.
  unfold QualityGate._hasBlockingIssues.
  induction rs as [|r rs IH]; [done|]. simpl.
  destruct (RuleResult.skip r) eqn:Hs; simpl.
  - rewrite IH. by rewrite andb_false_r.
  - by rewrite Hs, IH.
Qed.

(** ** Rules that raise *)

Section Raising.

Import QualityGate.

Variable fs : Fs.t.

(** The severity of the result of a pair: ["error"] when the check
    raises, the rule's own otherwise. *)
Lemma run_rule_severity (f : string) (r : Rule.t) (result : RuleResult.t) :
  run_rule fs f r = Js.Returned result ->
  RuleResult.severity result
  = if Props.throws fs (f, r) then "error" else Rule.severity r.
Proof.
  unfold run_rule, Props.throws. simpl.
  destruct (Rule.check r fs f (default ∅ (Rule.config r))); by intros [= <-].
Qed.

(** The result of a pair bears the file, and the id and the name of the
    rule. *)
Lemma run_rule_file (f : string) (r : Rule.t) (result : RuleResult.t) :
  run_rule fs f r = Js.Returned result ->
  RuleResult.file result = f
  /\ RuleResult.rule result = Rule.id r
  /\ RuleResult.ruleName result = Rule.name r.
Proof.
  unfold run_rule.
  destruct (Rule.check r fs f (default ∅ (Rule.config r))); by intros [= <-].
Qed.

Lemma attempt_result (p : string * Rule.t) (result : RuleResult.t) :
  In result (Props.attempt fs p) -> run_rule fs p.1 p.2 = Js.Returned result.
Proof.
  unfold Props.attempt. destruct (run_rule fs p.1 p.2); [|intros []].
  by intros [<-|[]].
Qed.


Lemma error_results_of_pairs (f : string) (rs : list Rule.t) :
  forallb (fun r => negb (Props.nullish fs (f, r))) rs = true ->
  length (List.filter (Props.has_severity "error")
            (flat_map (fun r => Props.attempt fs (f, r)) rs))
  = length (List.filter (Props.throws fs) (map (pair f) rs))
    + length (List.filter
                (fun p => negb (Props.throws fs p)
                          && String.eqb (Rule.severity p.2) "error")
                (map (pair f) rs)).
Proof.
  induction rs as [|r rs IH]; [done|]. cbn [forallb flat_map map List.filter].
  intros Htame. apply andb_true_iff in Htame as [Hr Htame].
  pose proof (run_rule_cases fs f r) as Hcases.
  apply negb_true_iff in Hr. rewrite Hr in Hcases.
  destruct Hcases as (result & Hrun & ->). cbn [app List.filter].
  unfold Props.has_severity at 1. rewrite (run_rule_severity f r result Hrun).
  destruct (Props.throws fs (f, r)); simpl.
  - rewrite (IH Htame). lia.
  - destruct (String.eqb (Rule.severity r) "error"); simpl; rewrite (IH Htame); lia.
Qed.

Lemma error_results_of_files (files : list string) (rules : list Rule.t) :
  Props.tame fs files rules = true ->
  length (List.filter (Props.has_severity "error") (Props.expected fs files rules))
  = length (List.filter (Props.throws fs) (Props.processed fs files rules))
    + length (Props.missing fs files)
    + length (List.filter
                (fun p => negb (Props.throws fs p)
                          && String.eqb (Rule.severity p.2) "error")
                (Props.processed fs files rules)).
Proof.
  induction files as [|f files IH]; [done|].
  rewrite tame_cons. intros Htame. apply andb_true_iff in Htame as [Hf Htame].
  unfold Props.expected, Props.processed, Props.missing in *. simpl.
  rewrite !List.filter_app, !length_app, (IH Htame). clear IH.
  destruct (Fs.existsSync fs f) eqn:Hex; simpl.
  - rewrite (error_results_of_pairs f _ Hf). lia.
  - lia.
Qed.

End Raising.

(** ** The claims about the quality gate *)

(** C1.  The specification ranks [info] (0) strictly below [warn] (1), so
    that a failing result of severity [info] does not block a run whose
    threshold is [warn].  The code ranks both 1: a run whose only result
    is a failing, non-skipped one of severity [info] does not pass under
    the threshold [warn]. *)
Theorem info_failure_blocks_warn_threshold :
  exists run,
    QualityGate.check Sample.gate [] Sample.host
      (Sample.options ["src/a.js"] "warn" [Sample.failing "line-count-limit" "info"])
    = Js.Returned run
    /\ map (fun r => (RuleResult.severity r, RuleResult.pass r, RuleResult.skip r))
           (CheckResult.results (QualityGate.returned run))
       = [("info", false, false)]
    /\ Props.spec_rank "info" = Some 0
    /\ Props.spec_rank "warn" = Some 1
    /\ QualityGate._severityLevel "info" = Js.Num 1
    /\ QualityGate._severityLevel "warn" = Js.Num 1
    /\ CheckResult.passed (QualityGate.returned run) = false.
Proof. eexists. split; [vm_compute; reflexivity|]. vm_compute. done. Qed.

(** What does hold of [passed]: it is false exactly when some result is
    failing, not skipped, and of a level, as [_severityLevel] computes
    it, at least that of the threshold. *)
Lemma passed_false_iff (self : QualityGate.t) (reg : RuleRegistry.t)
    (host : QualityGate.Host) (options : CheckOptions.t) (run : QualityGate.Run) :
  QualityGate.check self reg host options = Js.Returned run ->
  CheckResult.passed (QualityGate.returned run) = false
  <-> exists r,
        In r (CheckResult.results (QualityGate.returned run))
        /\ RuleResult.pass r = false
        /\ RuleResult.skip r = false
        /\ Js.num_ge (QualityGate._severityLevel (RuleResult.severity r))
             (QualityGate._severityLevel (QualityGate.resolve_severity self options))
           = true.
Proof.
  intros Hrun. rewrite (check_passed self reg host options run Hrun).
  rewrite negb_false_iff. unfold QualityGate._hasBlockingIssues.
  rewrite existsb_exists. split.
  - intros (r & Hin & Hr). exists r.
    apply andb_true_iff in Hr as [Hr Hge]. apply andb_true_iff in Hr as [Hp Hs].
    apply negb_true_iff in Hp, Hs. done.
  - intros (r & Hin & Hp & Hs & Hge). exists r. split; [done|].
    by rewrite Hp, Hs, Hge.
Qed.

(** Failing results of severity [warn] or [error] do not block a run
    whose threshold is [critical]. *)
Lemma critical_threshold_passes (self : QualityGate.t) (reg : RuleRegistry.t)
    (host : QualityGate.Host) (options : CheckOptions.t) (run : QualityGate.Run) :
  QualityGate.check self reg host options = Js.Returned run ->
  QualityGate.resolve_severity self options = "critical" ->
  (forall r, In r (CheckResult.results (QualityGate.returned run)) ->
             RuleResult.pass r = false -> RuleResult.skip r = false ->
             RuleResult.severity r = "warn" \/ RuleResult.severity r = "error") ->
  CheckResult.passed (QualityGate.returned run) = true.
Proof.
  intros Hrun Hsev Hall.
  destruct (CheckResult.passed (QualityGate.returned run)) eqn:Hp; [done|].
  apply (passed_false_iff self reg host options run Hrun)
    in Hp as (r & Hin & Hpass & Hskip & Hge).
  rewrite Hsev in Hge.
  destruct (Hall r Hin Hpass Hskip) as [Hr|Hr]; rewrite Hr in Hge; by vm_compute in Hge.
Qed.

(** The auto-fix scenario: with [fix] set, the file with trailing blanks
    is rewritten without them and counted as fixed. *)
Example fix_strips_trailing_whitespace :
  exists run,
    QualityGate.check Sample.gate []
      {| QualityGate.fs := Sample.untidy_disk; QualityGate.scan := fun _ => [] |}
      {| CheckOptions.files := Some ["src/b.js"];
         CheckOptions.severity := None;
         CheckOptions.rules := Some [Sample.no_trailing_whitespace];
         CheckOptions.fix_ := true |}
    = Js.Returned run
    /\ map (fun r => (RuleResult.pass r, RuleResult.autoFix r))
           (CheckResult.results (QualityGate.returned run)) = [(false, true)]
    /\ GateSummary.fixed (CheckResult.summary (QualityGate.returned run)) = Some 1
    /\ Fs.readFileSync (QualityGate.disk run) "src/b.js"
       = Some ("const x = 1;" +:+ String "010"%char EmptyString).
Proof. eexists. split; [vm_compute; reflexivity|]. vm_compute. done. Qed.

(** C2.  The specification keeps a skipped result out of the counts of
    the summary.  The code counts it: a run whose only result is a
    skipped one of severity [warn] returns the [warn] count 1, while no
    result that is not skipped has that severity, and the run passes. *)
Theorem skipped_result_is_counted :
  exists run,
    QualityGate.check Sample.gate [] Sample.host
      (Sample.options ["src/a.js"] "warn" [Sample.skipping "no-console-logs" "warn"])
    = Js.Returned run
    /\ map RuleResult.skip (CheckResult.results (QualityGate.returned run)) = [true]
    /\ GateSummary.warn (CheckResult.summary (QualityGate.returned run)) = 1
    /\ length (List.filter (Props.has_severity "warn")
                 (List.filter (fun r => negb (RuleResult.skip r))
                    (CheckResult.results (QualityGate.returned run)))) = 0
    /\ CheckResult.passed (QualityGate.returned run) = true.
Proof. eexists. split; [vm_compute; reflexivity|]. vm_compute. done. Qed.

(** What the code does with skipped results.  A skipped result never
    bears on [passed]: the verdict is the one of the results that are not
    skipped.  It does bear on the counts: each count of the summary is
    the number of results of that severity that are not skipped plus the
    number of those that are. *)
Lemma skipped_results_counted_but_never_blocking (self : QualityGate.t)
    (reg : RuleRegistry.t) (host : QualityGate.Host) (options : CheckOptions.t)
    (run : QualityGate.Run) :
  QualityGate.check self reg host options = Js.Returned run ->
  let summary := CheckResult.summary (QualityGate.returned run) in
  let rs := CheckResult.results (QualityGate.returned run) in
  let kept := List.filter (fun r => negb (RuleResult.skip r)) rs in
  let skipped := List.filter RuleResult.skip rs in
  CheckResult.passed (QualityGate.returned run)
  = negb (QualityGate._hasBlockingIssues kept
            (QualityGate._severityLevel (QualityGate.resolve_severity self options)))
  /\ GateSummary.critical summary
     = length (List.filter (Props.has_severity "critical") kept)
       + length (List.filter (Props.has_severity "critical") skipped)
  /\ GateSummary.error summary
     = length (List.filter (Props.has_severity "error") kept)
       + length (List.filter (Props.has_severity "error") skipped)
  /\ GateSummary.warn summary
     = length (List.filter (Props.has_severity "warn") kept)
       + length (List.filter (Props.has_severity "warn") skipped)
  /\ GateSummary.info summary
     = length (List.filter (Props.has_severity "info") kept)
       + length (List.filter (Props.has_severity "info") skipped).
Proof.
  intros Hrun summary rs kept skipped.
  destruct (check_summary_counts self reg host options run Hrun) as (Hc & He & Hw & Hi).
  split.
  - unfold kept, rs. rewrite blocking_ignores_skipped.
    apply (check_passed self reg host options run Hrun).
  - unfold summary, kept, skipped, rs.
    rewrite Hc, He, Hw, Hi.
    repeat split;
      rewrite (filter_length_split _ RuleResult.skip); apply Nat.add_comm.
Qed.

(** C3.  The specification has every run complete, whatever a check
    throws, with one synthetic result for the pair.  The [catch] clause
    reads [e.message]; of [undefined] and [null] that read raises, and
    the exception leaves [_checkFile] and [check].  With a rule whose
    check is rejected without a reason, the run is left at the first
    file: [check] returns nothing, the rule after it is never called, and
    the second file is not looked at. *)
Theorem nullish_throw_leaves_the_run :
  exists aborted,
    QualityGate.check Sample.gate [] Sample.host
      (Sample.options ["src/a.js"; "gone.js"] "warn"
         [Sample.rejecting "no-empty-files" "warn";
          Sample.failing "line-count-limit" "error"])
    = Js.Raised aborted
    /\ QualityGate.reason aborted = QualityGate.CannotReadMessage
    /\ QualityGate.invoked_then aborted = [("src/a.js", "no-empty-files")]
    /\ Props.processed Sample.disk ["src/a.js"; "gone.js"]
         [Sample.rejecting "no-empty-files" "warn";
          Sample.failing "line-count-limit" "error"]
       = [ ("src/a.js", Sample.rejecting "no-empty-files" "warn");
           ("src/a.js", Sample.failing "line-count-limit" "error") ]
    /\ Props.missing Sample.disk ["src/a.js"; "gone.js"] = ["gone.js"].
Proof. eexists. split; [vm_compute; reflexivity|]. vm_compute. done. Qed.

(** What the code does with a check that raises.  A run is left exactly
    when a check of it throws [null] or [undefined].  A run that is not
    left covers every file and, for a file on disk, every enabled rule:
    its results are, file by file, one per enabled rule.  The result of a
    pair whose check raises with message [m] is the synthetic one:
    severity [error], [pass] false, and the message [Rule execution
    error: m].  The [error] count of the summary is one per pair whose
    check raises, plus one per missing file, plus one per pair whose
    check returns and whose rule is of severity [error]. *)
Lemma raising_rule_is_isolated (self : QualityGate.t) (reg : RuleRegistry.t)
    (host : QualityGate.Host) (options : CheckOptions.t) :
  let fs := QualityGate.fs host in
  let files := QualityGate.resolve_files self host options in
  let rules := (QualityGate.resolve_rules self reg options).1 in
  ((exists run, QualityGate.check self reg host options = Js.Returned run)
   <-> Forall (fun p => Props.nullish fs p = false) (Props.processed fs files rules))
  /\ (forall f r,
        match Rule.check r fs f (default ∅ (Rule.config r)) with
        | Throws m =>
            QualityGate.run_rule fs f r
            = Js.Returned
                {| RuleResult.file := f;
                   RuleResult.rule := Rule.id r;
                   RuleResult.ruleName := Rule.name r;
                   RuleResult.severity := "error";
                   RuleResult.message := Some ("Rule execution error: " +:+ m);
                   RuleResult.pass := false;
                   RuleResult.skip := false;
                   RuleResult.fix_ := None;
                   RuleResult.autoFix := false;
                   RuleResult.details := None |}
        | Returns _ =>
            exists result,
              QualityGate.run_rule fs f r = Js.Returned result
              /\ RuleResult.severity result = Rule.severity r
        | ThrowsNullish =>
            QualityGate.run_rule fs f r = Js.Raised QualityGate.CannotReadMessage
        end)
  /\ (forall run,
        QualityGate.check self reg host options = Js.Returned run ->
        CheckResult.results (QualityGate.returned run)
        = Props.expected fs files rules
        /\ Forall (fun p => exists result,
                     QualityGate.run_rule fs p.1 p.2 = Js.Returned result
                     /\ Props.attempt fs p = [result])
                  (Props.processed fs files rules)
        /\ GateSummary.error (CheckResult.summary (QualityGate.returned run))
           = length (List.filter (Props.throws fs) (Props.processed fs files rules))
             + length (Props.missing fs files)
             + length (List.filter
                         (fun p => negb (Props.throws fs p)
                                   && String.eqb (Rule.severity p.2) "error")
                         (Props.processed fs files rules))).
Proof.
  intros fs files rules.
  assert (Props.tame fs files rules = true
          <-> Forall (fun p => Props.nullish fs p = false)
                     (Props.processed fs files rules)) as Htame.
  { unfold Props.tame. rewrite forallb_forall, List.Forall_forall.
    split; intros H p Hp; specialize (H p Hp); by apply negb_true_iff. }
  split; [|split].
  - rewrite <- Htame. pose proof (check_cases self reg host options) as Hcases.
    fold fs files rules in Hcases.
    destruct (Props.tame fs files rules).
    + split; [done|]. by intros _.
    + destruct Hcases as (aborted & Hab & _). split; [|done].
      intros [run Hrun]. congruence.
  - intros f r. unfold QualityGate.run_rule.
    destruct (Rule.check r fs f (default ∅ (Rule.config r))); eauto.
  - intros run Hrun.
    pose proof (check_tame self reg host options run Hrun) as Ht. fold fs files rules in Ht.
    split; [apply (check_results self reg host options run Hrun)|]. split.
    + apply Htame in Ht. eapply List.Forall_impl; [|exact Ht].
      intros [f r] Hp. pose proof (run_rule_cases fs f r) as Hcases.
      rewrite Hp in Hcases. exact Hcases.
    + destruct (check_summary_counts self reg host options run Hrun) as (_ & He & _).
      rewrite He, (check_results self reg host options run Hrun).
      by apply error_results_of_files.
Qed.



(** C10.  A run none of whose checks throws [null] or [undefined]
    returns, and in its summary [total] is the length of the returned
    [results], [filesChecked] the number of files of the resolved file
    set, and [rulesRun] the number of rules of the resolved rule set.
    No other run returns a summary. *)
Theorem summary_sizes (self : QualityGate.t) (reg : RuleRegistry.t)
    (host : QualityGate.Host) (options : CheckOptions.t) :
  match QualityGate.check self reg host options with
  | Js.Returned run =>
      let summary := CheckResult.summary (QualityGate.returned run) in
      GateSummary.total summary
      = length (CheckResult.results (QualityGate.returned run))
      /\ GateSummary.filesChecked summary
         = length (QualityGate.resolve_files self host options)
      /\ GateSummary.rulesRun summary
         = length (QualityGate.resolve_rules self reg options).1
  | Js.Raised _ =>
      Props.tame (QualityGate.fs host) (QualityGate.resolve_files self host options)
        (QualityGate.resolve_rules self reg options).1 = false
  end.
Proof.
  destruct (QualityGate.check self reg host options) as [run|aborted] eqn:Hrun.
  - exact (check_sizes self reg host options run Hrun).
  - pose proof (check_cases self reg host options) as Hcases.
    destruct (Props.tame _ _ _); [|done].
    destruct Hcases as [run Hreturned]. congruence.
Qed.

Lemma summary_sizes_witness :
  exists run,
    QualityGate.check Sample.gate [] Sample.host
      (Sample.options ["src/a.js"; "gone.js"] "warn"
         [Sample.failing "line-count-limit" "error"])
    = Js.Returned run
    /\ GateSummary.total (CheckResult.summary (QualityGate.returned run)) = 2
    /\ GateSummary.filesChecked (CheckResult.summary (QualityGate.returned run)) = 2
    /\ GateSummary.rulesRun (CheckResult.summary (QualityGate.returned run)) = 1.
Proof.
  eexists. split; [vm_compute; reflexivity|].
  exact (summary_sizes Sample.gate [] Sample.host
           (Sample.options ["src/a.js"; "gone.js"] "warn"
              [Sample.failing "line-count-limit" "error"])).
Defined.

(** ** The active rule set *)

Section ActiveRules.

Import QualityGate.

Lemma indices_from_shift (i : nat) (p : Rule.t -> bool) (reg : RuleRegistry.t) :
  RuleRegistry.indices_from (S i) p reg = map S (RuleRegistry.indices_from i p reg).
Proof.
  revert i. induction reg as [|r reg IH]; intros i; [done|]. simpl.
  rewrite IH. by destruct (p r).
Qed.

Lemma omap_lookup_shift (r : Rule.t) (reg : RuleRegistry.t) (refs : list nat) :
  omap (fun i => (r :: reg) !! i) (map S refs) = omap (fun i => reg !! i) refs.
Proof.
  induction refs as [|i refs IH]; [done|]. simpl.
  destruct (reg !! i); [f_equal|]; exact IH.
Qed.

(** Reading, in a later state of the registry, the rules that a filter
    selected in an earlier state. *)
Lemma deref_selected (p : Rule.t -> bool) (before after : RuleRegistry.t) :
  length before = length after ->
  omap (fun i => after !! i) (RuleRegistry.indices_from 0 p before)
  = map snd (List.filter (fun old_new => p old_new.1) (zip before after)).
Proof.
  revert after. induction before as [|r before IH]; intros [|r' after] Hlen;
    try done.
  simpl in *. rewrite indices_from_shift.
  destruct (p r); simpl.
  - rewrite omap_lookup_shift, IH by lia. done.
  - rewrite omap_lookup_shift, IH by lia. done.
Qed.

Lemma apply_override_length (reg : RuleRegistry.t) (override : Override.t) :
  length (apply_override reg override) = length reg.
Proof.
  unfold apply_override.
  destruct (RuleRegistry.get reg (Override.id override)) as [rule|]; [|done].
  destruct (Override.enabled override), (Js.or_else (Override.severity override) None),
    (Override.config override); by rewrite ?length_alter.
Qed.

Lemma apply_overrides_length (configured : list Override.t) (reg : RuleRegistry.t) :
  length (fold_left apply_override configured reg) = length reg.
Proof.
  revert reg. induction configured as [|o configured IH]; intros reg; [done|].
  simpl. by rewrite IH, apply_override_length.
Qed.

(** X25.  The rules [_getActiveRules] returns are those enabled both
    before the overrides were applied and after, in the state the
    overrides left. *)
Lemma active_rules_enabled_before_and_after (self : QualityGate.t)
    (reg : RuleRegistry.t) :
  let active := _getActiveRules self reg in
  active.1
  = map snd
      (List.filter (fun old_new => Rule.enabled old_new.1 && Rule.enabled old_new.2)
         (zip reg active.2)).
Proof.
  unfold _getActiveRules, RuleRegistry.getAll. simpl.
  set (after := fold_left apply_override _ reg).
  assert (length reg = length after) as Hlen.
  { unfold after. by rewrite apply_overrides_length. }
  rewrite (deref_selected _ reg after Hlen).
  unfold RuleRegistry.matches. simpl.
  generalize (zip reg after). intros l.
  induction l as [|[old new] l IH]; [done|]. simpl.
  rewrite !andb_true_r.
  destruct (Rule.enabled old); simpl; [|done].
  destruct (Rule.enabled new); simpl; by rewrite IH.
Qed.

End ActiveRules.

(** C6.  The specification has a configuration override that enables a
    rule take effect in the run: the active rules are those enabled once
    the overrides are applied.  The code selects the enabled rules before
    it applies the overrides.  With the opt-in rule registered disabled
    and enabled by the gate's configuration, the first run has no active
    rule, although the registry by then holds the rule enabled; a second
    run of the same gate has it. *)
Theorem enabling_override_misses_first_run :
  let first := QualityGate._getActiveRules Sample.opt_in_gate Sample.opt_in_registry in
  let second := QualityGate._getActiveRules Sample.opt_in_gate first.2 in
  exists run,
    QualityGate.check Sample.opt_in_gate Sample.opt_in_registry Sample.host
      {| CheckOptions.files := None; CheckOptions.severity := None;
         CheckOptions.rules := None; CheckOptions.fix_ := false |}
    = Js.Returned run
    /\ map (fun r => (Rule.id r, Rule.enabled r)) Sample.opt_in_registry
       = [("function-length", false)]
    /\ map (fun r => (Rule.id r, Rule.enabled r)) first.2 = [("function-length", true)]
    /\ first.1 = []
    /\ map Rule.id second.1 = ["function-length"]
    /\ GateSummary.rulesRun (CheckResult.summary (QualityGate.returned run)) = 0
    /\ QualityGate.invoked run = [].
Proof. eexists. split; [vm_compute; reflexivity|]. vm_compute. done. Qed.

(** ** The validator *)

Section Validation.

Import ConfigValidator.

Lemma collect_fold (entries : list ErrorEntry.t) (result : ValidationResult.t) :
  let to_warnings := fun e =>
    String.eqb (ErrorEntry.severity e) "warn"
    || String.eqb (ErrorEntry.severity e) "info" in
  let final := fold_left collect entries result in
  ValidationResult.valid final = ValidationResult.valid result
  /\ ValidationResult.errors final
     = ValidationResult.errors result
       ++ List.filter (fun e => negb (to_warnings e)) entries
  /\ ValidationResult.warnings final
     = ValidationResult.warnings result ++ List.filter to_warnings entries.
Proof.
  revert result. induction entries as [|e entries IH]; intros result; simpl.
  - by rewrite !app_nil_r.
  - destruct (IH (collect result e)) as (Hv & He & Hw).
    rewrite Hv, He, Hw. clear IH Hv He Hw. unfold collect. simpl.
    destruct (String.eqb (ErrorEntry.severity e) "warn"
              || String.eqb (ErrorEntry.severity e) "info"); simpl;
      by rewrite <- ?app_assoc.
Qed.

(** The three names that [getSchema] knows. *)
Lemma getSchema_own (schemaName : string) (schema : Schema.t) :
  getSchema schemaName = Js.Own schema ->
  (schemaName = "config" /\ schema = CONFIG_SCHEMA)
  \/ (schemaName = "settings" /\ schema = SETTINGS_SCHEMA)
  \/ (schemaName = "quality-gate" /\ schema = QUALITY_GATE_SCHEMA).
Proof.
  unfold getSchema, Js.table_get. cbn [Js.assoc].
  destruct (String.eqb_spec "config" schemaName) as [<-|?];
    [intros [= <-]; auto|].
  destruct (String.eqb_spec "settings" schemaName) as [<-|?];
    [intros [= <-]; auto|].
  destruct (String.eqb_spec "quality-gate" schemaName) as [<-|?];
    [intros [= <-]; auto|].
  by destruct (Js.mem schemaName Js.object_prototype_keys).
Qed.

(** Without the backend, a document that is an object and has no
    [version] gets one error: critical, at the path [version]. *)
Lemma _basicValidate_missing_version (fields : list (string * Js.json)) :
  Js.obj_get fields "version" = None ->
  let result := _basicValidate (Js.JObj fields) "config" in
  ValidationResult.valid result = false
  /\ map (fun e => (ErrorEntry.path e, ErrorEntry.severity e))
         (ValidationResult.errors result)
     = [("version", "critical")].
Proof. intros Hv. unfold _basicValidate. simpl. by rewrite Hv. Qed.

(** An object with no [version]: the first error of the backend is the
    [required] one, whose [data] is the document as the run leaves it. *)
Lemma run_missing_version (engine : Ajv.Engine) (allErrors writes : bool)
    (fields : list (string * Js.json)) :
  Js.obj_get fields "version" = None ->
  exists others,
    Ajv.run engine allErrors writes CONFIG_SCHEMA (Js.JObj fields)
    = (false,
       Ajv.required_error
         (default (Js.JObj fields)
            (Ajv.leaves engine writes CONFIG_SCHEMA (Js.JObj fields))) "version"
       :: others).
Proof.
  intros Hv. unfold Ajv.run, Ajv.object_errors.
  change (Schema.required CONFIG_SCHEMA) with ["version"].
  assert (Ajv.has fields "version" = false) as Hhas.
  { unfold Ajv.has. by rewrite Hv. }
  cbn [List.filter]. rewrite Hhas. cbn [negb map app].
  destruct allErrors; eexists; reflexivity.
Qed.

(** The validators of a validator object with a backend are the three
    schemas, under the names [getSchema] knows them by. *)
Lemma _getValidator_compiled (engine : Ajv.Engine) (options : Options.t)
    (schemaName : string) (schema : Schema.t) :
  getSchema schemaName = Js.Own schema ->
  _getValidator (new (Some engine) options) schemaName = Some (Compiled schema).
Proof.
  intros Hs. apply getSchema_own in Hs as [[-> ->]|[[-> ->]|[-> ->]]]; reflexivity.
Qed.

(** What [validate] returns, and what it leaves of the document, under a
    compiled schema. *)
Lemma validate_compiled (engine : Ajv.Engine) (options : Options.t)
    (schemaName : string) (schema : Schema.t) (config : Js.json) :
  getSchema schemaName = Js.Own schema ->
  let self := new (Some engine) options in
  let verdict := Ajv.run engine (allErrors self) (writes self) schema config in
  validate self config (Some schemaName)
  = (Js.Returned
       (if verdict.1 then ok
        else fold_left collect (parseAJVErrors verdict.2)
               {| ValidationResult.valid := false; ValidationResult.errors := [];
                  ValidationResult.warnings := []; ValidationResult.fixes := [] |}),
     Ajv.leaves engine (writes self) schema config).
Proof.
  intros Hs self verdict. unfold validate.
  change (default "config" (Some schemaName)) with schemaName.
  change (ajv self) with (Some engine).
  unfold self at 1. rewrite (_getValidator_compiled engine options schemaName schema Hs).
  unfold call, call_leaves. fold self. fold verdict. cbn [fst snd].
  by destruct verdict.1.
Qed.

(** The critical entries of a result are those of the entries it was
    made of. *)
Lemma critical_of_errors (entries : list ErrorEntry.t) :
  Props.critical_entries
    (List.filter (fun e => negb (String.eqb (ErrorEntry.severity e) "warn"
                                 || String.eqb (ErrorEntry.severity e) "info"))
       entries)
  = Props.critical_entries entries.
Proof.
  unfold Props.critical_entries.
  induction entries as [|e es IH]; [done|]. cbn [List.filter].
  destruct (String.eqb_spec (ErrorEntry.severity e) "critical") as [Hc|Hne].
  - rewrite Hc.
    replace (negb (String.eqb "critical" "warn" || String.eqb "critical" "info"))
      with true by reflexivity.
    cbn [List.filter]. rewrite Hc.
    replace (String.eqb "critical" "critical") with true by reflexivity.
    by rewrite IH.
  - destruct (negb _); [|exact IH]. cbn [List.filter].
    apply eqb_false in Hne. by rewrite Hne.
Qed.

(** With the backend, a document that is an object and has no [version]
    is invalid, and the critical entry that reports it is at the path
    [root]; the field is named in the entry's fix only. *)
Lemma validate_missing_version (engine : Ajv.Engine) (options : Options.t)
    (fields : list (string * Js.json)) :
  Js.obj_get fields "version" = None ->
  let self := new (Some engine) options in
  let first :=
    parseAJVError
      (Ajv.required_error
         (default (Js.JObj fields)
            (Ajv.leaves engine (writes self) CONFIG_SCHEMA (Js.JObj fields)))
         "version") in
  exists result others,
    (validate self (Js.JObj fields) (Some "config")).1 = Js.Returned result
    /\ ValidationResult.valid result = false
    /\ (Ajv.run engine (allErrors self) (writes self) CONFIG_SCHEMA (Js.JObj fields)).2
       = Ajv.required_error
           (default (Js.JObj fields)
              (Ajv.leaves engine (writes self) CONFIG_SCHEMA (Js.JObj fields)))
           "version" :: others
    /\ Props.critical_entries (ValidationResult.errors result)
       = first :: Props.critical_entries (parseAJVErrors others)
    /\ ErrorEntry.path first = "root"
    /\ ErrorEntry.fix_ first = Some "Add missing field: version".
Proof.
  intros Hv self first.
  pose proof (validate_compiled engine options "config" CONFIG_SCHEMA (Js.JObj fields)
                eq_refl) as Hrun.
  cbv zeta in Hrun. fold self in Hrun. rewrite Hrun. clear Hrun. cbn [fst].
  destruct (run_missing_version engine (allErrors self) (writes self) fields Hv)
    as [others ->].
  cbn [fst snd]. eexists. exists others. split; [reflexivity|].
  destruct (collect_fold
              (parseAJVErrors
                 (Ajv.required_error
                    (default (Js.JObj fields)
                       (Ajv.leaves engine (writes self) CONFIG_SCHEMA (Js.JObj fields)))
                    "version" :: others))
              {| ValidationResult.valid := false; ValidationResult.errors := [];
                 ValidationResult.warnings := []; ValidationResult.fixes := [] |})
    as (Hvalid & Herrors & _).
  rewrite Hvalid, Herrors. split; [done|]. split; [done|]. split; [|done].
  cbn [ValidationResult.errors app]. rewrite critical_of_errors.
  reflexivity.
Qed.

(** With the backend, a schema name that is neither one of the three nor
    a member of [Object.prototype] gets the one critical error at the
    path [schema]. *)
Lemma validate_unknown_schema (engine : Ajv.Engine) (options : Options.t)
    (config : Js.json) (schemaName : string) :
  ~ In schemaName ["config"; "settings"; "quality-gate"] ->
  Js.mem schemaName Js.object_prototype_keys = false ->
  validate (new (Some engine) options) config (Some schemaName)
  = (Js.Returned (unknown_schema schemaName), None).
Proof.
  intros Hnot Hproto. unfold validate, _getValidator, Js.table_get.
  change (default "config" (Some schemaName)) with schemaName.
  cbn [ajv new Js.assoc].
  destruct (String.eqb_spec "config" schemaName) as [<-|?];
    [exfalso; apply Hnot; simpl; auto|].
  destruct (String.eqb_spec "settings" schemaName) as [<-|?];
    [exfalso; apply Hnot; simpl; auto|].
  destruct (String.eqb_spec "quality-gate" schemaName) as [<-|?];
    [exfalso; apply Hnot; simpl; auto|].
  by rewrite Hproto.
Qed.

(** Without the backend, every object passes under a schema name other
    than [config], known or not. *)
Lemma _basicValidate_other_schema (fields : list (string * Js.json))
    (schemaName : string) :
  schemaName <> "config" ->
  _basicValidate (Js.JObj fields) schemaName = ok.
Proof.
  intros Hne. unfold _basicValidate. simpl.
  apply eqb_false in Hne. by rewrite Hne.
Qed.

(** The verdict of the backend on an object is the absence of errors. *)
Lemma run_accepts (engine : Ajv.Engine) (allErrors writes : bool) (schema : Schema.t)
    (fields : list (string * Js.json)) :
  (Ajv.run engine allErrors writes schema (Js.JObj fields)).1 = true
  <-> Ajv.object_errors engine schema fields
        (default (Js.JObj fields) (Ajv.leaves engine writes schema (Js.JObj fields)))
      = [].
Proof.
  unfold Ajv.run. cbn [fst].
  destruct (Ajv.object_errors engine schema fields _) as [|e es].
  - by destruct allErrors.
  - by destruct allErrors.
Qed.

End Validation.

(** C4, as stated, fails.  With the backend, the critical entry that
    reports the missing [version] of the empty object is at the path
    [root], not [version].  And a document that is no object lacks a
    [version] too: [null] without the backend gets its critical entry at
    the path [root], and a number with the backend gets no critical entry
    at all. *)
Lemma missing_version_is_reported_at_root :
  let paths := fun validation : Js.completion ValidationResult.t Exception * option Js.json =>
    match validation.1 with
    | Js.Returned result =>
        Some (map ErrorEntry.path
                (Props.critical_entries (ValidationResult.errors result)))
    | Js.Raised _ => None
    end in
  paths (ConfigValidator.validate Sample.with_backend (Js.JObj []) (Some "config"))
  = Some ["root"]
  /\ paths (ConfigValidator.validate Sample.without_backend Js.JNull (Some "config"))
     = Some ["root"]
  /\ paths (ConfigValidator.validate Sample.with_backend (Js.JNum 5) (Some "config"))
     = Some [].
Proof. vm_compute. done. Qed.

(** C4, amended.  An object without [version] is invalid under the
    schema [config], with the backend and without.  Without the backend
    its one critical entry is at the path [version].  With the backend
    the first critical entry is the one that the backend's [required]
    error makes: its path is [root], the document's own, and its fix
    names the field; the critical entries after it are those of the
    errors that the backend reports besides, so that it is the only one
    when none of these is a [required] error. *)
Theorem missing_version_is_reported (backend : option Ajv.Engine)
    (options : ConfigValidator.Options.t) (fields : list (string * Js.json)) :
  Js.obj_get fields "version" = None ->
  let self := ConfigValidator.new backend options in
  exists result,
    (ConfigValidator.validate self (Js.JObj fields) (Some "config")).1
    = Js.Returned result
    /\ ValidationResult.valid result = false
    /\ match backend with
       | None =>
           map (fun e => (ErrorEntry.path e, ErrorEntry.severity e))
               (ValidationResult.errors result)
           = [("version", "critical")]
       | Some engine =>
           exists first others,
             (Ajv.run engine (ConfigValidator.allErrors self)
                (ConfigValidator.writes self) CONFIG_SCHEMA (Js.JObj fields)).2
             = first :: others
             /\ AjvError.keyword first = kw_required
             /\ Props.critical_entries (ValidationResult.errors result)
                = parseAJVError first :: Props.critical_entries (parseAJVErrors others)
             /\ ErrorEntry.path (parseAJVError first) = "root"
             /\ ErrorEntry.fix_ (parseAJVError first) = Some "Add missing field: version"
             /\ (Forall (fun err => AjvError.keyword err <> kw_required) others ->
                 map ErrorEntry.path
                     (Props.critical_entries (ValidationResult.errors result))
                 = ["root"])
       end.
Proof.
  intros Hv self. destruct backend as [engine|].
  - destruct (validate_missing_version engine options fields Hv)
      as (result & others & Hrun & Hvalid & Hreported & Hcritical & Hpath & Hfix).
    exists result. split; [exact Hrun|]. split; [exact Hvalid|].
    eexists. exists others. split; [exact Hreported|]. split; [done|].
    split; [exact Hcritical|]. split; [exact Hpath|]. split; [exact Hfix|].
    intros Hothers. rewrite Hcritical. cbn [map]. rewrite Hpath. f_equal.
    replace (Props.critical_entries (parseAJVErrors others)) with (@nil ErrorEntry.t);
      [done|].
    symmetry. unfold Props.critical_entries, parseAJVErrors.
    clear Hreported Hcritical.
    induction Hothers as [|err others Herr _ IH]; [done|].
    cbn [map List.filter]. rewrite IH.
    unfold parseAJVError at 1. cbn [ErrorEntry.severity].
    by destruct (AjvError.keyword err).
  - eexists. split; [reflexivity|].
    exact (_basicValidate_missing_version fields Hv).
Qed.

Lemma missing_version_is_reported_witness :
  Js.obj_get [] "version" = None
  /\ exists result,
       (ConfigValidator.validate (ConfigValidator.new (Some Sample.lenient)
                                    Sample.default_options)
          (Js.JObj []) (Some "config")).1 = Js.Returned result
       /\ ValidationResult.valid result = false.
Proof.
  assert (Js.obj_get [] "version" = None) as Hv by reflexivity.
  split; [exact Hv|].
  destruct (missing_version_is_reported (Some Sample.lenient) Sample.default_options
              [] Hv) as (result & Hrun & Hvalid & _).
  exists result. split; [exact Hrun|exact Hvalid].
Defined.

(** C5.  The specification has an unknown schema name answered with one
    critical error at the path [schema], with the backend and without.
    With the backend the code does so.  Without it, [_basicValidate] has
    no such case: the document passes, with no error at all. *)
Theorem unknown_schema_passes_without_backend :
  (ConfigValidator.validate Sample.without_backend (Js.JObj [])
     (Some "unknown-schema")).1
  = Js.Returned ConfigValidator.ok
  /\ (ConfigValidator.validate Sample.with_backend (Js.JObj [])
        (Some "unknown-schema")).1
     = Js.Returned (ConfigValidator.unknown_schema "unknown-schema")
  /\ ValidationResult.valid ConfigValidator.ok = true
  /\ ValidationResult.errors ConfigValidator.ok = [].
Proof. vm_compute. done. Qed.




(** The same on a document without [version], which is not valid: the
    [ConfigError] raised carries the one error and the one fix. *)
Example validateOrThrow_on_invalid_document :
  exists e,
    (ConfigValidator.validateOrThrow Sample.with_backend Sample.store 1 None).1
    = Js.Raised (ConfigErrorRaised e)
    /\ map ErrorEntry.path (ConfigError.errors e) = ["root"]
    /\ ConfigError.fixes e = ["Add missing field: version"]
    /\ ConfigError.criticalCount (ConfigError.details e) = 1.
Proof. eexists. split; [reflexivity|]. vm_compute. done. Qed.

(** What [validate] raises, [validateOrThrow] raises too. *)
Lemma validateOrThrow_propagates (self : ConfigValidator.t)
    (store : ConfigValidator.Store) (config : nat) (schemaName : option string)
    (e : Exception) :
  (ConfigValidator.validate self (store config) schemaName).1 = Js.Raised e ->
  (ConfigValidator.validateOrThrow self store config schemaName).1 = Js.Raised e.
Proof. intros Hv. unfold ConfigValidator.validateOrThrow. cbv zeta. by rewrite Hv. Qed.

(** ** Unknown fields *)

Section UnknownFields.

Variables (k : string) (v : Js.json).

Lemma has_set (fields : list (string * Js.json)) (k' : string) :
  Ajv.has fields k' = true -> Ajv.has (Js.obj_set k v fields) k' = true.
Proof.
  unfold Ajv.has. destruct (String.eqb_spec k k') as [<-|Hne].
  - by rewrite obj_get_set_same.
  - by rewrite obj_get_set_other.
Qed.

(** Entries that contribute nothing under the new field's name are
    not missed when the field is set. *)
Lemma flat_map_set {B : Type} (g : string * Js.json -> list B)
    (fields : list (string * Js.json)) :
  (forall v', g (k, v') = []) ->
  flat_map g (Js.obj_set k v fields) = flat_map g fields.
Proof.
  intros Hg. induction fields as [|[k0 v0] rest IH]; simpl.
  - by rewrite Hg.
  - destruct (String.eqb_spec k0 k) as [->|Hne]; simpl.
    + by rewrite !Hg.
    + by rewrite IH.
Qed.

Lemma flat_map_agree {A B : Type} (f g : A -> list B) (l : list A) :
  (forall x, In x l -> f x = g x) -> flat_map f l = flat_map g l.
Proof.
  intros Hfg. induction l as [|x l IH]; [done|]. simpl.
  rewrite Hfg by (by left). rewrite IH; [done|].
  intros y Hy. apply Hfg. by right.
Qed.

(** Under a schema that tolerates additional properties, an object with
    no error still has none once a field that the schema does not declare
    is set. *)
Lemma object_errors_set (engine : Ajv.Engine) (schema : Schema.t)
    (fields : list (string * Js.json)) (data data' : Js.json) :
  Schema.additionalProperties schema = true ->
  Ajv.declared schema k = false ->
  Ajv.object_errors engine schema fields data = [] ->
  Ajv.object_errors engine schema (Js.obj_set k v fields) data' = [].
Proof.
  intros Hadd Hdecl. unfold Ajv.object_errors. rewrite Hadd.
  unfold Ajv.declared in Hdecl. apply orb_false_iff in Hdecl as [Hprops Hpats].
  intros Herr.
  apply app_eq_nil in Herr as [Hreq Herr].
  apply app_eq_nil in Herr as [Hprop Herr].
  apply app_eq_nil in Herr as [Hpat _].
  rewrite !app_nil_r.
  assert (List.filter (fun k' => negb (Ajv.has (Js.obj_set k v fields) k'))
            (Schema.required schema) = []) as ->.
  { apply map_eq_nil in Hreq.
    induction (Schema.required schema) as [|k' req IH]; [done|].
    simpl in *. destruct (Ajv.has fields k') eqn:Hhas; simpl in *; [|done].
    rewrite (has_set _ _ Hhas). simpl. by apply IH. }
  simpl.
  rewrite (flat_map_agree _
             (fun k' => match Js.obj_get fields k' with
                        | Some v' => Ajv.nested engine (Schema.id_ schema) k' k' v'
                        | None => []
                        end)).
  2:{ intros k' Hin. rewrite obj_get_set_other; [done|].
      intros <-. apply mem_In in Hin. congruence. }
  rewrite Hprop. simpl.
  rewrite (flat_map_agree _
             (fun pat =>
                flat_map (fun kv : string * Js.json =>
                  if Schema.test pat kv.1
                  then Ajv.nested engine (Schema.id_ schema) (Schema.source pat) kv.1 kv.2
                  else []) fields)).
  2:{ intros pat Hin. apply flat_map_set. intros v'. simpl.
      assert (Schema.test pat k = false) as ->; [|done].
      destruct (Schema.test pat k) eqn:Ht; [|done].
      assert (existsb (fun pat => Schema.test pat k) (Schema.patternProperties schema)
              = true) as Hex by (apply existsb_exists; eauto).
      congruence. }
  exact Hpat.
Qed.

End UnknownFields.

(** C8.  A document that a validator accepts under one of the three
    schemas is still accepted under it once a top-level field is set whose
    name the schema does not declare, with the backend and without. *)
Theorem unknown_field_never_rejected (backend : option Ajv.Engine)
    (options : ConfigValidator.Options.t)
    (schemaName : string) (schema : Schema.t) (fields : list (string * Js.json))
    (k : string) (v : Js.json) :
  let self := ConfigValidator.new backend options in
  getSchema schemaName = Js.Own schema ->
  Ajv.declared schema k = false ->
  Props.accepts self (Js.JObj fields) schemaName ->
  Props.accepts self (Js.JObj (Js.obj_set k v fields)) schemaName.
Proof.
  intros self Hschema Hdecl (result & Hresult & Hvalid).
  unfold Props.accepts. unfold self in *. clear self.
  destruct backend as [engine|].
  - pose proof (validate_compiled engine options schemaName schema (Js.JObj fields)
                  Hschema) as Hold.
    pose proof (validate_compiled engine options schemaName schema
                  (Js.JObj (Js.obj_set k v fields)) Hschema) as Hnew.
    cbv zeta in Hold, Hnew.
    set (self := ConfigValidator.new (Some engine) options) in *.
    rewrite Hold in Hresult. rewrite Hnew. cbn [fst] in *. clear Hold Hnew.
    assert (Schema.additionalProperties schema = true) as Hadd.
    { apply getSchema_own in Hschema as [[_ ->]|[[_ ->]|[_ ->]]]; reflexivity. }
    assert ((Ajv.run engine (ConfigValidator.allErrors self)
               (ConfigValidator.writes self) schema (Js.JObj fields)).1 = true)
      as Haccepted.
    { destruct (Ajv.run engine (ConfigValidator.allErrors self)
                  (ConfigValidator.writes self) schema (Js.JObj fields)).1; [done|].
      injection Hresult as <-.
      destruct (collect_fold
                  (parseAJVErrors
                     (Ajv.run engine (ConfigValidator.allErrors self)
                        (ConfigValidator.writes self) schema (Js.JObj fields)).2)
                  {| ValidationResult.valid := false; ValidationResult.errors := [];
                     ValidationResult.warnings := []; ValidationResult.fixes := [] |})
        as (Hf & _).
      cbv zeta in Hf.
      assert (true = false) as Habsurd; [|discriminate].
      rewrite <- Hvalid. exact Hf. }
    apply run_accepts in Haccepted.
    assert ((Ajv.run engine (ConfigValidator.allErrors self)
               (ConfigValidator.writes self) schema
               (Js.JObj (Js.obj_set k v fields))).1 = true) as ->.
    { apply run_accepts.
      exact (object_errors_set k v engine schema fields _ _ Hadd Hdecl Haccepted). }
    exists ConfigValidator.ok. done.
  - unfold ConfigValidator.validate in *.
    change (default "config" (Some schemaName)) with schemaName in *.
    change (ConfigValidator.ajv (ConfigValidator.new None options))
      with (@None Ajv.Engine) in *.
    cbv beta iota in *. cbn [fst] in *.
    injection Hresult as <-. eexists. split; [reflexivity|].
    unfold ConfigValidator._basicValidate in *. cbn [Js.truthy Js.typeof_object negb orb] in *.
    destruct (String.eqb_spec schemaName "config") as [->|Hne]; [|done].
    cbn [Js.prop] in *. rewrite obj_get_set_other; [done|].
    intros ->. apply getSchema_own in Hschema as [[_ ->]|[[? _]|[? _]]]; done.
Qed.

Lemma unknown_field_never_rejected_witness :
  getSchema "config" = Js.Own CONFIG_SCHEMA
  /\ Ajv.declared CONFIG_SCHEMA "extraProperty" = false
  /\ Props.accepts Sample.with_backend (Js.JObj Sample.versioned) "config"
  /\ Props.accepts Sample.with_backend
       (Js.JObj (Js.obj_set "extraProperty" (Js.JStr "should not error") Sample.versioned))
       "config".
Proof.
  assert (getSchema "config" = Js.Own CONFIG_SCHEMA) as Hs by reflexivity.
  assert (Ajv.declared CONFIG_SCHEMA "extraProperty" = false) as Hd by reflexivity.
  assert (Props.accepts Sample.with_backend (Js.JObj Sample.versioned) "config") as Ha.
  { exists ConfigValidator.ok. split; reflexivity. }
  split; [exact Hs|]. split; [exact Hd|]. split; [exact Ha|].
  exact (unknown_field_never_rejected (Some Sample.lenient) Sample.default_options
           "config" CONFIG_SCHEMA Sample.versioned "extraProperty"
           (Js.JStr "should not error") Hs Hd Ha).
Defined.

(** * Further properties *)

(** ** The size and the origin of the results *)

Section Sizes.

Import QualityGate.

Variable fs : Fs.t.





End Sizes.



(** X2.  Every result of a run is about a file of the checked set, and is
    either the [file-exists] result of a file that is not on disk or the
    result of an enabled rule of the rule set for a file that is. *)
Theorem results_come_from_files_and_rules (self : QualityGate.t)
    (reg : RuleRegistry.t) (host : QualityGate.Host) (options : CheckOptions.t)
    (run : QualityGate.Run) (r : RuleResult.t) :
  let fs := QualityGate.fs host in
  let files := QualityGate.resolve_files self host options in
  let rules := (QualityGate.resolve_rules self reg options).1 in
  QualityGate.check self reg host options = Js.Returned run ->
  In r (CheckResult.results (QualityGate.returned run)) ->
  In (RuleResult.file r) files
  /\ ((Fs.existsSync fs (RuleResult.file r) = false
       /\ r = QualityGate.file_not_found (RuleResult.file r))
      \/ exists rule, In rule rules /\ Terms.made_by fs rule r).
Proof.
  intros fs files rules Hrun Hin.
  rewrite (check_results self reg host options run Hrun) in Hin.
  apply in_flat_map in Hin as (f & Hf & Hr).
  fold fs rules in Hr.
  destruct (Fs.existsSync fs f) eqn:Hex.
  - apply in_flat_map in Hr as (rule & Hrule & Hr).
    apply filter_In in Hrule as [Hrule Hen].
    apply attempt_result in Hr. apply run_rule_file in Hr as (Hfile & Hid & Hname).
    simpl in Hfile. rewrite Hfile. split; [done|]. right. exists rule. split; [done|].
    unfold Terms.made_by. by rewrite Hfile.
  - destruct Hr as [<-|[]]. simpl. split; [done|]. by left.
Qed.

Lemma results_come_from_files_and_rules_witness :
  exists run,
    QualityGate.check Sample.gate [] Sample.host
      (Sample.options ["src/a.js"; "gone.js"] "warn"
         [Sample.failing "line-count-limit" "error"])
    = Js.Returned run
    /\ In (QualityGate.file_not_found "gone.js")
          (CheckResult.results (QualityGate.returned run))
    /\ In "gone.js" ["src/a.js"; "gone.js"].
Proof.
  eexists. split; [vm_compute; reflexivity|].
  match goal with
  | |- In ?r ?l /\ _ => assert (In r l) as Hin by (vm_compute; auto)
  end.
  split; [exact Hin|].
  exact (proj1 (results_come_from_files_and_rules Sample.gate [] Sample.host
           (Sample.options ["src/a.js"; "gone.js"] "warn"
              [Sample.failing "line-count-limit" "error"])
           _ (QualityGate.file_not_found "gone.js") eq_refl Hin)).
Defined.

(** ** Thresholds *)

(** The order of texts by their code units is transitive. *)
Lemma leb_trans (a b c : string) :
  String.leb a b = true -> String.leb b c = true -> String.leb a c = true.
Proof.
  unfold String.leb.
  assert (forall x y z : string,
            String.compare x y <> Gt -> String.compare y z <> Gt ->
            String.compare x z <> Gt) as Htrans.
  { induction x as [|cx x IH]; intros [|cy y] [|cz z]; simpl; try done.
    unfold Ascii.compare.
    destruct (N.compare_spec (N_of_ascii cx) (N_of_ascii cy)) as [Hxy|Hxy|Hxy];
      destruct (N.compare_spec (N_of_ascii cy) (N_of_ascii cz)) as [Hyz|Hyz|Hyz];
      try done;
      destruct (N.compare_spec (N_of_ascii cx) (N_of_ascii cz)) as [Hxz|Hxz|Hxz];
      try done; try lia.
    apply IH. }
  intros Hab Hbc. specialize (Htrans a b c).
  destruct (String.compare a b); try done;
    destruct (String.compare b c); try done;
    destruct (String.compare a c); try done;
    exfalso; apply Htrans; done.
Qed.

Lemma num_ge_trans (a b c : Js.num) :
  Js.num_ge a b = true -> Js.num_ge b c = true -> Js.num_ge a c = true.
Proof.
  destruct a, b, c; simpl; try done.
  - rewrite !Nat.leb_le. lia.
  - intros Hba Hcb. by apply (leb_trans _ s0).
Qed.

Lemma blocking_under_lower (rs : list RuleResult.t) (low high : Js.num) :
  Js.num_ge high low = true ->
  QualityGate._hasBlockingIssues rs high = true ->
  QualityGate._hasBlockingIssues rs low = true.
Proof.
  intros Hge. unfold QualityGate._hasBlockingIssues.
  rewrite !existsb_exists. intros (r & Hin & Hr). exists r. split; [done|].
  apply andb_true_iff in Hr as [Hr Hlevel]. rewrite Hr. simpl.
  by apply (num_ge_trans _ high).
Qed.

(** The threshold bears on the verdict only: the same files and rules
    give a run that returns under one threshold exactly when they give
    one under another, with the same results. *)
Lemma results_whatever_threshold (self : QualityGate.t) (reg : RuleRegistry.t)
    (host : QualityGate.Host) (options : CheckOptions.t) (t : string)
    (run : QualityGate.Run) :
  QualityGate.check self reg host options = Js.Returned run ->
  exists run',
    QualityGate.check self reg host (Terms.with_threshold t options) = Js.Returned run'
    /\ CheckResult.results (QualityGate.returned run')
       = CheckResult.results (QualityGate.returned run).
Proof.
  intros Hrun.
  pose proof (check_cases self reg host (Terms.with_threshold t options)) as Hcases.
  change (QualityGate.resolve_files self host (Terms.with_threshold t options))
    with (QualityGate.resolve_files self host options) in Hcases.
  change (QualityGate.resolve_rules self reg (Terms.with_threshold t options))
    with (QualityGate.resolve_rules self reg options) in Hcases.
  rewrite (check_tame self reg host options run Hrun) in Hcases.
  destruct Hcases as [run' Hrun']. exists run'. split; [exact Hrun'|].
  rewrite (check_results self reg host options run Hrun).
  by rewrite (check_results self reg host _ run' Hrun').
Qed.

(** X3.  Raising the threshold never fails a run that passed: if a run
    passes under a threshold, the same run passes under every threshold
    of a level at least as high. *)
Theorem higher_threshold_still_passes (self : QualityGate.t) (reg : RuleRegistry.t)
    (host : QualityGate.Host) (options : CheckOptions.t) (low high : string)
    (run : QualityGate.Run) :
  Js.num_ge (QualityGate._severityLevel high) (QualityGate._severityLevel low) = true ->
  QualityGate.check self reg host (Terms.with_threshold low options) = Js.Returned run ->
  CheckResult.passed (QualityGate.returned run) = true ->
  exists run',
    QualityGate.check self reg host (Terms.with_threshold high options)
    = Js.Returned run'
    /\ CheckResult.passed (QualityGate.returned run') = true.
Proof.
  intros Hge Hrun Hlow.
  destruct (results_whatever_threshold self reg host (Terms.with_threshold low options)
              high run Hrun) as (run' & Hrun' & Hsame).
  exists run'. split; [exact Hrun'|].
  rewrite (check_passed self reg host _ run Hrun) in Hlow.
  rewrite (check_passed self reg host _ run' Hrun'), Hsame.
  change (QualityGate.resolve_severity self (Terms.with_threshold low options))
    with low in Hlow.
  change (QualityGate.resolve_severity self
            (Terms.with_threshold high (Terms.with_threshold low options))) with high.
  rewrite negb_true_iff in *.
  destruct (QualityGate._hasBlockingIssues _ (QualityGate._severityLevel high)) eqn:Hhigh;
    [|done].
  by rewrite (blocking_under_lower _ _ _ Hge Hhigh) in Hlow.
Qed.

Lemma higher_threshold_still_passes_witness :
  Js.num_ge (QualityGate._severityLevel "critical") (QualityGate._severityLevel "error")
  = true
  /\ exists run run',
       QualityGate.check Sample.gate [] Sample.host
         (Terms.with_threshold "error"
            (Sample.options ["src/a.js"] "warn"
               [Sample.failing "file-size-limit" "warn"])) = Js.Returned run
       /\ CheckResult.passed (QualityGate.returned run) = true
       /\ QualityGate.check Sample.gate [] Sample.host
            (Terms.with_threshold "critical"
               (Sample.options ["src/a.js"] "warn"
                  [Sample.failing "file-size-limit" "warn"])) = Js.Returned run'
       /\ CheckResult.passed (QualityGate.returned run') = true.
Proof.
  assert (Js.num_ge (QualityGate._severityLevel "critical")
            (QualityGate._severityLevel "error") = true) as Hge by reflexivity.
  split; [exact Hge|].
  eexists. 
  assert (forall run,
            QualityGate.check Sample.gate [] Sample.host
              (Terms.with_threshold "error"
                 (Sample.options ["src/a.js"] "warn"
                    [Sample.failing "file-size-limit" "warn"])) = Js.Returned run ->
            CheckResult.passed (QualityGate.returned run) = true ->
            exists run',
              QualityGate.check Sample.gate [] Sample.host
                (Terms.with_threshold "critical"
                   (Sample.options ["src/a.js"] "warn"
                      [Sample.failing "file-size-limit" "warn"])) = Js.Returned run'
              /\ CheckResult.passed (QualityGate.returned run') = true) as Hstep.
  { intros run Hrun Hpassed.
    destruct (higher_threshold_still_passes Sample.gate [] Sample.host
                (Sample.options ["src/a.js"] "warn"
                   [Sample.failing "file-size-limit" "warn"])
                "error" "critical" run Hge Hrun Hpassed) as (run' & Hrun' & Hpassed').
    change (Terms.with_threshold "critical"
              (Terms.with_threshold "error"
                 (Sample.options ["src/a.js"] "warn"
                    [Sample.failing "file-size-limit" "warn"])))
      with (Terms.with_threshold "critical"
              (Sample.options ["src/a.js"] "warn"
                 [Sample.failing "file-size-limit" "warn"])) in Hrun'.
    eauto. }
  destruct (Hstep _ eq_refl eq_refl) as (run' & Hrun' & Hpassed').
  exists run'. split; [vm_compute; reflexivity|]. split; [reflexivity|].
  split; [exact Hrun'|exact Hpassed'].
Defined.

(** The level of a name that is not [error], not [critical] and not a
    member of [Object.prototype] is 1. *)
Lemma _severityLevel_default (severity : string) :
  severity <> "error" -> severity <> "critical" ->
  Js.mem severity Js.object_prototype_keys = false ->
  QualityGate._severityLevel severity = Js.Num 1.
Proof.
  intros He Hc Hproto.
  unfold QualityGate._severityLevel, Js.table_get, QualityGate.levels.
  cbn [Js.assoc].
  destruct (String.eqb_spec "info" severity); [done|].
  destruct (String.eqb_spec "warn" severity); [done|].
  destruct (String.eqb_spec "error" severity); [congruence|].
  destruct (String.eqb_spec "critical" severity); [congruence|].
  by rewrite Hproto.
Qed.

(** X4.  A threshold that is not [error], not [critical] and not the name
    of a member of [Object.prototype] (a misspelt one, say) gives the
    verdict that the threshold [warn] gives. *)
Theorem other_threshold_is_warn (self : QualityGate.t) (reg : RuleRegistry.t)
    (host : QualityGate.Host) (options : CheckOptions.t) (t : string)
    (run : QualityGate.Run) :
  t <> "error" -> t <> "critical" ->
  Js.mem t Js.object_prototype_keys = false ->
  QualityGate.check self reg host (Terms.with_threshold t options) = Js.Returned run ->
  exists run',
    QualityGate.check self reg host (Terms.with_threshold "warn" options)
    = Js.Returned run'
    /\ CheckResult.passed (QualityGate.returned run)
       = CheckResult.passed (QualityGate.returned run').
Proof.
  intros He Hc Hproto Hrun.
  destruct (results_whatever_threshold self reg host (Terms.with_threshold t options)
              "warn" run Hrun) as (run' & Hrun' & Hsame).
  exists run'. split; [exact Hrun'|].
  rewrite (check_passed self reg host _ run Hrun).
  rewrite (check_passed self reg host _ run' Hrun'), Hsame.
  change (QualityGate.resolve_severity self (Terms.with_threshold t options)) with t.
  change (QualityGate.resolve_severity self
            (Terms.with_threshold "warn" (Terms.with_threshold t options))) with "warn".
  by rewrite (_severityLevel_default t He Hc Hproto).
Qed.

Lemma other_threshold_is_warn_witness :
  "warning" <> "error" /\ "warning" <> "critical"
  /\ Js.mem "warning" Js.object_prototype_keys = false
  /\ exists run run',
       QualityGate.check Sample.gate [] Sample.host
         (Terms.with_threshold "warning"
            (Sample.options ["src/a.js"] "error"
               [Sample.failing "file-size-limit" "warn"])) = Js.Returned run
       /\ QualityGate.check Sample.gate [] Sample.host
            (Terms.with_threshold "warn"
               (Sample.options ["src/a.js"] "error"
                  [Sample.failing "file-size-limit" "warn"])) = Js.Returned run'
       /\ CheckResult.passed (QualityGate.returned run)
          = CheckResult.passed (QualityGate.returned run').
Proof.
  assert ("warning" <> "error") as He by discriminate.
  assert ("warning" <> "critical") as Hc by discriminate.
  assert (Js.mem "warning" Js.object_prototype_keys = false) as Hp by reflexivity.
  split; [exact He|]. split; [exact Hc|]. split; [exact Hp|].
  eexists.
  destruct (other_threshold_is_warn Sample.gate [] Sample.host
              (Sample.options ["src/a.js"] "error"
                 [Sample.failing "file-size-limit" "warn"])
              "warning" _ He Hc Hp eq_refl) as (run' & Hrun' & Hsame).
  exists run'. split; [vm_compute; reflexivity|]. split; [exact Hrun'|exact Hsame].
Defined.

(** ** The automatic fix *)

Section Fixes.

Import QualityGate.

Lemma strip_twice (content : string) :
  strip_trailing_whitespace (strip_trailing_whitespace content)
  = strip_trailing_whitespace content.
Proof.
  induction content as [|c rest IH]; [done|]. simpl.
  destruct (is_blank c && at_line_end (strip_trailing_whitespace rest)) eqn:Hdrop.
  - exact IH.
  - simpl. by rewrite IH, Hdrop.
Qed.

(** X5.  The text the fix writes is one the fix leaves alone; it is never
    longer than the text it was made from; and it has the same characters
    other than spaces and tabs, in the same order: the fix removes blanks
    only. *)
Theorem strip_trailing_whitespace_removes_blanks_only (content : string) :
  strip_trailing_whitespace (strip_trailing_whitespace content)
  = strip_trailing_whitespace content
  /\ String.length (strip_trailing_whitespace content) <= String.length content
  /\ Terms.without_blanks (strip_trailing_whitespace content)
     = Terms.without_blanks content.
Proof.
  split; [apply strip_twice|]. split.
  - induction content as [|c rest IH]; [done|]. simpl.
    destruct (is_blank c && at_line_end (strip_trailing_whitespace rest)); simpl; lia.
  - induction content as [|c rest IH]; [done|]. simpl.
    destruct (is_blank c) eqn:Hb; simpl.
    + destruct (at_line_end (strip_trailing_whitespace rest)); simpl;
        by rewrite ?Hb, IH.
    + by rewrite Hb, IH.
Qed.

(** One step of the fixing loop leaves the store as it is or rewrites a
    regular file with its stripped text. *)
Lemma _applyFixes_step_cases (st : Fs.t * nat) (result : RuleResult.t) :
  _applyFixes_step st result = st
  \/ exists content,
       st.1 !! RuleResult.file result = Some (Fs.RegularFile content)
       /\ Terms.strips result = true
       /\ strip_trailing_whitespace content <> content
       /\ _applyFixes_step st result
          = (<[RuleResult.file result :=
                 Fs.RegularFile (strip_trailing_whitespace content)]> st.1,
             S st.2).
Proof.
  unfold _applyFixes_step, Fs.readFileSync, Terms.strips.
  destruct (st.1 !! RuleResult.file result) as [[content|]|] eqn:Hread; [|by left..].
  destruct (String.eqb (RuleResult.rule result) "no-trailing-whitespace") eqn:Hrule.
  - destruct (String.eqb_spec (strip_trailing_whitespace content) content) as [|Hne];
      [by left|].
    right. exists content. done.
  - rewrite String.eqb_refl. by left.
Qed.

(** X6.  The fixing pass creates no file and removes none, leaves every
    file untouched that no result marked for the trailing-whitespace fix
    names, and counts at most one fix per result. *)
Theorem _applyFixes_footprint (fs : Fs.t) (fixableResults : list RuleResult.t) :
  let after := _applyFixes fs fixableResults in
  (forall p, Fs.existsSync after.1 p = Fs.existsSync fs p)
  /\ (forall p,
        ~ In p (map RuleResult.file (List.filter Terms.strips fixableResults)) ->
        after.1 !! p = fs !! p)
  /\ after.2 <= length fixableResults.
Proof.
  intros after. unfold _applyFixes in after.
  assert (forall rs (st : Fs.t * nat),
            let after := fold_left _applyFixes_step rs st in
            (forall p, Fs.existsSync after.1 p = Fs.existsSync st.1 p)
            /\ (forall p, ~ In p (map RuleResult.file (List.filter Terms.strips rs)) ->
                          after.1 !! p = st.1 !! p)
            /\ after.2 <= st.2 + length rs) as Hgen.
  { induction rs as [|r rs IH]; intros st; simpl; [repeat split; lia|].
    destruct (IH (_applyFixes_step st r)) as (Hex & Hother & Hcount).
    destruct (_applyFixes_step_cases st r) as [Hsame|(content & Hread & Hstrips & _ & Hstep)].
    - rewrite Hsame in *. repeat split; [done| |lia].
      intros p Hp. apply Hother. intros Hin. apply Hp.
      destruct (Terms.strips r); [by right|done].
    - rewrite Hstep in *. simpl in *. repeat split.
      + intros p. rewrite Hex. unfold Fs.existsSync.
        destruct (decide (RuleResult.file r = p)) as [<-|Hne].
        * by rewrite lookup_insert_eq, Hread.
        * by rewrite lookup_insert_ne.
      + intros p Hp. rewrite Hstrips in Hp. simpl in Hp.
        rewrite Hother by tauto. apply lookup_insert_ne. tauto.
      + lia. }
  destruct (Hgen fixableResults (fs, 0)) as (Hex & Hother & Hcount).
  repeat split; [exact Hex|exact Hother|exact Hcount].
Qed.

Lemma settled_no_change (rs : list RuleResult.t) (st : Fs.t * nat) :
  Terms.settled st.1 rs -> fold_left _applyFixes_step rs st = st.
Proof.
  revert st. induction rs as [|r rs IH]; intros st Hset; [done|]. simpl.
  destruct (_applyFixes_step_cases st r) as [->|(content & Hread & Hstrips & Hne & _)].
  - apply IH. intros r' c Hin. apply Hset. by right.
  - exfalso. apply Hne. apply (Hset r); [by left|done..].
Qed.

Lemma fold_settles (rs done_ : list RuleResult.t) (st : Fs.t * nat) :
  Terms.settled st.1 done_ ->
  Terms.settled (fold_left _applyFixes_step rs st).1 (done_ ++ rs).
Proof.
  revert done_ st. induction rs as [|r rs IH]; intros done_ st Hset; simpl.
  - by rewrite app_nil_r.
  - replace (done_ ++ r :: rs) with ((done_ ++ [r]) ++ rs)
      by (by rewrite <- app_assoc).
    apply IH. destruct st as [fs0 n]. simpl in Hset.
    destruct (_applyFixes_step_cases (fs0, n) r)
      as [Hsame|(content & Hread & Hstrips & Hne & Hstep)].
    + rewrite Hsame. simpl. intros r' c Hin Hs Hr'.
      apply in_app_or in Hin as [Hin|[<-|[]]]; [by apply (Hset r')|].
      unfold _applyFixes_step, Fs.readFileSync in Hsame. simpl in Hsame.
      rewrite Hr' in Hsame. unfold Terms.strips in Hs. rewrite Hs in Hsame.
      destruct (String.eqb_spec (strip_trailing_whitespace c) c) as [|Hc]; [done|].
      exfalso. injection Hsame as _ Hn. lia.
    + rewrite Hstep. simpl. intros r' c Hin Hs Hr'.
      destruct (decide (RuleResult.file r = RuleResult.file r')) as [Heq|Hneq].
      * rewrite Heq, lookup_insert_eq in Hr'. injection Hr' as <-.
        apply strip_twice.
      * rewrite lookup_insert_ne in Hr' by done.
        apply in_app_or in Hin as [Hin|[<-|[]]]; [by apply (Hset r')|done].
Qed.

(** X7.  Once the fixing pass has run, running it again over the same
    results rewrites nothing and counts no fix. *)
Theorem _applyFixes_again_fixes_nothing (fs : Fs.t) (fixableResults : list RuleResult.t) :
  _applyFixes (_applyFixes fs fixableResults).1 fixableResults
  = ((_applyFixes fs fixableResults).1, 0).
Proof.
  unfold _applyFixes.
  apply (settled_no_change fixableResults
           ((fold_left _applyFixes_step fixableResults (fs, 0)).1, 0)).
  apply (fold_settles fixableResults [] (fs, 0)). by intros r c [].
Qed.

End Fixes.

(** ** Overrides *)

Section Overrides.

Import QualityGate.

Lemma apply_override_patch (reg : RuleRegistry.t) (o : Override.t) :
  apply_override reg o
  = match RuleRegistry.get reg (Override.id o) with
    | Some i => alter (Patch.apply (Patch.of_override o)) i reg
    | None => reg
    end.
Proof.
  unfold apply_override.
  destruct (RuleRegistry.get reg (Override.id o)) as [i|]; [|done].
  apply list_eq. intros j.
  destruct (decide (i = j)) as [<-|Hne].
  - unfold Patch.apply, Patch.of_override. simpl.
    destruct (Override.enabled o), (Js.or_else (Override.severity o) None),
      (Override.config o);
      rewrite ?list_lookup_alter_eq; by destruct (reg !! i).
  - destruct (Override.enabled o), (Js.or_else (Override.severity o) None),
      (Override.config o);
      by rewrite ?list_lookup_alter_ne.
Qed.

Lemma patch_apply_id (p : Patch.t) (r : Rule.t) :
  Rule.id (Patch.apply p r) = Rule.id r.
Proof.
  unfold Patch.apply.
  by destruct (Patch.enabled p), (Patch.severity p), (Patch.config p).
Qed.

Lemma find_index_ids (id : string) (reg reg' : RuleRegistry.t) :
  map Rule.id reg' = map Rule.id reg ->
  RuleRegistry.get reg' id = RuleRegistry.get reg id.
Proof.
  unfold RuleRegistry.get. revert reg'.
  induction reg as [|r reg IH]; intros [|r' reg'] Hids; try done.
  simpl in *. injection Hids as Hid Hids. rewrite Hid.
  destruct (String.eqb (Rule.id r) id); [done|]. by rewrite (IH reg').
Qed.

Lemma alter_ids (f : Rule.t -> Rule.t) (i : nat) (reg : RuleRegistry.t) :
  (forall r, Rule.id (f r) = Rule.id r) ->
  map Rule.id (alter f i reg) = map Rule.id reg.
Proof.
  intros Hf. revert i. induction reg as [|r reg IH]; intros [|i]; simpl; try done.
  - by rewrite Hf.
  - f_equal. apply IH.
Qed.

Lemma apply_override_ids (reg : RuleRegistry.t) (o : Override.t) :
  map Rule.id (apply_override reg o) = map Rule.id reg.
Proof.
  rewrite apply_override_patch.
  destruct (RuleRegistry.get reg (Override.id o)); [|done].
  apply alter_ids. apply patch_apply_id.
Qed.

Lemma apply_overrides_ids (os : list Override.t) (reg : RuleRegistry.t) :
  map Rule.id (fold_left apply_override os reg) = map Rule.id reg.
Proof.
  revert reg. induction os as [|o os IH]; intros reg; [done|]. simpl.
  by rewrite IH, apply_override_ids.
Qed.

Lemma total_ids (reg reg' : RuleRegistry.t) (os : list Override.t) (i : nat) :
  map Rule.id reg' = map Rule.id reg ->
  Patch.total reg' os i = Patch.total reg os i.
Proof.
  intros Hids. induction os as [|o os IH]; [done|]. simpl.
  by rewrite IH, (find_index_ids _ reg reg' Hids).
Qed.

Lemma patch_apply_compose (p2 p1 : Patch.t) (r : Rule.t) :
  Patch.apply (Patch.compose p2 p1) r = Patch.apply p2 (Patch.apply p1 r).
Proof.
  unfold Patch.apply, Patch.compose. destruct r as [i n s e c cat f ch].
  destruct p1 as [e1 s1 c1], p2 as [e2 s2 c2]; simpl.
  destruct e1, e2, s1, s2, c1, c2; simpl; try done;
    unfold Rule.with_config; simpl; by rewrite ?(assoc_L (∪)).
Qed.

Lemma patch_apply_twice (p : Patch.t) (r : Rule.t) :
  Patch.apply p (Patch.apply p r) = Patch.apply p r.
Proof.
  unfold Patch.apply. destruct r as [i n s e c cat f ch].
  destruct p as [e1 s1 c1]; simpl.
  destruct e1, s1, c1; simpl; try done;
    unfold Rule.with_config; simpl;
    by rewrite (assoc_L (∪)), (idemp_L (∪)).
Qed.

(** The rule at a position, once the overrides are applied in order. *)
Lemma apply_overrides_lookup (os : list Override.t) (reg : RuleRegistry.t) (i : nat) :
  fold_left apply_override os reg !! i
  = Patch.apply (Patch.total reg os i) <$> reg !! i.
Proof.
  revert reg. induction os as [|o os IH]; intros reg; simpl.
  - by destruct (reg !! i).
  - rewrite IH, (total_ids reg _ os i (apply_override_ids reg o)).
    rewrite apply_override_patch.
    destruct (RuleRegistry.get reg (Override.id o)) as [j|] eqn:Hget.
    + destruct (decide (j = i)) as [->|Hne].
      * rewrite list_lookup_alter_eq, bool_decide_true by done.
        destruct (reg !! i); simpl; [|done]. by rewrite patch_apply_compose.
      * rewrite list_lookup_alter_ne, bool_decide_false by congruence.
        destruct (reg !! i); simpl; [|done]. by rewrite patch_apply_compose.
    + rewrite bool_decide_false by done.
      destruct (reg !! i); simpl; [|done]. by rewrite patch_apply_compose.
Qed.

(** Applying the overrides of a gate a second time changes nothing. *)
Lemma apply_overrides_twice (os : list Override.t) (reg : RuleRegistry.t) :
  fold_left apply_override os (fold_left apply_override os reg)
  = fold_left apply_override os reg.
Proof.
  apply list_eq. intros i.
  rewrite apply_overrides_lookup.
  rewrite (total_ids reg _ os i (apply_overrides_ids os reg)).
  rewrite apply_overrides_lookup.
  destruct (reg !! i); simpl; [|done]. by rewrite patch_apply_twice.
Qed.

Lemma zip_diagonal (p : Rule.t -> bool) (l : list Rule.t) :
  map snd (List.filter (fun old_new : Rule.t * Rule.t => p old_new.1) (zip l l))
  = List.filter p l.
Proof.
  induction l as [|r l IH]; [done|]. simpl.
  destruct (p r); simpl; by rewrite IH.
Qed.

Lemma filter_enabled_selected (l : list Rule.t) :
  List.filter Rule.enabled
    (List.filter
       (RuleRegistry.matches
          {| RuleRegistry.Filter.enabled := Some true;
             RuleRegistry.Filter.severity := None;
             RuleRegistry.Filter.category := None |}) l)
  = List.filter Rule.enabled l.
Proof.
  induction l as [|r l IH]; [done|]. cbn [List.filter].
  assert (RuleRegistry.matches
            {| RuleRegistry.Filter.enabled := Some true;
               RuleRegistry.Filter.severity := None;
               RuleRegistry.Filter.category := None |} r
          = Rule.enabled r) as ->.
  { unfold RuleRegistry.matches. simpl. by destruct (Rule.enabled r). }
  destruct (Rule.enabled r) eqn:Hen; cbn [List.filter]; by rewrite ?Hen, IH.
Qed.

End Overrides.

(** X8.  The overrides of a gate change the [enabled], [severity] and
    [config] of the registered rules and nothing else: after
    [_getActiveRules] the registry holds as many rules, with the same
    ids, names, categories and checks, in the same order. *)
Theorem overrides_keep_the_catalog (self : QualityGate.t) (reg : RuleRegistry.t) :
  let after := (QualityGate._getActiveRules self reg).2 in
  length after = length reg
  /\ map (fun r => (Rule.id r, Rule.name r, Rule.category r, Rule.fix_ r)) after
     = map (fun r => (Rule.id r, Rule.name r, Rule.category r, Rule.fix_ r)) reg
  /\ map Rule.check after = map Rule.check reg.
Proof.
  simpl. set (os := default [] (GateConfig.rules (QualityGate.config self))).
  split; [apply apply_overrides_length|].
  assert (forall p : Patch.t, forall r : Rule.t,
            (Rule.id (Patch.apply p r), Rule.name (Patch.apply p r),
             Rule.category (Patch.apply p r), Rule.fix_ (Patch.apply p r),
             Rule.check (Patch.apply p r))
            = (Rule.id r, Rule.name r, Rule.category r, Rule.fix_ r, Rule.check r))
    as Hkeep.
  { intros p r. unfold Patch.apply.
    by destruct (Patch.enabled p), (Patch.severity p), (Patch.config p). }
  split.
  - apply list_eq. intros i. rewrite !list_lookup_fmap, apply_overrides_lookup.
    destruct (reg !! i) as [r|]; simpl; [|done].
    specialize (Hkeep (Patch.total reg os i) r). by injection Hkeep as -> -> -> -> _.
  - apply list_eq. intros i. rewrite !list_lookup_fmap, apply_overrides_lookup.
    destruct (reg !! i) as [r|]; simpl; [|done].
    specialize (Hkeep (Patch.total reg os i) r). by injection Hkeep as _ _ _ _ ->.
Qed.

(** X9.  From the second run on, a gate works on a settled registry:
    [_getActiveRules], called on the registry that an earlier call of the
    same gate left, leaves it as it is and returns exactly its enabled
    rules. *)
Theorem second_run_uses_settled_registry (self : QualityGate.t) (reg : RuleRegistry.t) :
  let settled := (QualityGate._getActiveRules self reg).2 in
  QualityGate._getActiveRules self settled
  = (List.filter Rule.enabled settled, settled).
Proof.
  intros settled.
  assert ((QualityGate._getActiveRules self settled).2 = settled) as Hsame.
  { unfold settled. simpl. apply apply_overrides_twice. }
  rewrite (surjective_pairing (QualityGate._getActiveRules self settled)).
  f_equal; [|exact Hsame].
  unfold QualityGate._getActiveRules at 1, RuleRegistry.getAll.
  cbv zeta. cbn [fst].
  change (fold_left QualityGate.apply_override
            (default [] (GateConfig.rules (QualityGate.config self))) settled)
    with (QualityGate._getActiveRules self settled).2.
  rewrite Hsame, (deref_selected _ settled settled eq_refl), zip_diagonal.
  apply filter_enabled_selected.
Qed.

(** ** The fallback validation *)

Section Fallback.

Import ConfigValidator.

(** The four results [_basicValidate] can give. *)
Lemma _basicValidate_cases (config : Js.json) (schemaName : string) :
  let result := _basicValidate config schemaName in
  result = ok
  \/ (ValidationResult.valid result = false
      /\ ValidationResult.warnings result = []
      /\ ValidationResult.fixes result = []
      /\ exists e, ValidationResult.errors result = [e]
                   /\ In (ErrorEntry.path e) ["root"; "version"]
                   /\ In (ErrorEntry.severity e) ["critical"; "error"]
                   /\ exists hint, ErrorEntry.fix_ e = Some hint).
Proof.
  unfold _basicValidate.
  destruct (negb (Js.truthy config) || negb (Js.typeof_object config)).
  { right. repeat split. eexists. split; [reflexivity|]. simpl. eauto 10. }
  destruct (String.eqb schemaName "config"); [|by left].
  destruct (Js.prop config "version") as [version|].
  2:{ right. repeat split. eexists. split; [reflexivity|]. simpl. eauto 10. }
  destruct (negb (Js.truthy version)).
  { right. repeat split. eexists. split; [reflexivity|]. simpl. eauto 10. }
  destruct version; try by left.
  destruct (negb (semver_test s)); [|by left].
  right. repeat split. eexists. split; [reflexivity|]. simpl. eauto 10.
Qed.

(** X10.  Without the backend, a validation returns at most one error
    and never a warning; it is valid exactly when it returns no error;
    and although its error carries a fix, the list [fixes] of the result
    is always empty. *)
Theorem fallback_result_shape (config : Js.json) (schemaName : string) :
  let result := _basicValidate config schemaName in
  length (ValidationResult.errors result) <= 1
  /\ ValidationResult.warnings result = []
  /\ ValidationResult.fixes result = []
  /\ (ValidationResult.valid result = true <-> ValidationResult.errors result = [])
  /\ Forall (fun e => exists hint, ErrorEntry.fix_ e = Some hint)
            (ValidationResult.errors result).
Proof.
  cbv zeta. pose proof (_basicValidate_cases config schemaName) as Hcases.
  cbv zeta in Hcases.
  destruct Hcases as [Hok|(Hvalid & Hwarn & Hfix & e & Herr & _ & _ & Hhint)].
  - rewrite Hok. simpl. repeat split; auto.
  - rewrite Hvalid, Hwarn, Hfix, Herr. simpl. repeat split; try done; auto.
Qed.

(** X11.  Without the backend, [null] and every primitive are rejected
    with one critical error at the path [root], under every schema name;
    an array is not: it counts as an object, and is valid under every
    schema name but [config]. *)
Theorem fallback_object_test (config : Js.json) (schemaName : string) :
  let result := _basicValidate config schemaName in
  match config with
  | Js.JObj _ => True
  | Js.JArr _ => schemaName <> "config" -> result = ok
  | _ =>
      ValidationResult.valid result = false
      /\ map (fun e => (ErrorEntry.path e, ErrorEntry.severity e, ErrorEntry.message e))
             (ValidationResult.errors result)
         = [("root", "critical", "Configuration must be an object")]
  end.
Proof.
  unfold _basicValidate.
  destruct config as [|b|n|s|items|fields]; try done.
  - by destruct b.
  - simpl. by destruct (n =? 0)%Z.
  - simpl. by destruct (String.eqb s EmptyString).
  - simpl. intros Hne. apply eqb_false in Hne. by rewrite Hne.
Qed.

Lemma skip_digits_app (s t : string) (c : ascii) (rest : string) :
  skip_digits s = String c rest -> skip_digits (s +:+ t) = String c rest +:+ t.
Proof.
  induction s as [|d s IH]; [done|]. simpl.
  destruct (is_digit d); [exact IH|]. by intros [= <- <-].
Qed.

Lemma digits_app (s t : string) (c : ascii) (rest : string) :
  digits s = Some (String c rest) -> digits (s +:+ t) = Some (String c rest +:+ t).
Proof.
  destruct s as [|d s]; [done|]. simpl.
  destruct (is_digit d); [|done]. intros [= Hs].
  by rewrite (skip_digits_app s t c rest Hs).
Qed.

Lemma digits_app_some (s t r : string) :
  digits s = Some r -> exists r', digits (s +:+ t) = Some r'.
Proof.
  destruct s as [|d s]; [done|]. simpl.
  destruct (is_digit d); [|done]. eauto.
Qed.

Lemma dot_app (s t r : string) :
  dot s = Some r -> dot (s +:+ t) = Some (r +:+ t) /\ exists c rest, s = String c rest.
Proof.
  destruct s as [|c s]; [done|]. simpl.
  destruct (Ascii.eqb c "."%char); [|done]. intros [= <-]. eauto.
Qed.

(** The test of the version looks at the beginning of the text only. *)
Lemma semver_test_app (s t : string) :
  semver_test s = true -> semver_test (s +:+ t) = true.
Proof.
  unfold semver_test.
  destruct (digits s) as [r1|] eqn:H1; [simpl|done].
  destruct (dot r1) as [r2|] eqn:H2; [simpl|done].
  destruct (digits r2) as [r3|] eqn:H3; [simpl|done].
  destruct (dot r3) as [r4|] eqn:H4; [simpl|done].
  destruct (digits r4) as [r5|] eqn:H5; [simpl|done].
  intros _.
  destruct (dot_app r1 t r2 H2) as [H2' (c1 & rest1 & ->)].
  rewrite (digits_app s t c1 rest1 H1). cbn [mbind option_bind].
  rewrite H2'. cbn [mbind option_bind].
  destruct (dot_app r3 t r4 H4) as [H4' (c3 & rest3 & ->)].
  rewrite (digits_app r2 t c3 rest3 H3). cbn [mbind option_bind].
  rewrite H4'. cbn [mbind option_bind].
  destruct (digits_app_some r4 t r5 H5) as [r' ->]. done.
Qed.

(** X12.  Without the backend, the format of a version is tested at its
    beginning only: if a version passes, so does that version with any
    text put after it. *)
Theorem fallback_version_prefix (fields : list (string * Js.json)) (s t : string) :
  semver_test s = true ->
  Js.obj_get fields "version" = Some (Js.JStr (s +:+ t)) ->
  _basicValidate (Js.JObj fields) "config" = ok.
Proof.
  intros Hs Hv. unfold _basicValidate. simpl. rewrite Hv.
  assert (s +:+ t <> EmptyString) as Hne.
  { destruct s; [done|]. done. }
  apply eqb_false in Hne. simpl. rewrite Hne. simpl.
  by rewrite (semver_test_app s t Hs).
Qed.

Lemma fallback_version_prefix_witness :
  semver_test "1.0.7" = true
  /\ Js.obj_get [("version", Js.JStr ("1.0.7" +:+ " or so"))] "version"
     = Some (Js.JStr ("1.0.7" +:+ " or so"))
  /\ _basicValidate (Js.JObj [("version", Js.JStr ("1.0.7" +:+ " or so"))]) "config"
     = ok.
Proof.
  assert (semver_test "1.0.7" = true) as Hs by reflexivity.
  assert (Js.obj_get [("version", Js.JStr ("1.0.7" +:+ " or so"))] "version"
          = Some (Js.JStr ("1.0.7" +:+ " or so"))) as Hv by reflexivity.
  split; [exact Hs|]. split; [exact Hv|].
  exact (fallback_version_prefix [("version", Js.JStr ("1.0.7" +:+ " or so"))]
           "1.0.7" " or so" Hs Hv).
Defined.

(** X13.  Without the backend, only a version that is a string has its
    format tested: any other truthy version (a non-zero number, [true],
    an array, an object) makes the document valid. *)
Theorem fallback_version_not_a_string (fields : list (string * Js.json))
    (version : Js.json) :
  Js.obj_get fields "version" = Some version ->
  Js.truthy version = true ->
  (forall s, version <> Js.JStr s) ->
  _basicValidate (Js.JObj fields) "config" = ok.
Proof.
  intros Hv Ht Hns. unfold _basicValidate. simpl. rewrite Hv, Ht. simpl.
  destruct version; try done. by destruct (Hns s).
Qed.

Lemma fallback_version_not_a_string_witness :
  Js.obj_get [("version", Js.JNum 2)] "version" = Some (Js.JNum 2)
  /\ Js.truthy (Js.JNum 2) = true
  /\ (forall s, Js.JNum 2 <> Js.JStr s)
  /\ _basicValidate (Js.JObj [("version", Js.JNum 2)]) "config" = ok.
Proof.
  assert (Js.obj_get [("version", Js.JNum 2)] "version" = Some (Js.JNum 2)) as Hv
    by reflexivity.
  assert (Js.truthy (Js.JNum 2) = true) as Ht by reflexivity.
  assert (forall s, Js.JNum 2 <> Js.JStr s) as Hns by (intros s; discriminate).
  split; [exact Hv|]. split; [exact Ht|]. split; [exact Hns|].
  exact (fallback_version_not_a_string [("version", Js.JNum 2)] (Js.JNum 2) Hv Ht Hns).
Defined.

End Fallback.

(** ** The entries made of the backend's errors *)

Section Entries.

Import ConfigValidator.

Lemma getSeverityFromKeyword_range (keyword : Keyword) :
  In (getSeverityFromKeyword keyword) ["critical"; "error"; "warn"].
Proof. destruct keyword; simpl; auto. Qed.

(** X14.  [parseAJVErrors] makes one entry of each error, in order; the
    path and the message of an entry are never empty, its severity is
    [critical], [error] or [warn], never [info], and its fix, when it has
    one, is not empty. *)
Theorem parseAJVErrors_entries (ajvErrors : list AjvError.t) :
  length (parseAJVErrors ajvErrors) = length ajvErrors
  /\ map ErrorEntry.keyword (parseAJVErrors ajvErrors)
     = map (fun e => Some (AjvError.keyword e)) ajvErrors
  /\ Forall (fun e =>
       ErrorEntry.path e <> EmptyString
       /\ ErrorEntry.message e <> EmptyString
       /\ In (ErrorEntry.severity e) ["critical"; "error"; "warn"]
       /\ ErrorEntry.fix_ e <> Some EmptyString)
       (parseAJVErrors ajvErrors).
Proof.
  unfold parseAJVErrors. split; [apply length_map|]. split.
  - rewrite map_map. done.
  - apply List.Forall_forall. intros e He. apply in_map_iff in He as (err & <- & _).
    unfold parseAJVError. cbn [ErrorEntry.path ErrorEntry.message
      ErrorEntry.severity ErrorEntry.fix_]. repeat split.
    + unfold Js.or_else, Js.show.
      destruct (String.eqb_spec (AjvError.instancePath err) EmptyString); done.
    + unfold Js.or_else, Js.show. destruct (AjvError.message err) as [m|]; [|done].
      destruct (String.eqb_spec m EmptyString); done.
    + apply getSeverityFromKeyword_range.
    + unfold generateFixFromError. destruct (AjvError.keyword err); done.
Qed.

Lemma filter_partition_length {A : Type} (p : A -> bool) (l : list A) :
  length (List.filter (fun x => negb (p x)) l) + length (List.filter p l) = length l.
Proof.
  induction l as [|x l IH]; [done|]. simpl. destruct (p x); simpl; lia.
Qed.

Lemma filter_of_map {A B : Type} (f : A -> B) (p : B -> bool) (l : list A) :
  List.filter p (map f l) = map f (List.filter (fun x => p (f x)) l).
Proof.
  induction l as [|x l IH]; [done|]. simpl. destruct (p (f x)); simpl; by rewrite IH.
Qed.

(** An entry goes to [warnings] exactly when the keyword of its error is
    of severity [warn]. *)
Lemma to_warnings_of_keyword (err : AjvError.t) :
  String.eqb (ErrorEntry.severity (parseAJVError err)) "warn"
  || String.eqb (ErrorEntry.severity (parseAJVError err)) "info"
  = String.eqb (getSeverityFromKeyword (AjvError.keyword err)) "warn".
Proof.
  unfold parseAJVError. cbn [ErrorEntry.severity].
  by destruct (AjvError.keyword err).
Qed.

(** The fix of an entry is pushed whenever there is one: none is the
    empty text. *)
Lemma fix_of_entry (err : AjvError.t) :
  Js.or_else (ErrorEntry.fix_ (parseAJVError err)) None = generateFixFromError err.
Proof.
  unfold parseAJVError. cbn [ErrorEntry.fix_]. unfold generateFixFromError.
  by destruct (AjvError.keyword err).
Qed.

Lemma collect_fold_fixes_of (reported : list AjvError.t) (result : ValidationResult.t) :
  ValidationResult.fixes (fold_left collect (parseAJVErrors reported) result)
  = ValidationResult.fixes result ++ omap generateFixFromError reported.
Proof.
  revert result. induction reported as [|err reported IH]; intros result.
  - simpl. by rewrite app_nil_r.
  - change (parseAJVErrors (err :: reported))
      with (parseAJVError err :: parseAJVErrors reported).
    cbn [fold_left]. rewrite IH. clear IH.
    change (omap generateFixFromError (err :: reported))
      with (match generateFixFromError err with
            | Some y => y :: omap generateFixFromError reported
            | None => omap generateFixFromError reported
            end).
    unfold collect at 1. cbn [ValidationResult.fixes]. rewrite fix_of_entry.
    destruct (generateFixFromError err); [|done]. by rewrite <- app_assoc.
Qed.

(** X15.  With the backend, under one of the three schemas, [validate]
    returns a result made of the errors the backend reported, and of
    nothing else.  [errors] is the entries, in order, of the reported
    errors whose keyword is not of severity [warn]; [warnings] is the
    entries, in order, of those whose keyword is; [fixes] is the fixes, in
    order, of the reported errors that have one; and the result is valid
    exactly when nothing was reported.  So each reported error goes to
    [errors] or to [warnings] and none is lost, [errors] holds entries of
    severity [critical] or [error] only, [warnings] entries of severity
    [warn] only, and [fixes] has at most one text per error. *)
Theorem validate_sorts_the_errors (engine : Ajv.Engine) (options : Options.t)
    (schemaName : string) (schema : Schema.t) (config : Js.json) :
  getSchema schemaName = Js.Own schema ->
  let self := new (Some engine) options in
  let reported :=
    (Ajv.run engine (allErrors self) (writes self) schema config).2 in
  let warns := fun err =>
    String.eqb (getSeverityFromKeyword (AjvError.keyword err)) "warn" in
  exists result,
    (validate self config (Some schemaName)).1 = Js.Returned result
    /\ (ValidationResult.valid result = true <-> reported = [])
    /\ ValidationResult.errors result
       = parseAJVErrors (List.filter (fun err => negb (warns err)) reported)
    /\ ValidationResult.warnings result
       = parseAJVErrors (List.filter warns reported)
    /\ ValidationResult.fixes result = omap generateFixFromError reported
    /\ length (ValidationResult.errors result)
       + length (ValidationResult.warnings result) = length reported
    /\ Forall (fun e => In (ErrorEntry.severity e) ["critical"; "error"])
              (ValidationResult.errors result)
    /\ Forall (fun e => ErrorEntry.severity e = "warn")
              (ValidationResult.warnings result)
    /\ length (ValidationResult.fixes result) <= length reported.
Proof.
  intros Hs self reported warns.
  assert (exists result,
    (validate self config (Some schemaName)).1 = Js.Returned result
    /\ (ValidationResult.valid result = true <-> reported = [])
    /\ ValidationResult.errors result
       = parseAJVErrors (List.filter (fun err => negb (warns err)) reported)
    /\ ValidationResult.warnings result
       = parseAJVErrors (List.filter warns reported)
    /\ ValidationResult.fixes result = omap generateFixFromError reported)
    as (result & Hv & Hvalid & Herr & Hwarn & Hfix).
  { unfold reported. clear reported.
    pose proof (validate_compiled engine options schemaName schema config Hs) as Hrun.
    cbv zeta in Hrun. fold self in Hrun. rewrite Hrun. clear Hrun. cbn [fst].
    assert ((Ajv.run engine (allErrors self) (writes self) schema config).1
            = match (Ajv.run engine (allErrors self) (writes self) schema config).2
              with [] => true | _ => false end) as Hverdict by reflexivity.
    destruct (Ajv.run engine (allErrors self) (writes self) schema config)
      as [verdict reported].
    cbn [fst snd] in *. subst verdict.
    destruct reported as [|e0 reported0] eqn:Hreported.
    { eexists. split; [reflexivity|]. simpl. repeat split; auto. }
    rewrite <- Hreported.
    assert (reported <> []) as Hsome by (rewrite Hreported; discriminate).
    clear Hreported e0 reported0.
    eexists. split; [reflexivity|].
    pose proof (collect_fold (parseAJVErrors reported)
                  {| ValidationResult.valid := false; ValidationResult.errors := [];
                     ValidationResult.warnings := []; ValidationResult.fixes := [] |})
      as Hfold.
    cbv zeta in Hfold. destruct Hfold as (Hvalid & Herr & Hwarn).
    rewrite Hvalid, Herr, Hwarn, collect_fold_fixes_of.
    cbn [ValidationResult.valid ValidationResult.errors ValidationResult.warnings
         ValidationResult.fixes app].
    unfold parseAJVErrors. rewrite !filter_of_map.
    split; [split; [discriminate|done]|]. split; [|split; [|done]].
    - f_equal. apply List.filter_ext. intros err.
      by rewrite to_warnings_of_keyword.
    - f_equal. apply List.filter_ext. intros err.
      by rewrite to_warnings_of_keyword. }
  exists result. split; [exact Hv|]. repeat split; try tauto.
  - rewrite Herr, Hwarn. unfold parseAJVErrors. rewrite !length_map.
    apply filter_partition_length.
  - rewrite Herr. apply List.Forall_forall. intros e He.
    apply in_map_iff in He as (err & <- & He). apply filter_In in He as [_ Hsev].
    unfold warns in Hsev. unfold parseAJVError. cbn [ErrorEntry.severity].
    destruct (getSeverityFromKeyword_range (AjvError.keyword err))
      as [<-|[<-|[Hw|[]]]]; simpl; auto.
    rewrite <- Hw in Hsev. done.
  - rewrite Hwarn. apply List.Forall_forall. intros e He.
    apply in_map_iff in He as (err & <- & He). apply filter_In in He as [_ Hsev].
    unfold warns in Hsev. unfold parseAJVError. cbn [ErrorEntry.severity].
    by apply String.eqb_eq in Hsev.
  - rewrite Hfix. clear. induction reported as [|err reported IH]; [done|].
    change (omap generateFixFromError (err :: reported))
      with (match generateFixFromError err with
            | Some y => y :: omap generateFixFromError reported
            | None => omap generateFixFromError reported
            end).
    destruct (generateFixFromError err); simpl; lia.
Qed.

Lemma validate_sorts_the_errors_witness :
  getSchema "config" = Js.Own CONFIG_SCHEMA
  /\ exists result,
       (validate (new (Some Sample.lenient) Sample.default_options) (Js.JObj [])
          (Some "config")).1 = Js.Returned result
       /\ ValidationResult.errors result
          = parseAJVErrors
              (List.filter
                 (fun err =>
                    negb (String.eqb (getSeverityFromKeyword (AjvError.keyword err))
                            "warn"))
                 (Ajv.run Sample.lenient true true CONFIG_SCHEMA (Js.JObj [])).2)
       /\ ValidationResult.fixes result = ["Add missing field: version"].
Proof.
  assert (getSchema "config" = Js.Own CONFIG_SCHEMA) as Hs by reflexivity.
  split; [exact Hs|].
  destruct (validate_sorts_the_errors Sample.lenient Sample.default_options "config"
              CONFIG_SCHEMA (Js.JObj []) Hs) as (result & Hv & _ & Herr & _ & Hfix & _).
  exists result. split; [exact Hv|]. split; [exact Herr|].
  rewrite Hfix. reflexivity.
Defined.

End Entries.

Section Warnings.

Import ConfigValidator.





End Warnings.

Section Verdicts.

Import ConfigValidator.

(** X17.  Whatever the validator, the document and the schema name, a
    result of [validate] that is valid is the empty result: it has no
    error, no warning and no fix.  So a result with a warning is never
    valid. *)
Theorem valid_result_is_empty (self : t) (config : Js.json)
    (schemaName : option string) (result : ValidationResult.t) :
  (validate self config schemaName).1 = Js.Returned result ->
  ValidationResult.valid result = true ->
  result = ok.
Proof.
  unfold validate. intros Hrun Hvalid.
  destruct (ajv self) as [engine|]; cbn [fst] in Hrun.
  - destruct (_getValidator self (default "config" schemaName)) as [validator|];
      cbn [fst] in Hrun.
    + destruct (call engine self validator config) as [[[|] [reported|]]|e];
        try congruence.
      injection Hrun as <-.
      pose proof (collect_fold (parseAJVErrors reported)
                    {| ValidationResult.valid := false; ValidationResult.errors := [];
                       ValidationResult.warnings := [];
                       ValidationResult.fixes := [] |}) as Hfold.
      cbv zeta in Hfold. destruct Hfold as (Hv & _).
      rewrite Hv in Hvalid. discriminate.
    + injection Hrun as <-. discriminate.
  - injection Hrun as <-.
    destruct (_basicValidate_cases config (default "config" schemaName))
      as [Hok|(Hinvalid & _)]; [exact Hok|].
    cbv zeta in Hinvalid. rewrite Hinvalid in Hvalid. discriminate.
Qed.

Lemma valid_result_is_empty_witness :
  exists result,
    (validate Sample.with_backend (Js.JObj Sample.versioned) None).1
    = Js.Returned result
    /\ ValidationResult.valid result = true
    /\ result = ok.
Proof.
  exists ok. split; [reflexivity|]. split; [reflexivity|].
  apply (valid_result_is_empty Sample.with_backend (Js.JObj Sample.versioned) None);
    reflexivity.
Defined.

End Verdicts.

(** ** The severity of an error object *)

Section Severities.

Lemma levels_own (severity : string) (n : nat) :
  Js.table_get SMCError.levels severity = Js.Own n
  <-> Props.spec_rank severity = Some n.
Proof.
  unfold Js.table_get, Props.spec_rank, SMCError.levels.
  destruct (Js.assoc _ severity) as [k|].
  - split; congruence.
  - split; [|done]. by destruct (Js.mem severity Js.object_prototype_keys).
Qed.

Lemma spec_rank_known (severity : string) :
  In severity ["info"; "warn"; "error"; "critical"]
  <-> exists n, Props.spec_rank severity = Some n.
Proof.
  unfold Props.spec_rank. cbn [Js.assoc]. split.
  - intros [<-|[<-|[<-|[<-|[]]]]]; eexists; reflexivity.
  - intros [n Hn]. simpl.
    destruct (String.eqb_spec "info" severity); [auto|].
    destruct (String.eqb_spec "warn" severity); [auto|].
    destruct (String.eqb_spec "error" severity); [auto|].
    destruct (String.eqb_spec "critical" severity); [auto 6|]. discriminate.
Qed.

(** What [levels[severity]] is: the rank of one of the four levels, the
    text of a member of [Object.prototype], or [NaN]. *)
Lemma level_cases (severity : string) :
  (exists n, SMCError.level severity = Js.Num n
             /\ Props.spec_rank severity = Some n
             /\ In severity ["info"; "warn"; "error"; "critical"])
  \/ (SMCError.level severity = Js.Text (Js.member_text severity)
      /\ ~ In severity ["info"; "warn"; "error"; "critical"]
      /\ In severity Js.object_prototype_keys)
  \/ (SMCError.level severity = Js.NaN
      /\ ~ In severity ["info"; "warn"; "error"; "critical"]
      /\ ~ In severity Js.object_prototype_keys).
Proof.
  unfold SMCError.level.
  destruct (Js.table_get SMCError.levels severity) as [n| |] eqn:Hget.
  - left. exists n. apply levels_own in Hget. split; [done|]. split; [done|].
    apply spec_rank_known. eauto.
  - right. left. split; [done|].
    assert (Props.spec_rank severity = None) as Hnone.
    { destruct (Props.spec_rank severity) as [n|] eqn:Hrank; [|done].
      apply levels_own in Hrank. congruence. }
    split.
    + intros [n Hn]%spec_rank_known. congruence.
    + apply mem_In. revert Hget. unfold Js.table_get.
      change (Js.assoc SMCError.levels severity) with (Props.spec_rank severity).
      rewrite Hnone. by destruct (Js.mem severity Js.object_prototype_keys).
  - right. right. split; [done|].
    assert (Props.spec_rank severity = None) as Hnone.
    { destruct (Props.spec_rank severity) as [n|] eqn:Hrank; [|done].
      apply levels_own in Hrank. congruence. }
    split.
    + intros [n Hn]%spec_rank_known. congruence.
    + rewrite <- mem_In. revert Hget. unfold Js.table_get.
      change (Js.assoc SMCError.levels severity) with (Props.spec_rank severity).
      rewrite Hnone. by destruct (Js.mem severity Js.object_prototype_keys).
Qed.

Lemma leb_refl (s : string) : String.leb s s = true.
Proof.
  by destruct (String.leb_total s s).
Qed.

(** X18.  [hasSeverity] orders the four levels, and the names that an
    object inherits.  Between two of [info], [warn], [error], [critical]
    it compares the ranks 0, 1, 2, 3.  An error has its own severity
    exactly when that severity is one of the four or a member of
    [Object.prototype], [toString] say: the two functions are then
    compared as texts.  An error that has a severity has one of the same
    kind as its own: both among the four, or both members of
    [Object.prototype]; so an error whose severity is [toString] does not
    have [info].  And the order is transitive: an error that has the
    severity of a second error has every severity the second has. *)
Theorem hasSeverity_orders_the_levels (e e' : SMCError.t) (m : string) :
  (forall a b,
     Props.spec_rank (SMCError.severity e) = Some a ->
     Props.spec_rank m = Some b ->
     (SMCError.hasSeverity e m = true <-> b <= a))
  /\ (SMCError.hasSeverity e (SMCError.severity e) = true
      <-> In (SMCError.severity e) ["info"; "warn"; "error"; "critical"]
          \/ In (SMCError.severity e) Js.object_prototype_keys)
  /\ (SMCError.hasSeverity e m = true ->
      (In (SMCError.severity e) ["info"; "warn"; "error"; "critical"]
       /\ In m ["info"; "warn"; "error"; "critical"])
      \/ (In (SMCError.severity e) Js.object_prototype_keys
          /\ In m Js.object_prototype_keys))
  /\ (SMCError.hasSeverity e (SMCError.severity e') = true ->
      SMCError.hasSeverity e' m = true ->
      SMCError.hasSeverity e m = true).
Proof.
  unfold SMCError.hasSeverity. split; [|split; [|split]].
  - intros a b Ha Hb. apply levels_own in Ha. apply levels_own in Hb.
    unfold SMCError.level. rewrite Ha, Hb. simpl. apply Nat.leb_le.
  - destruct (level_cases (SMCError.severity e))
      as [(n & -> & _ & Hin)|[(-> & Hout & Hin)|(-> & Hout & Hout')]];
      cbn [Js.num_ge].
    + rewrite Nat.leb_refl. tauto.
    + rewrite leb_refl. tauto.
    + split; [done|]. tauto.
  - destruct (level_cases (SMCError.severity e))
      as [(n & -> & _ & Hin)|[(-> & _ & Hin)|(-> & _)]];
      destruct (level_cases m)
        as [(n' & -> & _ & Hin')|[(-> & _ & Hin')|(-> & _)]];
      cbn [Js.num_ge]; try done; auto.
  - apply num_ge_trans.
Qed.

Lemma hasSeverity_orders_the_levels_witness :
  let e := SMCError.new "SMCError" "failed"
             {| SMCError.Options.code := None;
                SMCError.Options.severity := Some "toString";
                SMCError.Options.details := None;
                SMCError.Options.hints := None;
                SMCError.Options.docUrl := None |} in
  SMCError.hasSeverity e "toString" = true
  /\ SMCError.hasSeverity e "info" <> true.
Proof.
  intros e.
  destruct (hasSeverity_orders_the_levels e e "info") as (_ & Hown & Hkind & _).
  split.
  - apply Hown. right. unfold e. simpl. tauto.
  - intros Hhas. destruct (Hkind Hhas) as [[Hin _]|[_ Hin]].
    + unfold e in Hin. simpl in Hin.
      repeat (destruct Hin as [Hin|Hin]; [discriminate|]). done.
    + simpl in Hin. repeat (destruct Hin as [Hin|Hin]; [discriminate|]). done.
Defined.

End Severities.

(** ** Checking or raising *)

Section CheckOrThrow.

Import QualityGate.

(** X19.  [checkOrThrow] makes the run that [check] makes on the gate it
    constructs, and makes it whole, reports and fixes included, whether
    it then returns or raises.  It returns the result of the run when the
    run passed.  Otherwise it raises a [QualityGateError] of code
    [ERR_QUALITY_GATE] and severity [error] that holds the whole result;
    its details say [passed: false], give the number of results as
    [total] and the numbers of results of severity [critical], [error]
    and [warn]; and some result of the run is failing and not skipped.
    When [check] itself was left, [checkOrThrow] is left with the same
    exception. *)
Theorem checkOrThrow_raises_the_result (rt : Runtime) (reg : RuleRegistry.t)
    (host : Host) (gateOptions : Options.t) (options : CheckOptions.t) :
  let run := check (new rt (fs host) gateOptions) reg host options in
  (checkOrThrow rt reg host gateOptions options).2 = run
  /\ match run, (checkOrThrow rt reg host gateOptions options).1 with
     | Js.Returned finished, Js.Returned r =>
         r = returned finished /\ CheckResult.passed r = true
     | Js.Returned finished, Js.Raised (GateFailed e) =>
         let result := returned finished in
         let rs := CheckResult.results result in
         CheckResult.passed result = false
         /\ QualityGateError.results e = Some result
         /\ QualityGateError.code e = "ERR_QUALITY_GATE"
         /\ QualityGateError.severity e = "error"
         /\ QualityGateError.details e
            = {| QualityGateError.passed := false;
                 QualityGateError.total := length rs;
                 QualityGateError.critical :=
                   length (List.filter (Props.has_severity "critical") rs);
                 QualityGateError.error :=
                   length (List.filter (Props.has_severity "error") rs);
                 QualityGateError.warn :=
                   length (List.filter (Props.has_severity "warn") rs) |}
         /\ exists r, In r rs /\ RuleResult.pass r = false /\ RuleResult.skip r = false
     | Js.Raised aborted, Js.Raised (Rejected e) => e = reason aborted
     | _, _ => False
     end.
Proof.
  intros run. unfold checkOrThrow. cbv zeta. fold run.
  destruct run as [finished|aborted] eqn:Hrun; [|done].
  destruct (CheckResult.passed (returned finished)) eqn:Hpassed; cbn [negb fst snd].
  { done. }
  split; [done|]. cbv zeta.
  split; [done|]. split; [done|]. split; [done|]. split; [done|].
  split.
  - cbn [QualityGateError.new QualityGateError.details]. rewrite Hpassed.
    destruct (check_summary_counts (new rt (fs host) gateOptions) reg host options
                finished Hrun) as (Hc & He & Hw & _).
    destruct (check_sizes (new rt (fs host) gateOptions) reg host options
                finished Hrun) as (Ht & _).
    cbv zeta in Hc, He, Hw, Ht. rewrite Hc, He, Hw, Ht. done.
  - apply (passed_false_iff (new rt (fs host) gateOptions) reg host options
             finished Hrun) in Hpassed as (r & Hin & Hp & Hs & _).
    exists r. done.
Qed.

End CheckOrThrow.

(** ** Validating a file *)

Section Files.

Import ConfigValidator.

Lemma detect_known (filename : string) :
  exists schema, getSchema (detect filename) = Js.Own schema.
Proof.
  unfold detect.
  destruct (String.eqb filename "config.json"); [by eexists|].
  destruct (String.eqb filename "settings.json"
            || String.eqb filename "settings.local.json"); [by eexists|].
  destruct (String.eqb filename "quality-gate.json"); by eexists.
Qed.

(** X20.  With the schema name left out, or empty, [validateFile] on a
    validator that the constructor made, with the backend or without,
    settles on one of the three schemas, and on a regular file it never
    raises: it returns the result of [validate] on the parsed document
    under that schema, or, when the text does not parse, the result that
    reports the parse error. *)
Theorem validateFile_detects_the_schema (rt : Runtime) (Ajv : option Ajv.Engine)
    (options : Options.t) (fs : Fs.t) (configPath content : string)
    (schemaName : option string) :
  In schemaName [None; Some EmptyString] ->
  fs !! configPath = Some (Fs.RegularFile content) ->
  let self := new Ajv options in
  let name := detect (basename rt configPath) in
  (exists schema, getSchema name = Js.Own schema)
  /\ exists result,
       validateFile rt self fs configPath schemaName = Js.Returned result
       /\ match JSON_parse rt content with
          | Js.Returned config =>
              (validate self config (Some name)).1 = Js.Returned result
          | Js.Raised message => result = parse_error fs configPath message
          end.
Proof.
  intros Hname Hfile self name.
  destruct (detect_known (basename rt configPath)) as [schema Hschema].
  fold name in Hschema. split; [eauto|].
  assert (schema_for rt configPath schemaName = name) as Hdetected
    by (by destruct Hname as [<-|[<-|[]]]).
  unfold validateFile. cbv zeta. rewrite Hdetected.
  unfold Fs.existsSync, Fs.readFileSync. rewrite Hfile. cbn [negb].
  destruct (JSON_parse rt content) as [config|message]; [|eauto].
  destruct Ajv as [engine|].
  - pose proof (validate_compiled engine options name schema config Hschema) as Hrun.
    cbv zeta in Hrun. fold self in Hrun. rewrite Hrun. cbn [fst]. eauto.
  - unfold validate. cbn [self new ajv fst]. eauto.
Qed.

Lemma validateFile_detects_the_schema_witness :
  In None [None; Some EmptyString]
  /\ Sample.disk !! "src/a.js" = Some (Fs.RegularFile "const x = 1;")
  /\ exists result,
       validateFile Terms.flat_runtime Sample.with_backend Sample.disk "src/a.js" None
       = Js.Returned result.
Proof.
  assert (In (@None string) [None; Some EmptyString]) as Hname by (simpl; auto).
  assert (Sample.disk !! "src/a.js" = Some (Fs.RegularFile "const x = 1;")) as Hfile
    by reflexivity.
  split; [exact Hname|]. split; [exact Hfile|].
  destruct (validateFile_detects_the_schema Terms.flat_runtime (Some Sample.lenient)
              Sample.default_options Sample.disk "src/a.js" "const x = 1;" None
              Hname Hfile) as (_ & result & Hrun & _).
  exists result. exact Hrun.
Defined.

End Files.

(** ** The place of a parse error *)

Section Places.

Import ConfigValidator.

Lemma split_lines_cons (s : string) :
  exists line lines, split_lines s = line :: lines.
Proof.
  induction s as [|c rest (line & lines & IH)]; [by eexists _, _|].
  simpl. rewrite IH. destruct (is_lf c); by eexists _, _.
Qed.

(** The last line feed of a text and its last line: there is no line
    feed and the text is its one line, or the last line is what follows
    the last line feed. *)
Lemma last_lf_last_line (s : string) :
  (last_lf s = (-1)%Z /\ split_lines s = [s])
  \/ ((0 <= last_lf s)%Z
      /\ exists line lines, split_lines s = line :: lines /\ lines <> []
      /\ Z.of_nat (String.length s)
         = (last_lf s + 1 + Z.of_nat (String.length (List.last lines EmptyString)))%Z).
Proof.
  induction s as [|c rest IH]; [by left|].
  cbn [last_lf split_lines String.length].
  destruct IH as [[Hk Hone]|(Hk & line & lines & Hsplit & Hmore & Hlen)].
  - rewrite Hk, Hone. change (0 <=? -1)%Z with false. cbn iota.
    destruct (is_lf c).
    + right. split; [lia|]. exists EmptyString, [rest]. split; [done|].
      split; [done|]. simpl. lia.
    + by left.
  - rewrite Hsplit. apply Z.leb_le in Hk as Hk'. rewrite Hk'. right. split; [lia|].
    destruct (is_lf c).
    + exists EmptyString, (line :: lines). split; [done|]. split; [done|].
      destruct lines as [|l ls]; [done|].
      change (List.last (line :: l :: ls) EmptyString)
        with (List.last (l :: ls) EmptyString). lia.
    + exists (String c line), lines. split; [done|]. split; [done|]. lia.
Qed.

Lemma substring0_length (pos : nat) (s : string) :
  pos <= String.length s -> String.length (substring0 pos s) = pos.
Proof.
  revert s. induction pos as [|pos IH]; intros [|c rest]; simpl; try lia.
  intros Hle. rewrite IH; lia.
Qed.

(** X21.  For a position inside the text, or at its end, and not at its
    start, the place that [_suggestJsonFix] computes is the one an editor
    shows: the line is the number of lines that the first [pos]
    characters make, counted from 1, and the column is 1 more than the
    length of the last of those lines.  At position 0 the line is 1 and
    the column is 1, except in a text that begins with a line feed, where
    the column is 0. *)
Theorem locate_line_and_column (content : string) (pos : nat) :
  (0 < pos <= String.length content ->
   locate content pos
   = (length (Terms.lines_before pos content),
      Z.of_nat (S (String.length (List.last (Terms.lines_before pos content)
                                            EmptyString))))
   /\ 1 <= (locate content pos).1 <= pos + 1)
  /\ locate content 0
     = (1, match content with
           | String c _ => if is_lf c then 0%Z else 1%Z
           | EmptyString => 1%Z
           end).
Proof.
  split.
  2:{ unfold locate, lastIndexOf_lf. destruct content as [|c rest]; [done|].
      simpl. by destruct (is_lf c). }
  intros [Hpos Hle]. unfold locate, Terms.lines_before, lastIndexOf_lf. cbn [fst].
  replace (S (Z.to_nat (Z.max (Z.of_nat pos - 1) 0))) with pos by lia.
  pose proof (substring0_length pos content Hle) as Hlen.
  destruct (last_lf_last_line (substring0 pos content))
    as [[Hk Hone]|(Hk & line & lines & Hsplit & Hmore & Hsum)].
  - rewrite Hk, Hone. simpl. rewrite Hlen. split; [f_equal; lia|lia].
  - rewrite Hsplit. rewrite Hlen in Hsum. split.
    + f_equal. destruct lines as [|l ls]; [done|].
      change (List.last (line :: l :: ls) EmptyString)
        with (List.last (l :: ls) EmptyString). lia.
    + simpl. split; [lia|].
      assert (length (split_lines (substring0 pos content))
              <= String.length (substring0 pos content) + 1) as Hbound.
      { generalize (substring0 pos content). clear. intros s.
        induction s as [|c rest IH]; [simpl; lia|]. simpl.
        destruct (split_lines_cons rest) as (l0 & ls0 & Hs). rewrite Hs in *.
        destruct (is_lf c); simpl in *; lia. }
      rewrite Hsplit, Hlen in Hbound. simpl in Hbound. lia.
Qed.

Lemma locate_line_and_column_witness :
  0 < 16 <= String.length Sample.untidy
  /\ locate Sample.untidy 16 = (2, 1%Z).
Proof.
  assert (0 < 16 <= String.length Sample.untidy) as Hpos by (vm_compute; lia).
  split; [exact Hpos|].
  exact (proj1 (proj1 (locate_line_and_column Sample.untidy 16) Hpos)).
Defined.

End Places.

(** ** What a validation raises *)

Section Raising.

Import ConfigValidator.

(** X22.  [validate], on a validator that the constructor made, raises
    only with the backend and only under a schema name that is the name
    of a member of [Object.prototype]: without the backend, and under
    every other name, known or unknown, it returns a result. *)
Theorem validate_raises_on_inherited_names_only (Ajv : option Ajv.Engine)
    (options : Options.t) (config : Js.json) (schemaName : option string)
    (e : Exception) :
  (validate (new Ajv options) config schemaName).1 = Js.Raised e ->
  Ajv <> None
  /\ exists name, schemaName = Some name
                  /\ Js.mem name Js.object_prototype_keys = true.
Proof.
  unfold validate. destruct Ajv as [engine|]; [|discriminate].
  change (ajv (new (Some engine) options)) with (Some engine). cbv iota beta.
  intros Hraised. split; [done|].
  assert (Js.mem (default "config" schemaName) Js.object_prototype_keys = true
          -> exists name, schemaName = Some name
                          /\ Js.mem name Js.object_prototype_keys = true) as Hgiven.
  { destruct schemaName as [name|]; [eauto|discriminate]. }
  apply Hgiven. clear Hgiven. revert Hraised.
  generalize (default "config" schemaName). intros name Hraised.
  unfold _getValidator, Js.table_get in Hraised. cbn [Js.assoc] in Hraised.
  assert (forall schema,
            match call engine (new (Some engine) options) (Compiled schema) config with
            | Js.Raised e' => Js.Raised e'
            | Js.Returned (true, _) => Js.Returned ok
            | Js.Returned (false, None) => Js.Raised TypeError
            | Js.Returned (false, Some errors) =>
                Js.Returned
                  (fold_left collect (parseAJVErrors errors)
                     {| ValidationResult.valid := false;
                        ValidationResult.errors := [];
                        ValidationResult.warnings := [];
                        ValidationResult.fixes := [] |})
            end <> Js.Raised e) as Hreturns.
  { intros schema. cbn [call].
    by destruct (Ajv.run engine (allErrors (new (Some engine) options))
                   (writes (new (Some engine) options)) schema config).1. }
  destruct (String.eqb "config" name); [by apply Hreturns in Hraised|].
  destruct (String.eqb "settings" name); [by apply Hreturns in Hraised|].
  destruct (String.eqb "quality-gate" name); [by apply Hreturns in Hraised|].
  destruct (Js.mem name Js.object_prototype_keys); [done|discriminate].
Qed.

Lemma validate_raises_on_inherited_names_only_witness :
  (validate (new (Some Sample.lenient) Sample.default_options) (Js.JObj [])
     (Some "valueOf")).1 = Js.Raised TypeError
  /\ Js.mem "valueOf" Js.object_prototype_keys = true.
Proof.
  assert ((validate (new (Some Sample.lenient) Sample.default_options) (Js.JObj [])
             (Some "valueOf")).1 = Js.Raised TypeError) as Hraised by reflexivity.
  split; [exact Hraised|].
  destruct (validate_raises_on_inherited_names_only (Some Sample.lenient)
              Sample.default_options (Js.JObj []) (Some "valueOf") TypeError Hraised)
    as (_ & name & Hname & Hmem).
  injection Hname as <-. exact Hmem.
Defined.

(** X23.  Without the backend, [validateOrThrow] returns the address it
    was given or raises a [ConfigError], never anything else, and leaves
    the store as it was; the [ConfigError] carries exactly one error, and
    although that error has a fix, the error object counts no fix. *)
Theorem fallback_raises_one_error (options : Options.t) (store : Store)
    (config : nat) (schemaName : option string) :
  let outcome := validateOrThrow (new None options) store config schemaName in
  outcome.2 = store
  /\ match outcome.1 with
     | Js.Returned address =>
         address = config
         /\ _basicValidate (store config) (default "config" schemaName) = ok
     | Js.Raised (ConfigErrorRaised e) =>
         ConfigError.errorCount (ConfigError.details e) = 1
         /\ ConfigError.fixCount (ConfigError.details e) = 0
         /\ ConfigError.fixes e = []
         /\ exists entry hint,
              ConfigError.errors e = [entry]
              /\ ErrorEntry.fix_ entry = Some hint
              /\ In (ErrorEntry.severity entry) ["critical"; "error"]
     | Js.Raised TypeError => False
     end.
Proof.
  unfold validateOrThrow, validate.
  change (ajv (new None options)) with (@None Ajv.Engine).
  cbv iota beta zeta. cbn [fst snd write].
  destruct (_basicValidate_cases (store config) (default "config" schemaName))
    as [Hok|(Hinvalid & _ & Hfixes & entry & Herrors & _ & Hsev & hint & Hfix)];
    cbv zeta in *.
  - rewrite Hok. done.
  - rewrite Hinvalid. cbn [negb fst snd]. split; [done|].
    cbn [ConfigError.new ConfigError.details ConfigError.errorCount
         ConfigError.fixCount ConfigError.fixes ConfigError.errors].
    rewrite Herrors, Hfixes. eauto 10.
Qed.

End Raising.

(** ** The files of a project *)

Section Scan.

Import ProjectFiles.

Variable rt : Runtime.

Lemma scan_levels_found (levels : nat) (dir path : string) :
  In path (scan_levels rt levels dir)
  <-> exists dirs file,
        Terms.found rt dir dirs file path
        /\ length dirs < levels
        /\ Forall (fun d => Js.mem d ignoreDirs = false) dirs
        /\ Js.mem (extname rt file) checkExts = true.
Proof.
  revert dir. induction levels as [|levels IH]; intros dir.
  { split; [intros []|]. intros (dirs & file & _ & Hlen & _). lia. }
  cbn [scan_levels]. split.
  - destruct (readdirSync rt dir) as [entries|] eqn:Hread; [|intros []].
    rewrite in_flat_map. intros ([name kind] & Hentry & Hin). cbn [ProjectFiles.name
      ProjectFiles.kind] in Hin. destruct kind.
    + destruct (Js.mem (extname rt name) checkExts) eqn:Hext; [|destruct Hin].
      destruct Hin as [<-|[]]. exists [], name. split; [by econstructor|].
      split; [simpl; lia|]. split; [constructor|exact Hext].
    + destruct (Js.mem name ignoreDirs) eqn:Hignored; [destruct Hin|].
      apply IH in Hin as (dirs & file & Hfound & Hlen & Hdirs & Hext).
      exists (name :: dirs), file. split; [by econstructor|].
      split; [simpl; lia|]. split; [by constructor|exact Hext].
    + destruct Hin.
  - intros (dirs & file & Hfound & Hlen & Hdirs & Hext).
    inversion Hfound as [dir' entries file' Hread Hentry
                        |dir' entries d dirs' file' path' Hread Hentry Hbelow]; subst.
    + rewrite Hread. apply in_flat_map. eexists. split; [exact Hentry|].
      cbn [ProjectFiles.name ProjectFiles.kind]. rewrite Hext. by left.
    + rewrite Hread. apply in_flat_map. eexists. split; [exact Hentry|].
      cbn [ProjectFiles.name ProjectFiles.kind].
      inversion Hdirs as [|? ? Hd Hrest]; subst. rewrite Hd.
      apply IH. exists dirs', file. simpl in Hlen. repeat split; [done|lia|done|done].
Qed.

(** X24.  The files [_getProjectFiles] collects are exactly the regular
    files of a checked extension that lie in the project directory or
    below it, under at most ten directories none of which has an ignored
    name.  The name of the project directory itself is not looked at, and
    an entry that is neither a regular file nor a directory is passed
    over. *)
Theorem project_files_are_the_checked_files (self : QualityGate.t) (fs : Fs.t)
    (path : string) :
  In path (QualityGate._getProjectFiles self (host rt fs))
  <-> exists dirs file,
        Terms.found rt (QualityGate.projectDir self) dirs file path
        /\ length dirs <= 10
        /\ Forall (fun d => Js.mem d ignoreDirs = false) dirs
        /\ Js.mem (extname rt file) checkExts = true.
Proof.
  unfold QualityGate._getProjectFiles, host, scanDir. cbn [QualityGate.scan].
  rewrite scan_levels_found. change (11 - 0) with 11.
  split; intros (dirs & file & Hfound & Hlen & Hrest);
    exists dirs, file; (split; [exact Hfound|]); (split; [lia|exact Hrest]).
Qed.

End Scan.

(** The scan of the small project: the file of the ignored directory and
    the file of an extension that is not checked are left out. *)
Example scan_of_small_project :
  ProjectFiles.scanDir Terms.small_project "." 0 = ["./a.js"; "./src/b.ts"].
Proof. reflexivity. Qed.

